(** * avito_parser: a shallow embedding of [avito_parser.py]

    The development follows the layout of the Python module:

    - Python values the module manipulates ([str] as a sequence of Unicode
      code points, [int] as [Z], exceptions as an error result);
    - the standard-library calls it makes ([str.split], [str.replace],
      [re.sub], [int], [urllib.parse.quote], [datetime.strptime],
      [str(datetime)]), each modelled at the inputs the module can pass;
    - the module's functions, under their own names;
    - the two generators ([get_pages], [get_all_ads]) as explicit
      resumable state machines whose [next] step returns the events it
      performed (HTTP requests, sleeps, HTML parses);
    - the properties of the specification, one theorem per claim. *)

From Stdlib Require Import ZArith NArith QArith List String Ascii Bool Lia.
From stdpp Require Import base option list gmap.

Local Open Scope Z_scope.

(** ** Python strings

    A Python 3 [str] is a sequence of code points.  Literals are written
    as UTF-8 text and decoded, so that the model compares code points the
    way Python does. *)

Module PyStr.

Definition char := N.
Definition str := list char.

Definition continuation (b : N) : N := N.land b 63.

(** UTF-8 decoding of well-formed text (used for literals only). *)
Fixpoint utf8_decode (fuel : nat) (bs : list N) : str :=
  match fuel, bs with
  | O, _ => []
  | _, [] => []
  | S fuel, b0 :: rest =>
      if (b0 <? 128)%N then b0 :: utf8_decode fuel rest
      else if (b0 <? 224)%N then
        match rest with
        | b1 :: rest =>
            (N.shiftl (N.land b0 31) 6 + continuation b1)%N
              :: utf8_decode fuel rest
        | _ => [b0]
        end
      else if (b0 <? 240)%N then
        match rest with
        | b1 :: b2 :: rest =>
            (N.shiftl (N.land b0 15) 12 + N.shiftl (continuation b1) 6
               + continuation b2)%N :: utf8_decode fuel rest
        | _ => [b0]
        end
      else
        match rest with
        | b1 :: b2 :: b3 :: rest =>
            (N.shiftl (N.land b0 7) 18 + N.shiftl (continuation b1) 12
               + N.shiftl (continuation b2) 6 + continuation b3)%N
              :: utf8_decode fuel rest
        | _ => [b0]
        end
  end.

Definition bytes_of_string (s : string) : list N :=
  List.map N_of_ascii (list_ascii_of_string s).

(** The Python literal [s]. *)
Definition py (s : string) : str :=
  let bs := bytes_of_string s in utf8_decode (List.length bs) bs.

(** [str.isspace] of one code point, which is also the regular
    expression class [\s] on [str] patterns. *)
Definition isspace (c : char) : bool :=
  ((9 <=? c) && (c <=? 13) || (28 <=? c) && (c <=? 32)
   || (c =? 133) || (c =? 160) || (c =? 5760)
   || (8192 <=? c) && (c <=? 8202) || (c =? 8232) || (c =? 8233)
   || (c =? 8239) || (c =? 8287) || (c =? 12288))%N.

(** The code points of the characters DIGIT ZERO of every script of
    general category Nd (Unicode 14.0.0); the nine digits that follow each
    of them complete the category. *)
Definition decimal_zeros : list N :=
  [ 0x30; 0x660; 0x6f0; 0x7c0; 0x966; 0x9e6; 0xa66; 0xae6; 0xb66; 0xbe6;
    0xc66; 0xce6; 0xd66; 0xde6; 0xe50; 0xed0; 0xf20; 0x1040; 0x1090;
    0x17e0; 0x1810; 0x1946; 0x19d0; 0x1a80; 0x1a90; 0x1b50; 0x1bb0;
    0x1c40; 0x1c50; 0xa620; 0xa8d0; 0xa900; 0xa9d0; 0xa9f0; 0xaa50;
    0xabf0; 0xff10; 0x104a0; 0x10d30; 0x11066; 0x110f0; 0x11136; 0x111d0;
    0x112f0; 0x11450; 0x114d0; 0x11650; 0x116c0; 0x11730; 0x118e0;
    0x11950; 0x11c50; 0x11d50; 0x11da0; 0x16a60; 0x16ac0; 0x16b50;
    0x1d7ce; 0x1d7d8; 0x1d7e2; 0x1d7ec; 0x1d7f6; 0x1e140; 0x1e2f0;
    0x1e950; 0x1fbf0 ]%N.

Fixpoint decimal_in (zeros : list N) (c : char) : option Z :=
  match zeros with
  | [] => None
  | z :: zeros =>
      if ((z <=? c) && (c <? z + 10))%N then Some (Z.of_N (c - z))
      else decimal_in zeros c
  end.

(** The decimal value of a code point of category Nd ([None] for every
    other code point): what the class [\d] accepts and what [int] reads. *)
Definition todecimal (c : char) : option Z := decimal_in decimal_zeros c.

Definition isdecimal (c : char) : bool :=
  match todecimal c with Some _ => true | None => false end.

Definition char_eqb (a b : char) : bool := (a =? b)%N.

Fixpoint startswith (s prefix : str) : bool :=
  match prefix, s with
  | [], _ => true
  | p :: prefix, c :: s => char_eqb p c && startswith s prefix
  | _ :: _, [] => false
  end.

(** [sub in s]. *)
Fixpoint contains (sub s : str) : bool :=
  startswith s sub || match s with [] => false | _ :: s' => contains sub s' end.

(** [s.replace(old, new)] for a non-empty [old]: occurrences are replaced
    from left to right and do not overlap; [skip] counts the characters of
    the current occurrence still to be dropped. *)
Fixpoint replace_from (old new : str) (skip : nat) (s : str) : str :=
  match s with
  | [] => []
  | c :: s' =>
      match skip with
      | S k => replace_from old new k s'
      | O =>
          if startswith s old
          then new ++ replace_from old new (Nat.pred (List.length old)) s'
          else c :: replace_from old new O s'
      end
  end.

Definition replace (s old new : str) : str :=
  match old with
  | [] => new ++ List.concat (List.map (fun c => c :: new) s)
  | _ :: _ => replace_from old new O s
  end.

(** [s.split()]: the maximal runs of non-whitespace characters; [cur] is
    the run being read. *)
Fixpoint split_from (cur : str) (s : str) : list str :=
  match s with
  | [] => match cur with [] => [] | _ => [cur] end
  | c :: s' =>
      if isspace c
      then match cur with
           | [] => split_from [] s'
           | _ => cur :: split_from [] s'
           end
      else split_from (cur ++ [c]) s'
  end.

Definition split (s : str) : list str := split_from [] s.

Fixpoint lstrip (s : str) : str :=
  match s with
  | c :: s' => if isspace c then lstrip s' else s
  | [] => []
  end.

Definition rstrip (s : str) : str := List.rev (lstrip (List.rev s)).

(** [s.strip()]. *)
Definition strip (s : str) : str := rstrip (lstrip s).

(** [sep.join(parts)]. *)
Fixpoint join (sep : str) (parts : list str) : str :=
  match parts with
  | [] => []
  | [p] => p
  | p :: parts => p ++ sep ++ join sep parts
  end.

Definition str_eqb (a b : str) : bool := bool_decide (a = b).

(** The decimal digit character of a value below ten. *)
Definition digit (d : Z) : char := (48 + Z.to_N d)%N.

Fixpoint digits_from (fuel : nat) (n : Z) (acc : str) : str :=
  match fuel with
  | O => acc
  | S fuel =>
      let acc := digit (n mod 10) :: acc in
      if n <? 10 then acc else digits_from fuel (n / 10) acc
  end.

(** [str(n)] of an [int]. *)
Definition str_of_int (n : Z) : str :=
  if n <? 0
  then 45%N :: digits_from (S (Z.to_nat (Z.log2 (- n)))) (- n) []
  else digits_from (S (Z.to_nat (Z.log2 n))) n [].

(** ['%0wd' % n] for a non-negative [n]: left-padded with zeros to width
    [w]. *)
Definition zero_pad (w : nat) (n : Z) : str :=
  let s := str_of_int n in
  List.repeat 48%N (w - List.length s) ++ s.


End PyStr.
Import PyStr.

(** ** Exceptions and results

    A call either returns a value or raises; the messages of the
    exceptions the module raises itself are kept, those of the standard
    library are abbreviated to their fixed text.  [UnicodeEncodeError] is
    a subclass of [ValueError]; [OverflowError] and [OSError] are not. *)

Inductive exn : Type :=
| ValueError (msg : str)
| KeyError (key : str)
| IndexError
| AttributeError
| TypeError
| UnicodeEncodeError
| OverflowError (msg : str)
| OSError (msg : str)
| TooManyRequests (msg : str).

(** [isinstance(e, ValueError)]. *)
Definition is_value_error (e : exn) : bool :=
  match e with
  | ValueError _ | UnicodeEncodeError => true
  | _ => false
  end.

Inductive result (A : Type) : Type :=
| Ok (a : A)
| Raise (e : exn).
Arguments Ok {A} a.
Arguments Raise {A} e.

Definition bind {A B : Type} (m : result A) (k : A -> result B) : result B :=
  match m with
  | Ok a => k a
  | Raise e => Raise e
  end.

Notation "'let*' x ':=' m 'in' k" := (bind m (fun x => k))
  (at level 10, x name, m at level 100, k at level 200).

Definition chr (s : string) : char :=
  match py s with c :: _ => c | [] => 0%N end.

(** ** [int(s)]

    Base-ten conversion of text: surrounding whitespace is dropped, one
    sign is allowed, digits of any script count, and single underscores
    may separate digits.  The conversion first scans the digits and
    refuses more than [sys.get_int_max_str_digits()] of them, 4300 in
    CPython 3.11 unless the limit is changed, which the module does not
    do. *)

Fixpoint int_digits (acc : Z) (after_digit : bool) (s : str) : option Z :=
  match s with
  | [] => if after_digit then Some acc else None
  | c :: s' =>
      match todecimal c with
      | Some d => int_digits (10 * acc + d) true s'
      | None =>
          if (c =? 95)%N && after_digit then int_digits acc false s'
          else None
      end
  end.

(** The scan: the number of digits in the leading run of digits and
    single underscores, up to the first character that is neither;
    [None] when an underscore does not follow a digit or nothing follows
    it. *)
Fixpoint scan_digits (count : Z) (after_digit : bool) (s : str)
    : option Z :=
  match s with
  | [] => if after_digit then Some count else None
  | c :: s' =>
      if isdecimal c then scan_digits (count + 1) true s'
      else if after_digit then
        if (c =? 95)%N then scan_digits count false s' else Some count
      else None
  end.

Definition int_max_str_digits : Z := 4300.

Definition invalid_literal : exn :=
  ValueError (py "invalid literal for int() with base 10").

Definition digits_exceeded : exn :=
  ValueError
    (py "Exceeds the limit (4300 digits) for integer string conversion").

Definition int (s : str) : result Z :=
  let unsigned t :=
    match scan_digits 0 false t with
    | Some count =>
        if int_max_str_digits <? count then Raise digits_exceeded
        else
          match int_digits 0 false t with
          | Some n => Ok n
          | None => Raise invalid_literal
          end
    | None => Raise invalid_literal
    end in
  match strip s with
  | c :: t =>
      if char_eqb c (chr "+") then unsigned t
      else if char_eqb c (chr "-") then let* n := unsigned t in Ok (- n)
      else unsigned (c :: t)
  | [] => unsigned []
  end.

(** ** Regular expressions of [_strptime]

    The fragment of [re] that the directive patterns of [_strptime.TimeRE]
    use.  Matching is by backtracking: [matches r s] lists, in the order
    the engine tries them, the ways [r] matches a prefix of [s], each with
    its named groups, the text it matched and the text left over.
    [re.match] takes the first. *)

Inductive regex : Type :=
| Eps
| Chr (c : char)
| Rng (lo hi : char)
| Dec
| Spaces
| Cat (r1 r2 : regex)
| Alt (r1 r2 : regex)
| Grp (name : char) (r : regex).

Definition groups := list (char * str).

(** One way a pattern matches: the named groups, the text matched and
    the text left over. *)
Record hit : Type := mk_hit {
  found : groups;
  matched : str;
  rest : str
}.

(** [\s+]: the longest run of whitespace first, then the shorter ones. *)
Fixpoint spaces_from (run s : str) : list hit :=
  match s with
  | c :: t =>
      if isspace c
      then spaces_from (run ++ [c]) t ++ [mk_hit [] (run ++ [c]) t]
      else []
  | [] => []
  end.

Definition one_char (p : char -> bool) (s : str) : list hit :=
  match s with
  | c :: t => if p c then [mk_hit [] [c] t] else []
  | [] => []
  end.

Fixpoint matches (r : regex) (s : str) : list hit :=
  match r with
  | Eps => [mk_hit [] [] s]
  | Chr c => one_char (char_eqb c) s
  | Rng lo hi => one_char (fun c => (lo <=? c) && (c <=? hi))%N s
  | Dec => one_char isdecimal s
  | Spaces => spaces_from [] s
  | Cat r1 r2 =>
      List.flat_map
        (fun h1 =>
           List.map
             (fun h2 => mk_hit (found h1 ++ found h2)
                          (matched h1 ++ matched h2) (rest h2))
             (matches r2 (rest h1)))
        (matches r1 s)
  | Alt r1 r2 => matches r1 s ++ matches r2 s
  | Grp name r =>
      List.map (fun h => mk_hit ((name, matched h) :: found h)
                           (matched h) (rest h))
        (matches r s)
  end.

Notation "r1 '|||' r2" := (Alt r1 r2) (at level 50, left associativity).

(** The directive patterns, as [_strptime.TimeRE] defines them:
    [%d] is [3[0-1]|[1-2]\d|0[1-9]|[1-9]| [1-9]], [%m] is
    [1[0-2]|0[1-9]|[1-9]], [%Y] is [\d\d\d\d], [%H] is
    [2[0-3]|[0-1]\d|\d] and [%M] is [[0-5]\d|\d]. *)
Definition directive (c : char) : option regex :=
  let r19 := Rng (chr "1") (chr "9") in
  if char_eqb c (chr "d") then
    Some (Cat (Chr (chr "3")) (Rng (chr "0") (chr "1"))
          ||| Cat (Rng (chr "1") (chr "2")) Dec
          ||| Cat (Chr (chr "0")) r19 ||| r19 ||| Cat (Chr (chr " ")) r19)
  else if char_eqb c (chr "m") then
    Some (Cat (Chr (chr "1")) (Rng (chr "0") (chr "2"))
          ||| Cat (Chr (chr "0")) r19 ||| r19)
  else if char_eqb c (chr "Y") then
    Some (Cat Dec (Cat Dec (Cat Dec Dec)))
  else if char_eqb c (chr "H") then
    Some (Cat (Chr (chr "2")) (Rng (chr "0") (chr "3"))
          ||| Cat (Rng (chr "0") (chr "1")) Dec ||| Dec)
  else if char_eqb c (chr "M") then
    Some (Cat (Rng (chr "0") (chr "5")) Dec ||| Dec)
  else None.

(** [TimeRE.pattern]: a directive becomes its named group, a run of
    whitespace becomes [\s+], any other character stands for itself.
    [None] is a directive outside the five above (the module uses no
    other). *)
Fixpoint pattern (after_space : bool) (format : str) : option (list regex) :=
  match format with
  | [] => Some []
  | c :: rest =>
      if char_eqb c (chr "%") then
        match rest with
        | x :: rest' =>
            match directive x, pattern false rest' with
            | Some r, Some rs => Some (Grp x r :: rs)
            | _, _ => None
            end
        | [] => None
        end
      else if isspace c then
        match pattern true rest with
        | Some rs => Some (if after_space then rs else Spaces :: rs)
        | None => None
        end
      else
        match pattern false rest with
        | Some rs => Some (Chr c :: rs)
        | None => None
        end
  end.

Fixpoint cat_all (rs : list regex) : regex :=
  match rs with
  | [] => Eps
  | r :: rs => Cat r (cat_all rs)
  end.

(** ** [datetime]

    Naive date-times to the second (the module never produces a
    fraction of a second). *)

Record datetime : Type := mk_datetime {
  year : Z; month : Z; day : Z; hour : Z; minute : Z; second : Z
}.

Definition is_leap (y : Z) : bool :=
  (y mod 4 =? 0) && (negb (y mod 100 =? 0) || (y mod 400 =? 0)).

Definition days_in_month (y m : Z) : Z :=
  if m =? 2 then (if is_leap y then 29 else 28)
  else if (m =? 4) || (m =? 6) || (m =? 9) || (m =? 11) then 30
  else 31.

Definition between (lo x hi : Z) : bool := (lo <=? x) && (x <=? hi).

(** The checks of the constructor [datetime.date(y, m, d)]. *)
Definition check_date (y m d : Z) : result unit :=
  if negb (between 1 y 9999) then
    Raise (ValueError (py "year is out of range"))
  else if negb (between 1 m 12) then
    Raise (ValueError (py "month must be in 1..12"))
  else if negb (between 1 d (days_in_month y m)) then
    Raise (ValueError (py "day is out of range for month"))
  else Ok tt.

Definition check_time (h mi s : Z) : result unit :=
  if negb (between 0 h 23) then
    Raise (ValueError (py "hour must be in 0..23"))
  else if negb (between 0 mi 59) then
    Raise (ValueError (py "minute must be in 0..59"))
  else if negb (between 0 s 59) then
    Raise (ValueError (py "second must be in 0..59"))
  else Ok tt.

(** The constructor [datetime(y, m, d, h, mi, s)]. *)
Definition new_datetime (y m d h mi s : Z) : result datetime :=
  let* _ := check_date y m d in
  let* _ := check_time h mi s in
  Ok (mk_datetime y m d h mi s).

(** [dt.replace(year=y)]. *)
Definition replace_year (dt : datetime) (y : Z) : result datetime :=
  new_datetime y (month dt) (day dt) (hour dt) (minute dt) (second dt).

Fixpoint group (name : char) (found : groups) : option str :=
  match found with
  | [] => None
  | (n, text) :: found =>
      if char_eqb n name then Some text else group name found
  end.

Definition field (name : string) (default : Z) (found : groups)
    : result Z :=
  match group (chr name) found with
  | Some text => int text
  | None => Ok default
  end.

(** [datetime.strptime(data_string, format)].  The first match of the
    pattern must consume the whole text; absent fields take the defaults
    of [_strptime] (year 1900, or 1904 while the day of the year of a
    29 February without a year is computed); the date-time is then
    built from the year 1900 or the year read. *)
Definition strptime (data_string format : str) : result datetime :=
  match pattern false format with
  | None => Raise (ValueError (py "bad directive in format"))
  | Some rs =>
      match matches (cat_all rs) data_string with
      | [] => Raise (ValueError (py "time data does not match format"))
      | mk_hit _ _ (_ :: _) :: _ =>
          Raise (ValueError (py "unconverted data remains"))
      | mk_hit found _ [] :: _ =>
          let* m := field "m" 1 found in
          let* d := field "d" 1 found in
          let* h := field "H" 0 found in
          let* mi := field "M" 0 found in
          match group (chr "Y") found with
          | Some text =>
              let* y := int text in
              let* _ := check_date y m d in
              new_datetime y m d h mi 0
          | None =>
              let leap_year_fix := (m =? 2) && (d =? 29) in
              let* _ := check_date (if leap_year_fix then 1904 else 1900) m d in
              new_datetime 1900 m d h mi 0
          end
      end
  end.

(** [str(d)] of a [date]: [isoformat()]. *)
Definition str_date (dt : datetime) : str :=
  zero_pad 4 (year dt) ++ py "-" ++ zero_pad 2 (month dt) ++ py "-"
    ++ zero_pad 2 (day dt).

(** [str(dt)] of a [datetime] without microseconds: [isoformat(sep=' ')]. *)
Definition str_datetime (dt : datetime) : str :=
  str_date dt ++ py " " ++ zero_pad 2 (hour dt) ++ py ":"
    ++ zero_pad 2 (minute dt) ++ py ":" ++ zero_pad 2 (second dt).

(** The slice [s[:-n]]. *)
Definition drop_last (n : nat) (s : str) : str :=
  List.firstn (List.length s - n) s.

(** ** Date normalisation

    [now] is the reading of the system clock ([datetime.today()],
    [datetime.now()]). *)

Definition get_current_day (now : datetime) : Z := day now.

Definition get_current_month (now : datetime) : str := zero_pad 2 (month now).

Definition get_current_year (now : datetime) : Z := year now.

Definition replace_relative_day_with_absolute (now : datetime)
    (date relative_day : str) (absolute_day : Z) : str :=
  (str_of_int absolute_day ++ py " " ++ get_current_month now ++ py " "
     ++ str_of_int (get_current_year now))
    ++ replace date relative_day [].

Definition convert_relative_date_to_absolute (now : datetime) (date : str)
    : str :=
  let current_day := get_current_day now in
  if contains (py "Вчера") date
  then replace_relative_day_with_absolute now date (py "Вчера")
         (current_day - 1)
  else replace_relative_day_with_absolute now date (py "Сегодня")
         current_day.

Definition months : gmap str str :=
  list_to_map
    [ (py "января", py "1"); (py "февраля", py "2"); (py "марта", py "3");
      (py "апреля", py "4"); (py "мая", py "5"); (py "июня", py "6");
      (py "июля", py "7"); (py "августа", py "8"); (py "сентября", py "9");
      (py "октября", py "10"); (py "ноября", py "11");
      (py "декабря", py "12") ].

Definition replace_month_name_with_number (date : str) : result str :=
  let date_splitted := split date in
  match date_splitted !! 1%nat with
  | None => Raise IndexError
  | Some name =>
      match months !! name with
      | None => Raise (KeyError name)
      | Some number =>
          Ok (join (py " ") (<[1%nat := number]> date_splitted))
      end
  end.

Definition normalize_date (now : datetime) (date : str) : result str :=
  if contains (py "Вчера") date || contains (py "Сегодня") date then
    let date := convert_relative_date_to_absolute now date in
    let* dt := strptime date (py "%d %m %Y %H:%M") in
    Ok (drop_last 3 (str_datetime dt))
  else
    let* date := replace_month_name_with_number date in
    if contains (py ":") date then
      let* dt := strptime date (py "%d %m %H:%M") in
      let* dt := replace_year dt (get_current_year now) in
      Ok (drop_last 3 (str_datetime dt))
    else
      let* dt := strptime date (py "%d %m %Y") in
      Ok (str_date dt).

(** ** [urllib.parse.quote]

    The text is encoded in UTF-8; the bytes of unreserved characters and
    of [/] (the default [safe]) stand for themselves, every other byte
    becomes [%XX]. *)

Definition utf8_encode (c : char) : option (list N) :=
  (if c <? 0x80 then Some [c]
   else if c <? 0x800 then
     Some [0xC0 + N.shiftr c 6; 0x80 + N.land c 63]
   else if c <? 0x10000 then
     if (0xD800 <=? c) && (c <=? 0xDFFF) then None
     else Some [0xE0 + N.shiftr c 12; 0x80 + N.land (N.shiftr c 6) 63;
                0x80 + N.land c 63]
   else if c <? 0x110000 then
     Some [0xF0 + N.shiftr c 18; 0x80 + N.land (N.shiftr c 12) 63;
           0x80 + N.land (N.shiftr c 6) 63; 0x80 + N.land c 63]
   else None)%N.

Definition always_safe (b : N) : bool :=
  ((65 <=? b) && (b <=? 90) || (97 <=? b) && (b <=? 122)
   || (48 <=? b) && (b <=? 57)
   || (b =? 95) || (b =? 46) || (b =? 45) || (b =? 126))%N.

Definition hex_digit (n : N) : char :=
  (if n <? 10 then 48 + n else 55 + n)%N.

Definition quote_byte (b : N) : str :=
  if always_safe b || (b =? 47)%N then [b]
  else [37%N; hex_digit (N.shiftr b 4); hex_digit (N.land b 15)].

Fixpoint quote (s : str) : result str :=
  match s with
  | [] => Ok []
  | c :: s' =>
      match utf8_encode c with
      | None => Raise UnicodeEncodeError
      | Some bs =>
          let* q := quote s' in
          Ok (List.concat (List.map quote_byte bs) ++ q)
      end
  end.

(** ** The search URL *)

Definition sort_values : gmap (option str) str :=
  list_to_map
    [ (Some (py "date"), py "104"); (Some (py "price"), py "1");
      (Some (py "price_desc"), py "2"); (None, py "101") ].

Definition owners : gmap (option str) str :=
  list_to_map
    [ (Some (py "private"), py "1"); (Some (py "company"), py "2");
      (None, py "0") ].

(** [str(x)] of a value that is [None] or a [str]. *)
Definition str_of_optional (x : option str) : str :=
  match x with Some s => s | None => py "None" end.

(** [int(b)] of a [bool]. *)
Definition int_of_bool (b : bool) : Z := if b then 1 else 0.

Definition generate_search_url (query : str) (sort_by : option str)
    (by_title with_images : bool) (owner : option str) : result str :=
  match sort_values !! sort_by with
  | None =>
      Raise (ValueError (py "Sorting by " ++ str_of_optional sort_by
                           ++ py " is not supported"))
  | Some sort_value =>
      match owners !! owner with
      | None => Raise (ValueError (py "Owner can be only private or company"))
      | Some owner_value =>
          let* urlencoded_query := quote query in
          Ok ((py "https://www.avito.ru/moskva?s=" ++ sort_value
                 ++ py "&bt=" ++ str_of_int (int_of_bool by_title)
                 ++ py "&q=" ++ urlencoded_query
                 ++ py "&i=" ++ str_of_int (int_of_bool with_images)
                 ++ py "&user=" ++ owner_value)
                ++ py "&p={}")
      end
  end.

(** ** Ad nodes

    The HTML parser is outside the module.  A tag is known by its
    attributes and children, an ad node by the answers to the three
    [find] queries the module asks of it. *)

Inductive child : Type :=
| NavigableString (text : str)
| ChildTag.

Record Tag : Type := mk_tag {
  attrs : gmap str str;
  contents : list child
}.

Record AdNode : Type := mk_ad {
  (** [ad.find('a', attrs={'itemprop': 'url'})] *)
  find_url_anchor : option Tag;
  (** [ad.find('span', attrs={'class': 'snippet-price'})] *)
  find_snippet_price : option Tag;
  (** [ad.find('div', attrs={'class': 'snippet-date-info'})] *)
  find_snippet_date_info : option Tag
}.

Record AdInfo : Type := mk_info {
  Title : str;
  Link : str;
  Price : option Z;
  Date : str
}.

(** [tag.contents[0]]. *)
Definition first_content (tag : Tag) : result child :=
  match contents tag !! 0%nat with
  | Some c => Ok c
  | None => Raise IndexError
  end.

(** [tag[key]] and [tag.attrs[key]]. *)
Definition attribute (tag : Tag) (key : str) : result str :=
  match attrs tag !! key with
  | Some v => Ok v
  | None => Raise (KeyError key)
  end.

Definition get_title (ad : AdNode) : result str :=
  match find_url_anchor ad with
  | None => Raise AttributeError
  | Some a =>
      let* c := first_content a in
      match c with
      | NavigableString text => Ok (strip text)
      | ChildTag => Raise TypeError
      end
  end.

Definition get_link (ad : AdNode) : result str :=
  let base_url := py "https://www.avito.ru" in
  match find_url_anchor ad with
  | None => Raise TypeError
  | Some a =>
      let* href := attribute a (py "href") in
      Ok (base_url ++ href)
  end.

(** [re.sub('[^\d]', '', price_str)]. *)
Definition remove_non_digits (price_str : str) : str :=
  List.filter isdecimal price_str.

(** The [try: int(price_str) except ValueError: None] of [get_price]. *)
Definition int_or_none (price_str : str) : result (option Z) :=
  match int price_str with
  | Ok n => Ok (Some n)
  | Raise e => if is_value_error e then Ok None else Raise e
  end.

Definition get_price (ad : AdNode) : result (option Z) :=
  match find_snippet_price ad with
  | None => Raise AttributeError
  | Some span =>
      let* c := first_content span in
      match c with
      | NavigableString price_str =>
          let price_str := remove_non_digits price_str in
          int_or_none price_str
      | ChildTag => Raise TypeError
      end
  end.

Definition get_date (ad : AdNode) : result str :=
  match find_snippet_date_info ad with
  | None => Raise AttributeError
  | Some date_node =>
      let* tooltip := attribute date_node (py "data-tooltip") in
      let* date :=
        match strip tooltip with
        | _ :: _ => Ok (NavigableString tooltip)
        | [] => first_content date_node
        end in
      match date with
      | NavigableString date => Ok (replace (strip date) [160%N] (py " "))
      | ChildTag => Raise TypeError
      end
  end.

Definition agregate_ad_info (now : datetime) (ad : AdNode) : result AdInfo :=
  let* title := get_title ad in
  let* link := get_link ad in
  let* price := get_price ad in
  let* raw_date := get_date ad in
  let* date := normalize_date now raw_date in
  Ok (mk_info title link price date).

(** ** Collaborators and effects

    What the module reaches outside itself: the HTTP client, the HTML
    parser, [str.format] on the URL template, and the clock.  A parsed
    page is known by the answers to the queries the module asks of it. *)

Record Response : Type := mk_response {
  url : str;
  text : str
}.

Record Header : Type := mk_header {
  (** [.find_all_previous('div', attrs={'class': 'item_table-wrapper'})] *)
  find_all_previous_items : list AdNode
}.

Record Soup : Type := mk_soup {
  (** [.find('div', text=re.compile("Ничего не нашлось по запросу.*"))] *)
  find_nothing_found : option Tag;
  (** [.find('div', attrs={'class': 'extra-block__header'})] *)
  find_extra_block_header : option Header;
  (** [.find_all('div', attrs={'class': 'item_table-wrapper'})] *)
  find_all_items : list AdNode
}.

Record World : Type := mk_world {
  (** [requests.get(url)], redirects followed; the site is taken not to
      change during a run *)
  requests_get : str -> Response;
  (** [BeautifulSoup(html, 'lxml')] *)
  BeautifulSoup : str -> Soup;
  (** [template.format(page_number)]; the language of replacement
      fields is left to the collaborator *)
  str_format : str -> Z -> result str;
  (** the system clock, taken to stand still during a run *)
  clock : datetime;
  (** the monotonic clock, in nanoseconds (on Linux since the system
      started), as [time.sleep] reads it; the time a run takes is
      neglected against the range of the timestamp, 292 years *)
  monotonic : Z
}.

Inductive event : Type :=
| Get (page_url : str)
| Sleep (seconds : Q)
| Parse (html : str).

(** An effectful call: the events it performs, in order, and its result. *)
Definition eff (A : Type) : Type := list event * result A.

Definition ret {A : Type} (a : A) : eff A := ([], Ok a).

Definition lift {A : Type} (r : result A) : eff A := ([], r).

Definition ebind {A B : Type} (m : eff A) (k : A -> eff B) : eff B :=
  match m with
  | (ev, Ok a) => let (ev', r) := k a in (ev ++ ev', r)
  | (ev, Raise e) => (ev, Raise e)
  end.

Notation "'let!' x ':=' m 'in' k" := (ebind m (fun x => k))
  (at level 10, x name, m at level 100, k at level 200).

Definition blocked_url : str := py "https://www.avito.ru/blocked".

Definition fetch_page (w : World) (page_url : str) : eff str :=
  let response := requests_get w page_url in
  ([Get page_url],
   if str_eqb (url response) blocked_url
   then Raise (TooManyRequests (py "IP temporarily blocked"))
   else Ok (text response)).

Definition get_beautiful_soup (w : World) (html : str) : eff Soup :=
  ([Parse html], Ok (BeautifulSoup w html)).

Definition is_page_exists (w : World) (page : str) : eff bool :=
  let! soup := get_beautiful_soup w page in
  ret (match find_nothing_found soup with None => true | Some _ => false end).

Definition get_ads_from_page (w : World) (page : str) : eff (list AdNode) :=
  let! bs_page := get_beautiful_soup w page in
  let remote_ads := find_extra_block_header bs_page in
  match remote_ads with
  | Some header => ret (find_all_previous_items header)
  | None => ret (find_all_items bs_page)
  end.

(** [time.sleep(seconds)], as CPython 3.11 does it on Linux; [seconds]
    is the value of the [int] or [float] passed.  The length is converted
    to a C timestamp, a signed 64-bit number of nanoseconds, rounding
    away from zero, and a length outside the range of the timestamp is
    refused with [OverflowError].  For a [float] the product with 10^9 is
    rounded to a double before it is compared with the range: a product
    up to 1024 beyond [2^63] in either direction is the double [2^63] in
    that direction, which is accepted and becomes the timestamp [-2^63],
    and so does a product from [2^63 - 512] on.  (No [int] gives a
    product in these intervals.)  A negative timestamp is then refused
    with [ValueError].  The deadline is the reading of the monotonic
    clock plus the length; a deadline past the end of the range wraps
    around and the system call refuses it ([OSError], EINVAL).  Otherwise
    the call sleeps and returns. *)
Definition timestamp_limit : Z := 2 ^ 63.

(** The length in nanoseconds, rounded down and rounded up. *)
Definition nanoseconds_floor (seconds : Q) : Z :=
  Qnum seconds * 10 ^ 9 / Zpos (Qden seconds).

Definition nanoseconds (seconds : Q) : Z :=
  - (- (Qnum seconds * 10 ^ 9) / Zpos (Qden seconds)).

Definition time_sleep (w : World) (seconds : Q) : eff unit :=
  let down := nanoseconds_floor seconds in
  let up := nanoseconds seconds in
  if negb ((- timestamp_limit - 1024 <=? down)
           && (up <=? timestamp_limit + 1024))
  then
    lift (Raise (OverflowError
                   (py "timestamp too large to convert to C _PyTime_t")))
  else if (down <? 0) || (timestamp_limit - 512 <=? down) then
    lift (Raise (ValueError (py "sleep length must be non-negative")))
  else if timestamp_limit <=? monotonic w + up then
    lift (Raise (OSError (py "[Errno 22] Invalid argument")))
  else ([Sleep seconds], Ok tt).

(** ** Generators

    A generator is a state and a [next] step.  A step yields a value and
    suspends, or ends the iteration ([StopIteration]), or lets an
    exception out; after either of the last two the generator is
    finished. *)

Inductive outcome (A : Type) : Type :=
| Yield (a : A)
| StopIteration
| Throw (e : exn).
Arguments Yield {A} a.
Arguments StopIteration {A}.
Arguments Throw {A} e.

(** [get_pages]: not started, suspended at the [yield] with the given
    [page_number], or finished. *)
Inductive pages_state : Type :=
| PagesStart
| PagesAt (page_number : Z)
| PagesFinished.

(** The fetch and the loop test of [get_pages]: the page to yield, or
    [None] when the loop ends. *)
Definition fetch_and_test (w : World) (search_url : str) (page_number : Z)
    : eff (option str) :=
  let! page_url := lift (str_format w search_url page_number) in
  let! page := fetch_page w page_url in
  let! page_exists := is_page_exists w page in
  ret (if page_exists then Some page else None).

Definition pages_next (w : World) (search_url : str) (pause : option Q)
    (st : pages_state) : list event * (outcome str * pages_state) :=
  let finish (page_number : Z) (m : eff (option str)) :=
    match m with
    | (ev, Ok (Some page)) => (ev, (Yield page, PagesAt page_number))
    | (ev, Ok None) => (ev, (StopIteration, PagesFinished))
    | (ev, Raise e) => (ev, (Throw e, PagesFinished))
    end in
  match st with
  | PagesStart =>
      let page_number := 1 in
      finish page_number (fetch_and_test w search_url page_number)
  | PagesAt page_number =>
      let page_number := page_number + 1 in
      finish page_number
        (let! _ := match pause with
                   | Some seconds => time_sleep w seconds
                   | None => ret tt
                   end in
         fetch_and_test w search_url page_number)
  | PagesFinished => ([], (StopIteration, PagesFinished))
  end.

(** The arguments of [get_all_ads]. *)
Record Search : Type := mk_search {
  query : str;
  sort_by : option str;
  by_title : bool;
  with_images : bool;
  owner : option str;
  pause : option Q
}.

(** [get_all_ads]: not started, suspended at the [yield] (with the URL
    template, the state of the page generator and the ads of the current
    page still to come), or finished. *)
Inductive ads_state : Type :=
| AdsStart
| AdsAt (search_url : str) (pages : pages_state) (rest : list AdNode)
| AdsFinished.

(** One turn of [for ad in ads: yield agregate_ad_info(ad)]. *)
Definition yield_ad (w : World) (search_url : str) (pages : pages_state)
    (ad : AdNode) (rest : list AdNode) : outcome AdInfo * ads_state :=
  match agregate_ad_info (clock w) ad with
  | Ok info => (Yield info, AdsAt search_url pages rest)
  | Raise e => (Throw e, AdsFinished)
  end.

(** One turn of [for page in get_pages(search_url, pause)]. *)
Definition next_page (w : World) (search_url : str) (pause : option Q)
    (pages : pages_state) : list event * (outcome AdInfo * ads_state) :=
  match pages_next w search_url pause pages with
  | (ev, (Yield page, pages)) =>
      match get_ads_from_page w page with
      | (ev', Ok []) => (ev ++ ev', (StopIteration, AdsFinished))
      | (ev', Ok (ad :: rest)) =>
          (ev ++ ev', yield_ad w search_url pages ad rest)
      | (ev', Raise e) => (ev ++ ev', (Throw e, AdsFinished))
      end
  | (ev, (StopIteration, _)) => (ev, (StopIteration, AdsFinished))
  | (ev, (Throw e, _)) => (ev, (Throw e, AdsFinished))
  end.

Definition ads_next (w : World) (args : Search) (st : ads_state)
    : list event * (outcome AdInfo * ads_state) :=
  match st with
  | AdsStart =>
      match generate_search_url (query args) (sort_by args) (by_title args)
              (with_images args) (owner args) with
      | Ok search_url => next_page w search_url (pause args) PagesStart
      | Raise e => ([], (Throw e, AdsFinished))
      end
  | AdsAt search_url pages (ad :: rest) =>
      ([], yield_ad w search_url pages ad rest)
  | AdsAt search_url pages [] => next_page w search_url (pause args) pages
  | AdsFinished => ([], (StopIteration, AdsFinished))
  end.

(** The caller asking [n] times for the next page: the events performed
    and the outcomes received. *)
Fixpoint pages_run (w : World) (search_url : str) (pause : option Q)
    (n : nat) (st : pages_state) : list event * list (outcome str) :=
  match n with
  | O => ([], [])
  | S n =>
      let '(ev, (out, st)) := pages_next w search_url pause st in
      let '(evs, outs) := pages_run w search_url pause n st in
      (ev ++ evs, out :: outs)
  end.

(** The caller asking [n] times for the next ad. *)
Fixpoint ads_run (w : World) (args : Search) (n : nat) (st : ads_state)
    : list event * list (outcome AdInfo) :=
  match n with
  | O => ([], [])
  | S n =>
      let '(ev, (out, st)) := ads_next w args st in
      let '(evs, outs) := ads_run w args n st in
      (ev ++ evs, out :: outs)
  end.

(** ** Vocabulary of the specification *)

(** The number that a run of decimal digits denotes. *)
Definition decimal_number (digits : str) : Z :=
  List.fold_left
    (fun acc c => 10 * acc + match todecimal c with Some d => d | None => 0 end)
    digits 0.

(** The enumerations of a search request, with the Python value that
    stands for each member. *)
Inductive Sort : Type := relevance | date | price_asc | price_desc.

Inductive Owner : Type := any | private | company.

Definition sort_by_of (s : Sort) : option str :=
  match s with
  | relevance => None
  | date => Some (py "date")
  | price_asc => Some (py "price")
  | price_desc => Some (py "price_desc")
  end.

Definition owner_of (o : Owner) : option str :=
  match o with
  | any => None
  | private => Some (py "private")
  | company => Some (py "company")
  end.

Definition in_sort (sort_by : option str) : Prop :=
  exists s, sort_by = sort_by_of s.

Definition in_owner (owner : option str) : Prop :=
  exists o, owner = owner_of o.



(** A code point that UTF-8 can encode: below [0x110000] and not a
    surrogate. *)
Definition is_scalar (c : char) : bool :=
  ((c <? 0xD800) || (0xDFFF <? c) && (c <? 0x110000))%N.


(** The request for [page_url] is answered from the block page. *)
Definition blocked (w : World) (page_url : str) : bool :=
  str_eqb (url (requests_get w page_url)) blocked_url.

(** The page carries the "nothing found" marker. *)
Definition nothing_found (w : World) (page : str) : bool :=
  match find_nothing_found (BeautifulSoup w page) with
  | Some _ => true
  | None => false
  end.

(** The request for [page_url] is answered, not from the block page,
    with a page that carries the marker. *)
Definition marker_page (w : World) (page_url : str) : bool :=
  negb (blocked w page_url)
  && nothing_found w (text (requests_get w page_url)).

Definition is_get (e : event) : bool :=
  match e with Get _ => true | _ => false end.

Definition is_parse (e : event) : bool :=
  match e with Parse _ => true | _ => false end.

(** No request follows, in the trace, a request that [last] holds of. *)
Fixpoint no_get_after (last : str -> bool) (trace : list event) : bool :=
  match trace with
  | [] => true
  | Get u :: trace =>
      if last u then List.forallb (fun e => negb (is_get e)) trace
      else no_get_after last trace
  | _ :: trace => no_get_after last trace
  end.

(** The request for [page_url] ends the pagination: it is answered from
    the block page or with a page that carries the marker. *)
Definition last_page (w : World) (page_url : str) : bool :=
  blocked w page_url || marker_page w page_url.

(** The ad nodes [get_ads_from_page] finds in a page. *)
Definition page_ads (w : World) (page : str) : list AdNode :=
  match find_extra_block_header (BeautifulSoup w page) with
  | Some header => find_all_previous_items header
  | None => find_all_items (BeautifulSoup w page)
  end.

(** Events that are neither a request nor a parse. *)
Definition quiet (trace : list event) : Prop :=
  Forall (fun e => is_get e = false /\ is_parse e = false) trace.

Definition rate_limited : exn := TooManyRequests (py "IP temporarily blocked").

(** What one step of [get_pages] can do. *)
Inductive pages_step (w : World) :
  list event -> outcome str -> pages_state -> Prop :=
| step_stopped slept :
    quiet slept -> pages_step w slept StopIteration PagesFinished
| step_failed slept e :
    quiet slept -> pages_step w slept (Throw e) PagesFinished
| step_blocked slept u :
    quiet slept -> blocked w u = true ->
    pages_step w (slept ++ [Get u]) (Throw rate_limited) PagesFinished
| step_marker slept u :
    quiet slept -> blocked w u = false ->
    nothing_found w (text (requests_get w u)) = true ->
    pages_step w (slept ++ [Get u; Parse (text (requests_get w u))])
      StopIteration PagesFinished
| step_page slept u page_number :
    quiet slept -> blocked w u = false ->
    nothing_found w (text (requests_get w u)) = false ->
    pages_step w (slept ++ [Get u; Parse (text (requests_get w u))])
      (Yield (text (requests_get w u))) (PagesAt page_number).

(** What one turn of the page loop of [get_all_ads] can do. *)
Inductive page_turn (w : World) (search_url : str) :
  list event -> outcome AdInfo * ads_state -> Prop :=
| turn_stopped slept :
    quiet slept -> page_turn w search_url slept (StopIteration, AdsFinished)
| turn_failed slept e :
    quiet slept -> page_turn w search_url slept (Throw e, AdsFinished)
| turn_blocked slept u :
    quiet slept -> blocked w u = true ->
    page_turn w search_url (slept ++ [Get u]) (Throw rate_limited, AdsFinished)
| turn_marker slept u :
    quiet slept -> blocked w u = false ->
    nothing_found w (text (requests_get w u)) = true ->
    page_turn w search_url
      (slept ++ [Get u; Parse (text (requests_get w u))])
      (StopIteration, AdsFinished)
| turn_no_ads slept u :
    let page := text (requests_get w u) in
    quiet slept -> blocked w u = false -> nothing_found w page = false ->
    page_ads w page = [] ->
    page_turn w search_url (slept ++ [Get u; Parse page; Parse page])
      (StopIteration, AdsFinished)
| turn_ads slept u page_number ad rest :
    let page := text (requests_get w u) in
    quiet slept -> blocked w u = false -> nothing_found w page = false ->
    page_ads w page = ad :: rest ->
    page_turn w search_url (slept ++ [Get u; Parse page; Parse page])
      (yield_ad w search_url (PagesAt page_number) ad rest).

(** The text of page [n] of a search, as the site serves it. *)
Definition page_text (w : World) (search_url : str) (n : nat) : str :=
  match str_format w search_url (Z.of_nat n) with
  | Ok u => text (requests_get w u)
  | Raise _ => []
  end.

(** Page [n] can be asked for and is not answered from the block page. *)
Definition served (w : World) (search_url : str) (n : nat) : Prop :=
  exists u, str_format w search_url (Z.of_nat n) = Ok u /\ blocked w u = false.

(** A pause that [time.sleep] accepts: not negative, and with a deadline
    that stays a second clear of the end of the timestamp range. *)
Definition pause_ok (w : World) (pause : option Q) : Prop :=
  match pause with
  | Some seconds =>
      Qle_bool 0 seconds = true
      /\ (0 <=? monotonic w)
         && (monotonic w + nanoseconds seconds + 10 ^ 9 <=? timestamp_limit)
         = true
  | None => True
  end.

(** The state of [get_pages] once [n] pages have been yielded. *)
Definition pages_after (n : nat) : pages_state :=
  match n with
  | O => PagesStart
  | S _ => PagesAt (Z.of_nat n)
  end.

(** The number of requests in a trace. *)
Definition requests (trace : list event) : nat :=
  List.length (List.filter is_get trace).

(** One of the ten ASCII digits. *)
Definition ascii_digit (c : char) : bool := ((48 <=? c) && (c <=? 57))%N.

(** [s] has the shape of [template], in which [D] stands for any ASCII
    digit and every other character for itself. *)
Fixpoint shape (template s : str) : bool :=
  match template, s with
  | [], [] => true
  | t :: template, c :: s =>
      (if char_eqb t (chr "D") then ascii_digit c else char_eqb t c)
      && shape template s
  | _, _ => false
  end.

(** The two canonical forms of a date. *)
Definition canonical (s : str) : Prop :=
  shape (py "DDDD-DD-DD DD:DD") s = true \/ shape (py "DDDD-DD-DD") s = true.

(** The fields of a date-time that the constructor accepts. *)
Definition valid_datetime (dt : datetime) : Prop :=
  1 <= year dt <= 9999 /\ 1 <= month dt <= 12
  /\ 1 <= day dt <= days_in_month (year dt) (month dt)
  /\ 0 <= hour dt <= 23 /\ 0 <= minute dt <= 59 /\ 0 <= second dt <= 59.

(** [lo], [lo + 1], ..., [hi - 1]. *)
Definition zrange (lo hi : Z) : list Z :=
  List.map (fun i => lo + Z.of_nat i) (List.seq 0 (Z.to_nat (hi - lo))).

Definition two_digits (n : Z) : bool :=
  str_eqb (zero_pad 2 n) [digit (n / 10); digit (n mod 10)].

Definition four_digits (n : Z) : bool :=
  str_eqb (zero_pad 4 n)
    [digit (n / 1000); digit (n / 100 mod 10); digit (n / 10 mod 10);
     digit (n mod 10)].

(** The two relative markers, the word of each and the day of the month
    each resolves to. *)
Inductive Marker : Type := Yesterday | Today.

Definition marker_text (mk : Marker) : str :=
  match mk with
  | Yesterday => py "Вчера"
  | Today => py "Сегодня"
  end.

Definition marker_day (now : datetime) (mk : Marker) : Z :=
  match mk with
  | Yesterday => day now - 1
  | Today => day now
  end.

(** A clock time as the site prints it, [H:MM] or [HH:MM]. *)
Definition hour_text (h : Z) (padded : bool) : str :=
  if padded then zero_pad 2 h else str_of_int h.

Definition clock_time (h mi : Z) (padded : bool) : str :=
  hour_text h padded ++ py ":" ++ zero_pad 2 mi.

(** The first way [r] matches at the start of [s], the one [re.match]
    returns. *)
Definition first_hit (r : regex) (s : str) : option hit :=
  List.head (matches r s).

(** The pattern of a directive. *)
Definition re_of (name : string) : regex :=
  Grp (chr name)
    match directive (chr name) with Some r => r | None => Eps end.

(** The hit of a group that matched [text] in front of [tail]. *)
Definition group_hit (name : string) (text tail : str) : hit :=
  mk_hit [(chr name, text)] text tail.

Definition head_nonspace (s : str) : bool :=
  match s with
  | c :: _ => negb (isspace c)
  | [] => false
  end.

Definition year_digits (y : Z) : bool :=
  str_eqb (str_of_int y)
    [digit (y / 1000); digit (y / 100 mod 10); digit (y / 10 mod 10);
     digit (y mod 10)].

Definition reads_back (text : Z -> str) (n : Z) : bool :=
  match int (text n) with
  | Ok n' => n' =? n
  | Raise _ => false
  end.

(** The patterns [rs] match, one after the other and each at its first
    hit, the whole of [s], with the groups [gs]. *)
Inductive chain : list regex -> str -> groups -> Prop :=
| chain_nil : chain [] [] []
| chain_cons r rs s h gs :
    first_hit r s = Some h -> chain rs (rest h) gs ->
    chain (r :: rs) s (found h ++ gs).

(** The text [YYYY-MM-DD] and the text [YYYY-MM-DD HH:MM] of the given
    fields. *)
Definition date_text (y m d : Z) : str :=
  zero_pad 4 y ++ py "-" ++ zero_pad 2 m ++ py "-" ++ zero_pad 2 d.

Definition datetime_text (y m d h mi : Z) : str :=
  date_text y m d ++ py " " ++ zero_pad 2 h ++ py ":" ++ zero_pad 2 mi.

(** A raw date made of a relative marker and a clock time. *)
Definition relative_date (mk : Marker) (h mi : Z) (padded : bool) : str :=
  marker_text mk ++ py " " ++ clock_time h mi padded.

Definition is_yesterday (mk : Marker) : bool :=
  match mk with Yesterday => true | Today => false end.

(** The marker of a relative date is found, and removing it leaves the
    clock time. *)
Definition marker_found (mk : Marker) (padded : bool) (h mi : Z) : bool :=
  let raw := relative_date mk h mi padded in
  eqb (contains (py "Вчера") raw) (is_yesterday mk)
  && eqb (contains (py "Сегодня") raw) (negb (is_yesterday mk))
  && str_eqb (replace raw (marker_text mk) [])
       (py " " ++ clock_time h mi padded).

Definition markers_found (h : Z) : bool :=
  List.forallb
    (fun mi =>
       marker_found Yesterday true h mi && marker_found Yesterday false h mi
       && marker_found Today true h mi && marker_found Today false h mi)
    (zrange 0 60).

(** The month names of the site, January first. *)
Definition month_names : list str :=
  [ py "января"; py "февраля"; py "марта"; py "апреля"; py "мая";
    py "июня"; py "июля"; py "августа"; py "сентября"; py "октября";
    py "ноября"; py "декабря" ].

Definition month_name (m : Z) : str :=
  List.nth (Z.to_nat (m - 1)) month_names [].

(** The two absolute shapes of a raw date: day, month name and clock
    time; day, month name and year. *)
Definition day_month_time (d m h mi : Z) (padded : bool) : str :=
  str_of_int d ++ py " " ++ month_name m ++ py " " ++ clock_time h mi padded.

Definition day_month_year (d m y : Z) : str :=
  str_of_int d ++ py " " ++ month_name m ++ py " " ++ str_of_int y.

(** A non-empty text without whitespace. *)
Definition is_word (s : str) : bool :=
  match s with
  | [] => false
  | _ => List.forallb (fun c => negb (isspace c)) s
  end.

(** [c] does not occur in [s]. *)
Definition lacks (c : char) (s : str) : bool :=
  List.forallb (fun x => negb (char_eqb c x)) s.

(** A word with neither the first letter of a relative marker nor a
    colon. *)
Definition plain_word (s : str) : bool :=
  is_word s && lacks (chr "В") s && lacks (chr "С") s.

(** Every clock time of the hour [h] is a plain word with a colon. *)
Definition plain_clock (padded : bool) (h : Z) : bool :=
  List.forallb
    (fun mi =>
       plain_word (clock_time h mi padded)
       && contains (py ":") (clock_time h mi padded))
    (zrange 0 60).

(** ** Sample inputs *)

(** An ad node of which only the price is known. *)
Definition priced_ad (price_str : str) : AdNode :=
  mk_ad None (Some (mk_tag ∅ [NavigableString price_str])) None.


Definition sample_args : Search :=
  mk_search (py "audi") None false false None None.

Definition sample_url : str :=
  py "https://www.avito.ru/moskva?s=101&bt=0&q=audi&i=0&user=0&p={}".

(** [template.format(n)] for a template whose only replacement field is
    one [{}]. *)
Definition sample_format (template : str) (n : Z) : result str :=
  Ok (replace template (py "{}") (str_of_int n)).

Definition sample_page_url (n : Z) : str :=
  replace sample_url (py "{}") (str_of_int n).

Definition sample_ad (raw_date : str) : AdNode :=
  mk_ad
    (Some (mk_tag {[ py "href" := py "/audi_tt_1" ]}
             [NavigableString (py " Audi TT ")]))
    (Some (mk_tag ∅ [NavigableString (py "1 234 567 ₽")]))
    (Some (mk_tag {[ py "data-tooltip" := raw_date ]} [])).

Definition marker_soup : Soup :=
  mk_soup
    (Some (mk_tag ∅ [NavigableString (py "Ничего не нашлось по запросу audi")]))
    None [].

(** A site whose first page lists [ads], whose second page carries the
    marker, and which answers any other request from the block page; read
    on 2019-01-11, an hour after the system started. *)
Definition sample_world (ads : list AdNode) : World :=
  mk_world
    (fun u =>
       if str_eqb u (sample_page_url 1) then mk_response u (py "1")
       else if str_eqb u (sample_page_url 2) then mk_response u (py "2")
       else mk_response blocked_url [])
    (fun html =>
       if str_eqb html (py "1") then mk_soup None None ads else marker_soup)
    sample_format
    (mk_datetime 2019 1 11 12 0 0)
    (3600 * 10 ^ 9).

(** A site that answers every request from the block page. *)
Definition blocked_world : World :=
  mk_world (fun u => mk_response blocked_url []) (fun html => marker_soup)
    sample_format (mk_datetime 2019 1 11 12 0 0) (3600 * 10 ^ 9).

Definition sample_info : AdInfo :=
  mk_info (py "Audi TT") (py "https://www.avito.ru/audi_tt_1")
    (Some 1234567) (py "2019-01-10 15:29").

(** ** Vocabulary of the further properties *)

(** Every character of [s] is whitespace. *)
Definition blank (s : str) : Prop := Forall (fun c => isspace c = true) s.

(** [s] neither begins nor ends with whitespace. *)
Definition trimmed (s : str) : Prop :=
  s = [] \/ (head_nonspace s = true /\ head_nonspace (List.rev s) = true).

(** The no-break space that [get_date] replaces. *)
Definition nbsp : char := 160%N.

(** The site every link begins with. *)
Definition base_url : str := py "https://www.avito.ru".

(** The ad whose record is due next in a state of [get_all_ads]: the
    first of the ads of the current page still to be delivered or, when
    none is left or the search has not started, the first ad of the page
    that [get_pages] yields next. *)
Definition next_ad (w : World) (args : Search) (st : ads_state)
    : option AdNode :=
  let first_of search_url pages :=
    match pages_next w search_url (pause args) pages with
    | (_, (Yield page, _)) => List.head (page_ads w page)
    | _ => None
    end in
  match st with
  | AdsStart =>
      match generate_search_url (query args) (sort_by args) (by_title args)
              (with_images args) (owner args) with
      | Ok search_url => first_of search_url PagesStart
      | Raise _ => None
      end
  | AdsAt search_url pages [] => first_of search_url pages
  | AdsAt _ _ (ad :: _) => Some ad
  | AdsFinished => None
  end.

(** The URL of page [n] of a search. *)
Definition page_url (w : World) (search_url : str) (n : nat) : str :=
  match str_format w search_url (Z.of_nat n) with
  | Ok u => u
  | Raise _ => []
  end.

(** The events of the pause between two requests. *)
Definition pause_events (pause : option Q) : list event :=
  match pause with
  | Some seconds => [Sleep seconds]
  | None => []
  end.

(** The events of [get_pages] for page [n]: the pause, except before the
    first page, the request and the parse of the answer. *)
Definition page_events (w : World) (search_url : str) (pause : option Q)
    (n : nat) : list event :=
  (match n with 1%nat => [] | _ => pause_events pause end)
    ++ [Get (page_url w search_url n); Parse (page_text w search_url n)].

(** The ads that the pages 1 to [k] of a search list, in page order. *)
Definition listed_ads (w : World) (search_url : str) (k : nat)
    : list AdNode :=
  List.concat
    (List.map (fun n => page_ads w (page_text w search_url n))
       (List.seq 1 k)).

(** The events of [get_all_ads] for a page [n] that [get_pages] yields:
    those of [get_pages] and the parse by [get_ads_from_page]. *)
Definition listing_events (w : World) (search_url : str) (pause : option Q)
    (n : nat) : list event :=
  page_events w search_url pause n ++ [Parse (page_text w search_url n)].

(** The number of occurrences of [c] in [s]. *)
Definition count_char (c : char) (s : str) : nat :=
  List.length (List.filter (char_eqb c) s).

(** The characters [quote] writes: the unreserved ones, [/] and the [%]
    of an escape (whose two hexadecimal digits are unreserved). *)
Definition quoted_char (c : char) : bool :=
  always_safe c || char_eqb c (chr "/") || char_eqb c (chr "%").

(** A character that [quote] writes and that is ASCII and not
    whitespace. *)
Definition plain_char (c : char) : bool :=
  (c <? 128)%N && negb (isspace c).

(** Two ads of one page and the records they give on 2019-01-11. *)
Definition sample_ads : list AdNode :=
  [sample_ad (py "Вчера 15:29"); sample_ad (py "5 марта 09:41")].

(** The sample search with half a second between the requests. *)
Definition paused_args : Search :=
  mk_search (py "audi") None false false None (Some (1 # 2)%Q).

Definition sample_infos : list AdInfo :=
  [sample_info;
   mk_info (py "Audi TT") (py "https://www.avito.ru/audi_tt_1")
     (Some 1234567) (py "2019-03-05 09:41")].

(** The characters that the date patterns of [strptime] read: decimal
    digits, whitespace and the colon. *)
Definition date_char (c : char) : bool :=
  isdecimal c || isspace c || char_eqb c (chr ":").

(** The characters [r] can consume. *)
Fixpoint accepts (r : regex) (c : char) : bool :=
  match r with
  | Eps => false
  | Chr k => char_eqb k c
  | Rng lo hi => ((lo <=? c) && (c <=? hi))%N
  | Dec => isdecimal c
  | Spaces => isspace c
  | Cat r1 r2 | Alt r1 r2 => accepts r1 c || accepts r2 c
  | Grp _ r => accepts r c
  end.

(** A pattern whose literal characters are date characters and whose
    ranges lie within the ASCII digits. *)
Fixpoint date_regex (r : regex) : bool :=
  match r with
  | Eps | Dec | Spaces => true
  | Chr k => date_char k
  | Rng lo hi => ((48 <=? lo) && (hi <=? 57))%N
  | Cat r1 r2 | Alt r1 r2 => date_regex r1 && date_regex r2
  | Grp _ r => date_regex r
  end.

(** The marker that [normalize_date] resolves in a raw date: [Вчера]
    before [Сегодня]. *)
Definition marker_of (date : str) : option Marker :=
  if contains (py "Вчера") date then Some Yesterday
  else if contains (py "Сегодня") date then Some Today
  else None.

(** The URL template of a search for [a&b=? c], sorted by date, in
    titles only, of companies. *)
Definition escaped_url : str :=
  py "https://www.avito.ru/moskva?s=104&bt=1&q=a%26b%3D%3F%20c&i=0&user=2&p={}".

(** * Properties *)

Example py_yesterday :
  py "Вчера" = [1042; 1095; 1077; 1088; 1072]%N.
Proof. reflexivity. Qed.

Example py_rouble : py "1 ₽" = [49; 32; 8381]%N.
Proof. reflexivity. Qed.

Example contains_marker : contains (py "Вчера") (py "Вчера 15:29") = true.
Proof. reflexivity. Qed.

Example replace_marker :
  replace (py "Вчера 15:29") (py "Вчера") [] = py " 15:29".
Proof. reflexivity. Qed.

Example split_date :
  split (py "10 января  2019 ") = [py "10"; py "января"; py "2019"].
Proof. reflexivity. Qed.

Example str_of_int_2019 : str_of_int 2019 = py "2019".
Proof. reflexivity. Qed.

Example zero_pad_month : zero_pad 2 1 = py "01".
Proof. reflexivity. Qed.

Example strptime_unicode_digits :
  strptime (py "1٠ 1 ٢٠١٩") (py "%d %m %Y") = Ok (mk_datetime 2019 1 10 0 0 0).
Proof. vm_compute. reflexivity. Qed.

Example strptime_leading_digits_only :
  strptime (py "١٠ 1 2019") (py "%d %m %Y")
  = Raise (ValueError (py "time data does not match format")).
Proof. vm_compute. reflexivity. Qed.

Example strptime_padded_hour :
  strptime (py "10 01 2019  5:29") (py "%d %m %Y %H:%M")
  = Ok (mk_datetime 2019 1 10 5 29 0).
Proof. vm_compute. reflexivity. Qed.

Example strptime_year_zero :
  strptime (py "10 01 0000 15:29") (py "%d %m %Y %H:%M")
  = Raise (ValueError (py "year is out of range")).
Proof. vm_compute. reflexivity. Qed.

Example normalize_yesterday :
  normalize_date (mk_datetime 2019 1 11 12 0 0) (py "Вчера 15:29")
  = Ok (py "2019-01-10 15:29").
Proof. vm_compute. reflexivity. Qed.

Example normalize_full_date :
  normalize_date (mk_datetime 2021 7 1 12 0 0) (py "10 января 2019")
  = Ok (py "2019-01-10").
Proof. vm_compute. reflexivity. Qed.

Example normalize_march_example :
  normalize_date (mk_datetime 2019 3 5 12 0 0) (py "5 марта 09:41")
  = Ok (py "2019-03-05 09:41").
Proof. vm_compute. reflexivity. Qed.

Example normalize_leap_day :
  normalize_date (mk_datetime 2020 3 1 12 0 0) (py "29 февраля 15:29")
  = Raise (ValueError (py "day is out of range for month")).
Proof. vm_compute. reflexivity. Qed.

Example normalize_first_of_month :
  normalize_date (mk_datetime 2019 1 1 12 0 0) (py "Вчера 15:29")
  = Raise (ValueError (py "time data does not match format")).
Proof. vm_compute. reflexivity. Qed.

Example quote_query : quote (py "audi tt/ё~") = Ok (py "audi%20tt/%D1%91~").
Proof. vm_compute. reflexivity. Qed.

Example search_url_default :
  generate_search_url (py "audi tt") None false false None
  = Ok (py "https://www.avito.ru/moskva?s=101&bt=0&q=audi%20tt&i=0&user=0&p={}").
Proof. vm_compute. reflexivity. Qed.

Example search_url_bad_sort :
  generate_search_url (py "audi") (Some (py "price_asc")) false false None
  = Raise (ValueError (py "Sorting by price_asc is not supported")).
Proof. vm_compute. reflexivity. Qed.

(** ** Prices *)

Lemma isspace_cases (c : char) :
  isspace c = true ->
  In c [9; 10; 11; 12; 13; 28; 29; 30; 31; 32; 133; 160; 5760; 8192; 8193;
        8194; 8195; 8196; 8197; 8198; 8199; 8200; 8201; 8202; 8232; 8233;
        8239; 8287; 12288]%N.
Proof.
  unfold isspace. intros H.
  repeat (apply orb_prop in H; destruct H as [H | H]);
    try (apply andb_prop in H; destruct H as [H1 H2];
         apply N.leb_le in H1; apply N.leb_le in H2);
    try apply N.eqb_eq in H; simpl; lia.
Qed.

Lemma decimal_not_space (c : char) : isdecimal c = true -> isspace c = false.
Proof.
  intros Hd. destruct (isspace c) eqn:Hs; [|reflexivity].
  apply isspace_cases in Hs. simpl in Hs.
  repeat (destruct Hs as [<- | Hs]; [vm_compute in Hd; discriminate|]).
  contradiction.
Qed.

Lemma lstrip_id (s : str) :
  Forall (fun c => isspace c = false) s -> lstrip s = s.
Proof.
  intros H. destruct H as [|c s Hc _]; simpl; [|rewrite Hc]; reflexivity.
Qed.

Lemma strip_id (s : str) :
  Forall (fun c => isspace c = false) s -> strip s = s.
Proof.
  intros H. unfold strip, rstrip. rewrite (lstrip_id s H).
  rewrite lstrip_id, rev_involutive; [reflexivity|].
  apply Forall_rev. exact H.
Qed.

Lemma remove_non_digits_decimal (s : str) :
  Forall (fun c => isdecimal c = true) (remove_non_digits s).
Proof.
  unfold remove_non_digits. apply List.Forall_forall. intros c Hc.
  apply List.filter_In in Hc. tauto.
Qed.

Lemma int_digits_decimal (ds : str) :
  Forall (fun c => isdecimal c = true) ds ->
  forall acc after_digit,
    ds <> [] \/ after_digit = true ->
    int_digits acc after_digit ds
    = Some (List.fold_left
              (fun acc c =>
                 10 * acc + match todecimal c with Some d => d | None => 0 end)
              ds acc).
Proof.
  induction 1 as [|c ds Hc _ IH]; intros acc after_digit Hne; simpl.
  - destruct Hne as [Hne | ->]; [contradiction|reflexivity].
  - unfold isdecimal in Hc. destruct (todecimal c) as [d|]; [|discriminate].
    apply IH. right. reflexivity.
Qed.

Lemma todecimal_nonneg (c : char) (d : Z) : todecimal c = Some d -> 0 <= d.
Proof.
  unfold todecimal. generalize decimal_zeros. intros zs.
  induction zs as [|z zs IH]; simpl; [discriminate|].
  destruct (_ && _)%bool; [|exact IH].
  intros [= <-]. lia.
Qed.

Lemma decimal_number_nonneg (ds : str) : 0 <= decimal_number ds.
Proof.
  unfold decimal_number.
  enough (H : forall acc, 0 <= acc ->
            0 <= List.fold_left
                   (fun acc c =>
                      10 * acc
                      + match todecimal c with Some d => d | None => 0 end)
                   ds acc) by (apply H; lia).
  induction ds as [|c ds IH]; intros acc Hacc; simpl.
  - exact Hacc.
  - apply IH. destruct (todecimal c) as [d|] eqn:Hd; [|lia].
    apply todecimal_nonneg in Hd. lia.
Qed.

Lemma scan_digits_decimal (ds : str) :
  Forall (fun c => isdecimal c = true) ds ->
  forall count after_digit,
    ds <> [] \/ after_digit = true ->
    scan_digits count after_digit ds
    = Some (count + Z.of_nat (List.length ds)).
Proof.
  induction 1 as [|c ds Hc _ IH]; intros count after_digit Hne.
  - destruct Hne as [Hne | ->]; [contradiction|].
    simpl. rewrite Z.add_0_r. reflexivity.
  - cbn [scan_digits]. rewrite Hc, IH by (right; reflexivity).
    rewrite List.length_cons, Nat2Z.inj_succ. f_equal. lia.
Qed.

Lemma decimal_no_sign (c : char) :
  isdecimal c = true ->
  char_eqb c (chr "+") = false /\ char_eqb c (chr "-") = false.
Proof.
  intros Hc. split.
  - destruct (char_eqb c (chr "+")) eqn:E; [|reflexivity].
    apply N.eqb_eq in E. subst c. vm_compute in Hc. discriminate.
  - destruct (char_eqb c (chr "-")) eqn:E; [|reflexivity].
    apply N.eqb_eq in E. subst c. vm_compute in Hc. discriminate.
Qed.

Lemma int_of_digits (ds : str) :
  Forall (fun c => isdecimal c = true) ds -> ds <> [] ->
  int ds
  = if int_max_str_digits <? Z.of_nat (List.length ds)
    then Raise digits_exceeded
    else Ok (decimal_number ds).
Proof.
  intros Hds Hne. unfold int.
  rewrite strip_id
    by (eapply List.Forall_impl; [|exact Hds]; apply decimal_not_space).
  destruct ds as [|c ds]; [contradiction|].
  assert (Hc : isdecimal c = true) by (inversion Hds; assumption).
  destruct (decimal_no_sign c Hc) as [Hplus Hminus].
  cbv zeta. rewrite Hplus, Hminus.
  rewrite (scan_digits_decimal (c :: ds) Hds 0 false) by (left; discriminate).
  rewrite (int_digits_decimal (c :: ds) Hds 0 false) by (left; discriminate).
  reflexivity.
Qed.

(** The price [get_price] returns for the digits left of the price text:
    none without a digit and none when [int] refuses their number. *)
Lemma price_of_text (price_str : str) :
  int_or_none (remove_non_digits price_str)
  = Ok match remove_non_digits price_str with
       | [] => None
       | digits =>
           if int_max_str_digits <? Z.of_nat (List.length digits) then None
           else Some (decimal_number digits)
       end.
Proof.
  pose proof (remove_non_digits_decimal price_str) as Hdec.
  destruct (remove_non_digits price_str) as [|c ds]; [reflexivity|].
  unfold int_or_none. rewrite (int_of_digits (c :: ds) Hdec) by discriminate.
  destruct (int_max_str_digits <? _); reflexivity.
Qed.

(** C9 (amended). Price extraction keeps the decimal digits of the raw
    price text and, when at most 4300 of them remain, reads them as a
    non-negative integer; the price is [None] exactly when no digit
    remains or more than 4300 remain, which [int] refuses with the
    [ValueError] that [get_price] catches; it is never zero in place of
    [None] and never an exception; ["1 234 567 ₽"] gives [1234567],
    ["Бесплатно"] gives [None]. *)
Theorem get_price_digits (ad : AdNode) (span : Tag) (price_str : str)
    (rest : list child) :
  find_snippet_price ad = Some span ->
  contents span = NavigableString price_str :: rest ->
  let digits := remove_non_digits price_str in
  (exists price, get_price ad = Ok price)
  /\ (get_price ad = Ok None
      <-> digits = [] \/ int_max_str_digits < Z.of_nat (List.length digits))
  /\ (digits <> [] ->
      Z.of_nat (List.length digits) <= int_max_str_digits ->
      get_price ad = Ok (Some (decimal_number digits))
      /\ 0 <= decimal_number digits)
  /\ int_or_none (remove_non_digits (py "1 234 567 ₽")) = Ok (Some 1234567)
  /\ int_or_none (remove_non_digits (py "Бесплатно")) = Ok None.
Proof.
  intros Hspan Hcontents digits.
  assert (Hget : get_price ad = int_or_none digits).
  { unfold get_price, first_content. rewrite Hspan, Hcontents. reflexivity. }
  rewrite Hget. subst digits. rewrite price_of_text.
  repeat (match goal with |- _ /\ _ => split end);
    [| | |vm_compute; reflexivity|vm_compute; reflexivity].
  - eexists; reflexivity.
  - destruct (remove_non_digits price_str) as [|c ds].
    { split; [left|]; reflexivity. }
    cbv zeta.
    destruct (int_max_str_digits <? Z.of_nat (List.length (c :: ds)))
      eqn:Hlimit.
    + apply Z.ltb_lt in Hlimit. split; [right; exact Hlimit|reflexivity].
    + apply Z.ltb_ge in Hlimit. split; [discriminate|].
      intros [H | H]; [discriminate|lia].
  - intros Hne Hlimit.
    destruct (remove_non_digits price_str) as [|c ds]; [contradiction|].
    cbv zeta. apply Z.ltb_ge in Hlimit. rewrite Hlimit.
    split; [reflexivity|apply decimal_number_nonneg].
Qed.

(** The claim C9 as stated fails on a price text of 4301 digits: digits
    remain after the stripping and the price is [None]. *)
Lemma get_price_many_digits :
  remove_non_digits (List.repeat (chr "1") 4301) <> []
  /\ get_price (priced_ad (List.repeat (chr "1") 4301)) = Ok None.
Proof. split; [vm_compute; discriminate|vm_compute; reflexivity]. Qed.

Lemma get_price_digits_witness :
  get_price (priced_ad (py "1 234 567 ₽")) = Ok (Some 1234567)
  /\ get_price (priced_ad (py "Бесплатно")) = Ok None.
Proof.
  split.
  - destruct (get_price_digits (priced_ad (py "1 234 567 ₽")) _ _ []
                eq_refl eq_refl) as (_ & _ & H & _).
    destruct H as [H _]; [vm_compute; discriminate|vm_compute; discriminate|].
    rewrite H. vm_compute. reflexivity.
  - destruct (get_price_digits (priced_ad (py "Бесплатно")) _ _ []
                eq_refl eq_refl) as (_ & H & _).
    apply H. left. vm_compute. reflexivity.
Defined.

(** ** The search URL *)

Lemma sort_values_domain (sort_by : option str) :
  is_Some (sort_values !! sort_by) <-> in_sort sort_by.
Proof.
  split.
  - intros [v Hv]. unfold sort_values in Hv. simpl in Hv.
    repeat (apply lookup_insert_Some in Hv as [[<- _] | [_ Hv]];
            [first [ by exists date | by exists price_asc
                   | by exists price_desc | by exists relevance ]|]).
    rewrite lookup_empty in Hv. discriminate.
  - intros [s ->]. destruct s; vm_compute; eexists; reflexivity.
Qed.

Lemma owners_domain (owner : option str) :
  is_Some (owners !! owner) <-> in_owner owner.
Proof.
  split.
  - intros [v Hv]. unfold owners in Hv. simpl in Hv.
    repeat (apply lookup_insert_Some in Hv as [[<- _] | [_ Hv]];
            [first [ by exists private | by exists company | by exists any ]|]).
    rewrite lookup_empty in Hv. discriminate.
  - intros [o ->]. destruct o; vm_compute; eexists; reflexivity.
Qed.

Lemma utf8_encode_scalar (c : char) :
  is_scalar c = true ->
  exists bs, utf8_encode c = Some bs /\ Forall (fun b => (b < 256)%N) bs.
Proof.
  unfold is_scalar, utf8_encode. intros Hc.
  assert (Hc' : (c < 0xD800 \/ 0xDFFF < c < 0x110000)%N).
  { apply orb_prop in Hc as [Hc | Hc]; [apply N.ltb_lt in Hc; lia|].
    apply andb_prop in Hc as [Hc1 Hc2]. apply N.ltb_lt in Hc1, Hc2. lia. }
  clear Hc.
  assert (Hland : forall x, (N.land x 63 < 64)%N).
  { intros x. change 63%N with (N.ones 6). rewrite N.land_ones.
    apply N.mod_lt. discriminate. }
  assert (Hshift : forall x n k, (x < 2 ^ n * k)%N -> (N.shiftr x n < k)%N).
  { intros x n k Hx. rewrite N.shiftr_div_pow2.
    apply N.Div0.div_lt_upper_bound. exact Hx. }
  destruct (c <? 0x80)%N eqn:H1; [apply N.ltb_lt in H1|apply N.ltb_ge in H1].
  { eexists. split; [reflexivity|]. repeat constructor. lia. }
  destruct (c <? 0x800)%N eqn:H2; [apply N.ltb_lt in H2|apply N.ltb_ge in H2].
  { eexists. split; [reflexivity|].
    pose proof (Hshift c 6 32 ltac:(simpl; lia))%N. pose proof (Hland c).
    repeat constructor; lia. }
  destruct (c <? 0x10000)%N eqn:H3; [apply N.ltb_lt in H3|apply N.ltb_ge in H3].
  { destruct ((0xD800 <=? c) && (c <=? 0xDFFF))%N eqn:H4.
    - apply andb_prop in H4 as [H4 H5]. apply N.leb_le in H4, H5. lia.
    - eexists. split; [reflexivity|].
      pose proof (Hshift c 12 16 ltac:(simpl; lia))%N.
      pose proof (Hland c). pose proof (Hland (N.shiftr c 6)).
      repeat constructor; lia. }
  destruct (c <? 0x110000)%N eqn:H4;
    [apply N.ltb_lt in H4|apply N.ltb_ge in H4].
  { eexists. split; [reflexivity|].
    pose proof (Hshift c 18 8 ltac:(simpl; lia))%N.
    pose proof (Hland c). pose proof (Hland (N.shiftr c 6)).
    pose proof (Hland (N.shiftr c 12)).
    repeat constructor; lia. }
  lia.
Qed.





Lemma ads_run_finished (w : World) (args : Search) (n : nat) :
  ads_run w args n AdsFinished = ([], List.repeat StopIteration n).
Proof.
  induction n as [|n IH]; simpl; [reflexivity|]. rewrite IH. reflexivity.
Qed.

Lemma pages_run_finished (w : World) (search_url : str) (pause : option Q)
    (n : nat) :
  pages_run w search_url pause n PagesFinished
  = ([], List.repeat StopIteration n).
Proof.
  induction n as [|n IH]; simpl; [reflexivity|]. rewrite IH. reflexivity.
Qed.


(** ** Pagination *)

Lemma no_get_after_split (last : str -> bool) (trace : list event) :
  no_get_after last trace = true ->
  forall pre u post,
    trace = pre ++ Get u :: post -> last u = true ->
    Forall (fun e => is_get e = false) post.
Proof.
  intros Htrace pre. revert trace Htrace.
  induction pre as [|e pre IH]; intros trace Htrace u post -> Hlast.
  - simpl in Htrace. rewrite Hlast in Htrace.
    rewrite List.forallb_forall in Htrace. apply List.Forall_forall.
    intros e He. apply Htrace in He.
    destruct (is_get e); [discriminate|reflexivity].
  - simpl in Htrace. destruct e as [u'| |].
    + destruct (last u') eqn:Hu'.
      * rewrite List.forallb_forall in Htrace.
        specialize (Htrace (Get u)). simpl in Htrace.
        assert (false = true); [|discriminate].
        apply Htrace. apply List.in_or_app. right. left. reflexivity.
      * eapply IH; [exact Htrace|reflexivity|exact Hlast].
    + eapply IH; [exact Htrace|reflexivity|exact Hlast].
    + eapply IH; [exact Htrace|reflexivity|exact Hlast].
Qed.

(** The three ways [fetch_and_test] can go. *)
Lemma fetch_and_test_cases (w : World) (search_url : str) (page_number : Z) :
  (exists e,
      str_format w search_url page_number = Raise e
      /\ fetch_and_test w search_url page_number = ([], Raise e))
  \/ (exists u,
        str_format w search_url page_number = Ok u
        /\ blocked w u = true
        /\ fetch_and_test w search_url page_number
           = ([Get u], Raise (TooManyRequests (py "IP temporarily blocked"))))
  \/ (exists u,
        str_format w search_url page_number = Ok u
        /\ blocked w u = false
        /\ let page := text (requests_get w u) in
           fetch_and_test w search_url page_number
           = ([Get u; Parse page],
              Ok (if nothing_found w page then None else Some page))).
Proof.
  unfold fetch_and_test, fetch_page, is_page_exists, get_beautiful_soup,
    nothing_found, blocked, lift, ret, ebind.
  cbv zeta.
  destruct (str_format w search_url page_number) as [u|e].
  - right. destruct (str_eqb (url (requests_get w u)) blocked_url) eqn:Hb.
    + left. exists u. auto.
    + right. exists u. split; [reflexivity|]. split; [exact Hb|].
      simpl. destruct (find_nothing_found _); reflexivity.
  - left. exists e. auto.
Qed.

Lemma quiet_sleep (w : World) (pause : option Q) :
  let m := match pause with
           | Some seconds => time_sleep w seconds
           | None => ret tt
           end in
  quiet (fst m).
Proof.
  destruct pause as [seconds|]; simpl; [|constructor].
  unfold time_sleep. cbv zeta.
  repeat match goal with
         | |- context [if ?b then _ else _] => destruct b
         end; simpl; repeat constructor.
Qed.

Lemma nanoseconds_bounds (seconds : Q) :
  let n := Qnum seconds * 1000000000 in
  let d := Z.pos (Qden seconds) in
  d * nanoseconds_floor seconds <= n < d * (nanoseconds_floor seconds + 1)
  /\ d * (nanoseconds seconds - 1) < n <= d * nanoseconds seconds.
Proof.
  unfold nanoseconds_floor, nanoseconds. change (10 ^ 9) with 1000000000.
  cbv zeta. pose proof (Pos2Z.is_pos (Qden seconds)) as Hd.
  pose proof (Z.div_mod (Qnum seconds * 1000000000) (Z.pos (Qden seconds))
                ltac:(lia)) as H1.
  pose proof (Z.mod_pos_bound (Qnum seconds * 1000000000)
                (Z.pos (Qden seconds)) Hd) as H2.
  pose proof (Z.div_mod (- (Qnum seconds * 1000000000))
                (Z.pos (Qden seconds)) ltac:(lia)) as H3.
  pose proof (Z.mod_pos_bound (- (Qnum seconds * 1000000000))
                (Z.pos (Qden seconds)) Hd) as H4.
  split; nia.
Qed.

(** An accepted pause is slept. *)
Lemma sleep_ok (w : World) (pause : option Q) :
  pause_ok w pause ->
  match pause with
  | Some seconds => time_sleep w seconds
  | None => ret tt
  end
  = (match pause with Some seconds => [Sleep seconds] | None => [] end,
     Ok tt).
Proof.
  destruct pause as [seconds|]; simpl; [|reflexivity].
  intros [Hpause Hclock]. apply andb_prop in Hclock as [Hmono Hdeadline].
  apply Z.leb_le in Hmono, Hdeadline.
  change timestamp_limit with 9223372036854775808 in Hdeadline.
  change (10 ^ 9) with 1000000000 in Hdeadline.
  unfold Qle_bool in Hpause. cbn [Qnum Qden] in Hpause.
  apply Z.leb_le in Hpause.
  pose proof (nanoseconds_bounds seconds) as [Hdown Hup]. cbv zeta in *.
  pose proof (Pos2Z.is_pos (Qden seconds)) as Hd.
  assert (H0 : 0 <= nanoseconds_floor seconds) by nia.
  assert (H1 : nanoseconds_floor seconds <= nanoseconds seconds) by nia.
  unfold time_sleep. cbv zeta.
  assert (Hrange : (- timestamp_limit - 1024 <=? nanoseconds_floor seconds)
                   && (nanoseconds seconds <=? timestamp_limit + 1024)
                   = true).
  { change timestamp_limit with 9223372036854775808.
    apply andb_true_intro. split; apply Z.leb_le; lia. }
  assert (Hsign : (nanoseconds_floor seconds <? 0)
                  || (timestamp_limit - 512 <=? nanoseconds_floor seconds)
                  = false).
  { change timestamp_limit with 9223372036854775808.
    apply orb_false_intro; [apply Z.ltb_ge|apply Z.leb_gt]; lia. }
  assert (Hwrap : (timestamp_limit <=? monotonic w + nanoseconds seconds)
                  = false).
  { change timestamp_limit with 9223372036854775808. apply Z.leb_gt. lia. }
  rewrite Hrange, Hsign, Hwrap. reflexivity.
Qed.

Lemma pages_next_step (w : World) (search_url : str) (pause : option Q)
    (st : pages_state) :
  let '(ev, (out, st')) := pages_next w search_url pause st in
  pages_step w ev out st'.
Proof.
  assert (Hfetch : forall slept n,
             quiet slept ->
             let '(ev, r) := fetch_and_test w search_url n in
             match r with
             | Ok (Some page) =>
                 pages_step w (slept ++ ev) (Yield page) (PagesAt n)
             | Ok None => pages_step w (slept ++ ev) StopIteration PagesFinished
             | Raise e => pages_step w (slept ++ ev) (Throw e) PagesFinished
             end).
  { intros slept n Hq.
    destruct (fetch_and_test_cases w search_url n)
      as [(e & _ & ->) | [(u & _ & Hb & ->) | (u & _ & Hb & ->)]].
    - rewrite app_nil_r. constructor. exact Hq.
    - apply step_blocked; assumption.
    - destruct (nothing_found w (text (requests_get w u))) eqn:Hnf.
      + apply step_marker; assumption.
      + apply step_page; assumption. }
  destruct st as [|page_number|]; simpl.
  - specialize (Hfetch [] 1 ltac:(constructor)).
    destruct (fetch_and_test w search_url 1) as [ev [[page|]|e]]; exact Hfetch.
  - pose proof (quiet_sleep w pause) as Hq. cbv zeta in Hq. unfold ebind.
    destruct (match pause with Some s => time_sleep w s | None => ret tt end)
      as [slept [[]|e]]; simpl in Hq.
    + specialize (Hfetch slept (page_number + 1) Hq).
      destruct (fetch_and_test w search_url (page_number + 1))
        as [ev [[page|]|e]]; exact Hfetch.
    + constructor. exact Hq.
  - constructor. constructor.
Qed.

Lemma get_ads_from_page_parse (w : World) (page : str) :
  get_ads_from_page w page = ([Parse page], Ok (page_ads w page)).
Proof.
  unfold get_ads_from_page, page_ads, get_beautiful_soup, ebind, ret.
  destruct (find_extra_block_header (BeautifulSoup w page)); reflexivity.
Qed.

Lemma next_page_turn (w : World) (search_url : str) (pause : option Q)
    (pages : pages_state) :
  let '(ev, r) := next_page w search_url pause pages in
  page_turn w search_url ev r.
Proof.
  unfold next_page. pose proof (pages_next_step w search_url pause pages) as H.
  destruct (pages_next w search_url pause pages) as [ev [out st']].
  inversion H; subst.
  - constructor. assumption.
  - constructor. assumption.
  - apply turn_blocked; assumption.
  - apply turn_marker; assumption.
  - rewrite get_ads_from_page_parse, <- app_assoc. simpl.
    destruct (page_ads w (text (requests_get w u))) as [|ad rest] eqn:Hads.
    + apply turn_no_ads; assumption.
    + apply turn_ads; assumption.
Qed.

Lemma no_get_after_quiet (last : str -> bool) (slept trace : list event) :
  quiet slept ->
  no_get_after last (slept ++ trace) = no_get_after last trace.
Proof.
  induction 1 as [|e slept [He _] _ IH]; simpl; [reflexivity|].
  destruct e; [discriminate|exact IH|exact IH].
Qed.

Lemma last_page_false (w : World) (u : str) :
  blocked w u = false ->
  nothing_found w (text (requests_get w u)) = false ->
  last_page w u = false.
Proof.
  intros Hb Hnf. unfold last_page, marker_page. rewrite Hb, Hnf. reflexivity.
Qed.

Lemma pages_run_no_get_after (w : World) (search_url : str)
    (pause : option Q) (n : nat) (st : pages_state) :
  no_get_after (last_page w) (fst (pages_run w search_url pause n st)) = true.
Proof.
  revert st. induction n as [|n IH]; intros st; simpl; [reflexivity|].
  pose proof (pages_next_step w search_url pause st) as Hstep.
  destruct (pages_next w search_url pause st) as [ev [out st']].
  specialize (IH st').
  destruct (pages_run w search_url pause n st') as [evs outs] eqn:Hrun.
  simpl in *.
  inversion Hstep; subst; try rewrite pages_run_finished in Hrun;
    try (injection Hrun as <- <-);
    rewrite <- ?app_assoc, no_get_after_quiet by assumption;
    simpl.
  - reflexivity.
  - reflexivity.
  - destruct (last_page w u); reflexivity.
  - destruct (last_page w u); reflexivity.
  - rewrite last_page_false by assumption. exact IH.
Qed.

Lemma yield_ad_state (w : World) (search_url : str) (pages : pages_state)
    (ad : AdNode) (rest : list AdNode) :
  (exists info,
      agregate_ad_info (clock w) ad = Ok info
      /\ yield_ad w search_url pages ad rest
         = (Yield info, AdsAt search_url pages rest))
  \/ (exists e,
        agregate_ad_info (clock w) ad = Raise e
        /\ yield_ad w search_url pages ad rest = (Throw e, AdsFinished)).
Proof.
  unfold yield_ad. destruct (agregate_ad_info (clock w) ad) as [info|e].
  - left. eauto.
  - right. eauto.
Qed.

Lemma page_turn_no_get_after (w : World) (search_url : str)
    (ev : list event) (r : outcome AdInfo * ads_state) (evs : list event) :
  page_turn w search_url ev r ->
  no_get_after (last_page w) evs = true ->
  (snd r = AdsFinished -> evs = []) ->
  no_get_after (last_page w) (ev ++ evs) = true.
Proof.
  intros Hturn Hevs Hfin.
  inversion Hturn; subst; try subst page;
    try rewrite (Hfin eq_refl);
    rewrite <- ?app_assoc, no_get_after_quiet by assumption; simpl;
    try reflexivity; try (destruct (last_page w u); reflexivity);
    rewrite last_page_false by assumption; try reflexivity.
  exact Hevs.
Qed.

Lemma ads_run_no_get_after (w : World) (args : Search) (n : nat)
    (st : ads_state) :
  no_get_after (last_page w) (fst (ads_run w args n st)) = true.
Proof.
  revert st. induction n as [|n IH]; intros st; simpl; [reflexivity|].
  assert (Hturn : forall search_url pages,
             let '(ev, (out, st')) :=
               next_page w search_url (pause args) pages in
             no_get_after (last_page w)
               (fst (let '(evs, outs) := ads_run w args n st' in
                     (ev ++ evs, out :: outs))) = true).
  { intros search_url pages.
    pose proof (next_page_turn w search_url (pause args) pages) as Hturn.
    destruct (next_page w search_url (pause args) pages) as [ev [out st']].
    specialize (IH st').
    destruct (ads_run w args n st') as [evs outs] eqn:Hrun. simpl in *.
    eapply page_turn_no_get_after; [exact Hturn|exact IH|].
    simpl. intros ->. rewrite ads_run_finished in Hrun. congruence. }
  destruct st as [|search_url pages [|ad rest]|]; simpl.
  - destruct (generate_search_url _ _ _ _ _) as [search_url|e].
    + specialize (Hturn search_url PagesStart).
      destruct (next_page w search_url (pause args) PagesStart)
        as [ev [out st']]. exact Hturn.
    + rewrite ads_run_finished. reflexivity.
  - specialize (Hturn search_url pages).
    destruct (next_page w search_url (pause args) pages) as [ev [out st']].
    exact Hturn.
  - destruct (yield_ad w search_url pages ad rest) as [out st'].
    specialize (IH st'). destruct (ads_run w args n st') as [evs outs].
    exact IH.
  - rewrite ads_run_finished. reflexivity.
Qed.

Lemma requests_quiet (slept trace : list event) :
  quiet slept -> requests (slept ++ trace) = requests trace.
Proof.
  unfold requests. induction 1 as [|e slept [He _] _ IH]; simpl; [reflexivity|].
  rewrite He. exact IH.
Qed.

Lemma pages_next_served (w : World) (search_url : str) (pause : option Q)
    (n : nat) :
  pause_ok w pause -> served w search_url (S n) ->
  let page := page_text w search_url (S n) in
  exists ev,
    requests ev = 1%nat
    /\ pages_next w search_url pause (pages_after n)
       = (ev, if nothing_found w page then (StopIteration, PagesFinished)
              else (Yield page, pages_after (S n))).
Proof.
  intros Hpause (u & Hu & Hb) page. subst page. unfold page_text. rewrite Hu.
  assert (Hfetch : fetch_and_test w search_url (Z.of_nat (S n))
                   = ([Get u; Parse (text (requests_get w u))],
                      Ok (if nothing_found w (text (requests_get w u))
                          then None else Some (text (requests_get w u))))).
  { destruct (fetch_and_test_cases w search_url (Z.of_nat (S n)))
      as [(e & He & _) | [(u' & Hu' & Hb' & _) | (u' & Hu' & _ & H)]].
    - congruence.
    - congruence.
    - assert (u' = u) as -> by congruence. exact H. }
  destruct n as [|n].
  - change (Z.of_nat 1) with 1 in Hfetch. simpl. rewrite Hfetch.
    eexists. split; [|destruct (nothing_found w _); reflexivity]. reflexivity.
  - unfold pages_after, pages_next.
    replace (Z.of_nat (S n) + 1) with (Z.of_nat (S (S n))) by lia.
    rewrite Hfetch. pose proof (quiet_sleep w pause) as Hq. cbv zeta in Hq.
    assert (Hok : exists slept,
               match pause with
               | Some seconds => time_sleep w seconds
               | None => ret tt
               end = (slept, Ok tt)).
    { rewrite (sleep_ok w pause Hpause). eexists. reflexivity. }
    destruct Hok as [slept Hslept]. rewrite Hslept in *. simpl in Hq.
    unfold ebind. eexists. split;
      [|destruct (nothing_found w _); reflexivity].
    rewrite requests_quiet by exact Hq. reflexivity.
Qed.

Lemma requests_app (a b : list event) :
  requests (a ++ b) = (requests a + requests b)%nat.
Proof.
  unfold requests. rewrite List.filter_app, List.length_app. reflexivity.
Qed.

Lemma pages_run_to_marker (w : World) (search_url : str) (pause : option Q)
    (k m : nat) :
  pause_ok w pause ->
  (forall n, (1 <= n <= S k)%nat -> served w search_url n) ->
  (forall n, (1 <= n <= k)%nat ->
             nothing_found w (page_text w search_url n) = false) ->
  nothing_found w (page_text w search_url (S k)) = true ->
  exists evs,
    pages_run w search_url pause (S k + m) PagesStart
    = (evs,
       List.map (fun n => Yield (page_text w search_url n)) (List.seq 1 k)
         ++ List.repeat StopIteration (S m))
    /\ requests evs = S k.
Proof.
  intros Hpause Hserved Hpages Hmarker.
  enough (Hgen : forall d j, (j + d = k)%nat ->
            exists evs,
              pages_run w search_url pause (S d + m) (pages_after j)
              = (evs,
                 List.map (fun n => Yield (page_text w search_url n))
                   (List.seq (S j) d)
                   ++ List.repeat StopIteration (S m))
              /\ requests evs = S d)
    by (apply (Hgen k 0%nat); lia).
  induction d as [|d IH]; intros j Hj.
  - destruct (pages_next_served w search_url pause j Hpause)
      as (ev & Hev & Hnext); [apply Hserved; lia|].
    replace (S j) with (S k) in Hnext by lia. rewrite Hmarker in Hnext.
    exists (ev ++ []). simpl. rewrite Hnext, pages_run_finished.
    split; [reflexivity|]. rewrite app_nil_r. exact Hev.
  - destruct (pages_next_served w search_url pause j Hpause)
      as (ev & Hev & Hnext); [apply Hserved; lia|].
    rewrite Hpages in Hnext by lia.
    destruct (IH (S j) ltac:(lia)) as (evs & Hrun & Hevs).
    exists (ev ++ evs). split.
    + change (S (S d) + m)%nat with (S (S d + m)).
      cbn [pages_run]. rewrite Hnext, Hrun. reflexivity.
    + rewrite requests_app, Hev, Hevs. reflexivity.
Qed.

(** C2. The step of [get_pages] that fetches a page carrying the
    "nothing found" marker ends the iteration with [StopIteration], not
    with an exception; whatever the caller then asks, no request follows
    that one in the run; and a search whose first marker-bearing page is
    page [k + 1] yields exactly the [k] pages before it, stops, and has
    made [k + 1] requests (the pause, if one is set, being one that
    [time.sleep] accepts). *)
Theorem pagination_stops_at_marker (w : World) (search_url : str)
    (pause : option Q) :
  (forall st ev out st' u,
      pages_next w search_url pause st = (ev, (out, st')) ->
      In (Get u) ev -> marker_page w u = true ->
      out = StopIteration /\ st' = PagesFinished)
  /\ (forall n,
         pages_run w search_url pause n PagesFinished
         = ([], List.repeat StopIteration n))
  /\ (forall n st pre u post,
         fst (pages_run w search_url pause n st) = pre ++ Get u :: post ->
         marker_page w u = true ->
         Forall (fun e => is_get e = false) post)
  /\ (forall k m,
         pause_ok w pause ->
         (forall n, (1 <= n <= S k)%nat -> served w search_url n) ->
         (forall n, (1 <= n <= k)%nat ->
                    nothing_found w (page_text w search_url n) = false) ->
         nothing_found w (page_text w search_url (S k)) = true ->
         exists evs,
           pages_run w search_url pause (S k + m) PagesStart
           = (evs,
              List.map (fun n => Yield (page_text w search_url n))
                (List.seq 1 k)
                ++ List.repeat StopIteration (S m))
           /\ requests evs = S k).
Proof.
  split; [|split; [|split]].
  - intros st ev out st' u Hnext Hin Hmarker.
    pose proof (pages_next_step w search_url pause st) as Hstep.
    rewrite Hnext in Hstep. unfold marker_page in Hmarker.
    apply andb_prop in Hmarker as [Hb Hnf].
    apply negb_true_iff in Hb.
    assert (Hquiet : forall slept, quiet slept -> ~ In (Get u) slept).
    { intros slept Hq Hu. unfold quiet in Hq.
      rewrite List.Forall_forall in Hq. apply Hq in Hu as [Hu _].
      discriminate. }
    inversion Hstep; subst; try (exfalso; eapply Hquiet; eassumption);
      apply List.in_app_or in Hin as [Hin | Hin];
      try (exfalso; eapply Hquiet; eassumption);
      simpl in Hin; destruct Hin as [[= ->] | Hin];
      try (destruct Hin as [Hin | Hin]; [discriminate|]);
      try contradiction; try congruence.
    split; reflexivity.
  - apply pages_run_finished.
  - intros n st pre u post Htrace Hmarker.
    eapply no_get_after_split.
    + apply (pages_run_no_get_after w search_url pause n st).
    + exact Htrace.
    + unfold last_page. rewrite Hmarker. apply orb_true_r.
  - intros k m. apply pages_run_to_marker.
Qed.

(** ** Rate limiting *)

Lemma ads_next_turn (w : World) (args : Search) (st : ads_state) :
  let '(ev, r) := ads_next w args st in
  ev = [] \/ exists search_url, page_turn w search_url ev r.
Proof.
  destruct st as [|search_url pages [|ad rest]|]; simpl; auto.
  - destruct (generate_search_url _ _ _ _ _) as [search_url|e]; auto.
    pose proof (next_page_turn w search_url (pause args) PagesStart) as H.
    destruct (next_page w search_url (pause args) PagesStart) as [ev r].
    right. exists search_url. exact H.
  - pose proof (next_page_turn w search_url (pause args) pages) as H.
    destruct (next_page w search_url (pause args) pages) as [ev r].
    right. exists search_url. exact H.
Qed.

Lemma quiet_no_get (slept : list event) (u : str) :
  quiet slept -> ~ In (Get u) slept.
Proof.
  intros Hq Hu. unfold quiet in Hq. rewrite List.Forall_forall in Hq.
  apply Hq in Hu as [Hu _]. discriminate.
Qed.

(** The request of a step, when it is not the last event, is followed by
    parses only. *)
Lemma in_get_tail (slept : list event) (u v : str) (tail : list event) :
  quiet slept -> Forall (fun e => is_get e = false) tail ->
  In (Get u) (slept ++ Get v :: tail) -> u = v.
Proof.
  intros Hq Htail Hin. apply List.in_app_or in Hin as [Hin | Hin].
  - exfalso. eapply quiet_no_get; eassumption.
  - destruct Hin as [[= ->] | Hin]; [reflexivity|].
    rewrite List.Forall_forall in Htail. apply Htail in Hin. discriminate.
Qed.

(** C3. [fetch_page] raises [TooManyRequests] exactly when the final URL
    of the response is the block page, and then as the only thing it does
    after the request.  In [get_pages] and in [get_all_ads] the step that
    made such a request ends with that exception, having parsed no page,
    and the generator is finished: no request follows it in the run.  A
    step whose request was answered from elsewhere does not end with that
    exception. *)
Theorem blocked_fetch_raises (w : World) :
  (forall u,
      fetch_page w u
      = ([Get u],
         if str_eqb (url (requests_get w u)) blocked_url
         then Raise rate_limited else Ok (text (requests_get w u))))
  /\ (forall search_url pause st ev out st' u,
         pages_next w search_url pause st = (ev, (out, st')) ->
         In (Get u) ev ->
         if blocked w u
         then out = Throw rate_limited /\ st' = PagesFinished
              /\ exists slept, quiet slept /\ ev = slept ++ [Get u]
         else out = StopIteration \/ out = Yield (text (requests_get w u)))
  /\ (forall args st ev out st' u,
         ads_next w args st = (ev, (out, st')) ->
         In (Get u) ev -> blocked w u = true ->
         out = Throw rate_limited /\ st' = AdsFinished
         /\ exists slept, quiet slept /\ ev = slept ++ [Get u])
  /\ (forall search_url pause n st pre u post,
         fst (pages_run w search_url pause n st) = pre ++ Get u :: post ->
         blocked w u = true ->
         Forall (fun e => is_get e = false) post)
  /\ (forall args n st pre u post,
         fst (ads_run w args n st) = pre ++ Get u :: post ->
         blocked w u = true ->
         Forall (fun e => is_get e = false) post).
Proof.
  split; [|split; [|split; [|split]]].
  - intros u. reflexivity.
  - intros search_url pause st ev out st' u Hnext Hin.
    pose proof (pages_next_step w search_url pause st) as Hstep.
    rewrite Hnext in Hstep.
    inversion Hstep; subst;
      try (exfalso; eapply quiet_no_get; eassumption);
      (apply in_get_tail in Hin;
       [|assumption|solve [repeat constructor]]); subst;
      match goal with H : blocked w _ = _ |- _ => rewrite H end; eauto.
  - intros args st ev out st' u Hnext Hin Hb.
    pose proof (ads_next_turn w args st) as Hturn. rewrite Hnext in Hturn.
    destruct Hturn as [-> | [search_url Hturn]]; [contradiction|].
    inversion Hturn; subst; try subst page;
      try (exfalso; eapply quiet_no_get; eassumption);
      (apply in_get_tail in Hin;
       [|assumption|solve [repeat constructor]]); subst;
      try congruence; eauto.
  - intros search_url pause n st pre u post Htrace Hb.
    eapply no_get_after_split.
    + apply (pages_run_no_get_after w search_url pause n st).
    + exact Htrace.
    + unfold last_page. rewrite Hb. reflexivity.
  - intros args n st pre u post Htrace Hb.
    eapply no_get_after_split.
    + apply (ads_run_no_get_after w args n st).
    + exact Htrace.
    + unfold last_page. rewrite Hb. reflexivity.
Qed.

(** ** Pages without ads *)

(** C10. When [get_pages] yields a page (so the page passed the "nothing
    found" check) and no ad node is found in it, that step of
    [get_all_ads] ends the iteration with [StopIteration], never with an
    exception, and the generator is finished: it yields nothing more and
    makes no further request.  [get_pages] on its own, suspended after
    such a page, requests the next page when asked to go on (after the
    pause, if one is set and [time.sleep] accepts it). *)
Theorem no_ads_ends_iteration (w : World) (args : Search)
    (search_url : str) (pages pages' : pages_state) (st : ads_state)
    (ev : list event) (page : str) :
  st = AdsAt search_url pages []
  \/ (st = AdsStart /\ pages = PagesStart
      /\ generate_search_url (query args) (sort_by args) (by_title args)
           (with_images args) (owner args) = Ok search_url) ->
  pages_next w search_url (pause args) pages = (ev, (Yield page, pages')) ->
  page_ads w page = [] ->
  ads_next w args st = (ev ++ [Parse page], (StopIteration, AdsFinished))
  /\ (forall n,
         ads_run w args (S n) st
         = (ev ++ [Parse page], List.repeat StopIteration (S n)))
  /\ (exists page_number, pages' = PagesAt page_number)
  /\ (forall n,
         pause_ok w (pause args) -> served w search_url (S (S n)) ->
         exists ev',
           fst (pages_next w search_url (pause args) (pages_after (S n)))
           = ev'
           /\ requests ev' = 1%nat).
Proof.
  intros Hst Hnext Hads.
  assert (Hstep : ads_next w args st
                  = (ev ++ [Parse page], (StopIteration, AdsFinished))).
  { destruct Hst as [-> | (-> & -> & Hurl)]; simpl; rewrite ?Hurl;
      unfold next_page; rewrite Hnext, get_ads_from_page_parse, Hads;
      reflexivity. }
  split; [exact Hstep|]. split; [|split].
  - intros n. cbn [ads_run]. rewrite Hstep, ads_run_finished.
    rewrite app_nil_r. reflexivity.
  - pose proof (pages_next_step w search_url (pause args) pages) as H.
    rewrite Hnext in H. inversion H; subst. eexists. reflexivity.
  - intros n Hpause Hserved.
    destruct (pages_next_served w search_url (pause args) (S n) Hpause Hserved)
      as (ev' & Hev' & Heq).
    exists ev'. rewrite Heq. split; [reflexivity|exact Hev'].
Qed.

(** ** Dates *)

Lemma zrange_check (P : Z -> bool) (lo hi : Z) :
  List.forallb P (zrange lo hi) = true ->
  forall z, lo <= z < hi -> P z = true.
Proof.
  intros Hall z Hz. rewrite List.forallb_forall in Hall. apply Hall.
  unfold zrange. apply List.in_map_iff. exists (Z.to_nat (z - lo)).
  split; [lia|]. apply List.in_seq. lia.
Qed.

Lemma zero_pad_2 (n : Z) :
  0 <= n < 100 -> zero_pad 2 n = [digit (n / 10); digit (n mod 10)].
Proof.
  intros Hn.
  assert (H : two_digits n = true)
    by (apply (zrange_check two_digits 0 100); [vm_compute; reflexivity|lia]).
  unfold two_digits, str_eqb in H. apply bool_decide_eq_true in H. exact H.
Qed.

Lemma zero_pad_4 (n : Z) :
  0 <= n < 10000 ->
  zero_pad 4 n
  = [digit (n / 1000); digit (n / 100 mod 10); digit (n / 10 mod 10);
     digit (n mod 10)].
Proof.
  intros Hn.
  assert (H : four_digits n = true)
    by (apply (zrange_check four_digits 0 10000);
        [vm_compute; reflexivity|lia]).
  unfold four_digits, str_eqb in H. apply bool_decide_eq_true in H. exact H.
Qed.

Lemma ascii_digit_digit (d : Z) : 0 <= d < 10 -> ascii_digit (digit d) = true.
Proof.
  intros Hd. unfold ascii_digit, digit.
  apply andb_true_intro. split; apply N.leb_le; lia.
Qed.

Lemma new_datetime_valid (y m d h mi s : Z) (dt : datetime) :
  new_datetime y m d h mi s = Ok dt ->
  dt = mk_datetime y m d h mi s /\ valid_datetime dt.
Proof.
  unfold new_datetime, check_date, check_time, between, valid_datetime.
  repeat match goal with
         | |- context [negb ?b] => destruct b eqn:?; cbn [negb bind]
         end; try discriminate.
  intros [= <-]. simpl.
  repeat match goal with
         | H : (_ && _)%bool = true |- _ => apply andb_prop in H as [? ?]
         | H : (_ <=? _) = true |- _ => apply Z.leb_le in H
         end.
  split; [reflexivity|lia].
Qed.

Lemma strptime_valid (data_string format : str) (dt : datetime) :
  strptime data_string format = Ok dt -> valid_datetime dt /\ second dt = 0.
Proof.
  unfold strptime.
  destruct (pattern false format) as [rs|]; [|discriminate].
  destruct (matches (cat_all rs) data_string) as [|[found text [|c rest]] ms];
    try discriminate.
  repeat match goal with
         | |- context [bind ?m _] =>
             destruct m eqn:?; cbn [bind]; try discriminate
         | |- context [match group ?n ?f with _ => _ end] =>
             destruct (group n f); cbn [bind]
         end;
    intros H; try discriminate H;
    apply new_datetime_valid in H as [-> H]; split;
    solve [exact H | reflexivity].
Qed.

Lemma str_datetime_shape (dt : datetime) :
  valid_datetime dt -> second dt = 0 ->
  shape (py "DDDD-DD-DD DD:DD") (drop_last 3 (str_datetime dt)) = true.
Proof.
  intros (Hy & Hm & Hd & Hh & Hmi & Hs) H0.
  assert (day dt <= 31)
    by (unfold days_in_month in Hd;
        repeat match goal with
               | H : context [if ?b then _ else _] |- _ => destruct b
               end; lia).
  unfold str_datetime, str_date.
  rewrite zero_pad_4, !zero_pad_2 by lia.
  cbn [app py]. change (py "-") with [45%N]. change (py " ") with [32%N].
  change (py ":") with [58%N]. cbn [app drop_last List.length Nat.sub firstn].
  change (py "DDDD-DD-DD DD:DD")
    with [68; 68; 68; 68; 45; 68; 68; 45; 68; 68; 32; 68; 68; 58; 68; 68]%N.
  cbn [shape]. change (chr "D") with 68%N.
  cbn [char_eqb N.eqb Pos.eqb andb].
  rewrite !ascii_digit_digit by (Z.div_mod_to_equations; lia). reflexivity.
Qed.

Lemma str_date_shape (dt : datetime) :
  valid_datetime dt -> shape (py "DDDD-DD-DD") (str_date dt) = true.
Proof.
  intros (Hy & Hm & Hd & Hh & Hmi & Hs).
  assert (day dt <= 31)
    by (unfold days_in_month in Hd;
        repeat match goal with
               | H : context [if ?b then _ else _] |- _ => destruct b
               end; lia).
  unfold str_date.
  rewrite zero_pad_4, !zero_pad_2 by lia.
  change (py "-") with [45%N]. cbn [app].
  change (py "DDDD-DD-DD") with [68; 68; 68; 68; 45; 68; 68; 45; 68; 68]%N.
  cbn [shape]. change (chr "D") with 68%N.
  cbn [char_eqb N.eqb Pos.eqb andb].
  rewrite !ascii_digit_digit by (Z.div_mod_to_equations; lia). reflexivity.
Qed.

Lemma normalize_date_canonical (now : datetime) (date s : str) :
  normalize_date now date = Ok s -> canonical s.
Proof.
  unfold normalize_date, canonical.
  destruct (contains (py "Вчера") date || contains (py "Сегодня") date).
  - destruct (strptime _ _) as [dt|e] eqn:Hdt; cbn [bind]; [|discriminate].
    intros [= <-]. apply strptime_valid in Hdt as [Hvalid Hsec].
    left. apply str_datetime_shape; assumption.
  - destruct (replace_month_name_with_number date) as [date'|e];
      cbn [bind]; [|discriminate].
    destruct (contains (py ":") date').
    + destruct (strptime _ _) as [dt|e] eqn:Hdt; cbn [bind]; [|discriminate].
      apply strptime_valid in Hdt as [_ Hsec].
      destruct (replace_year dt (get_current_year now)) as [dt'|e] eqn:Hdt';
        cbn [bind]; [|discriminate].
      intros [= <-]. unfold replace_year in Hdt'.
      apply new_datetime_valid in Hdt' as [-> Hvalid].
      left. apply str_datetime_shape; [exact Hvalid|exact Hsec].
    + destruct (strptime _ _) as [dt|e] eqn:Hdt; cbn [bind]; [|discriminate].
      intros [= <-]. apply strptime_valid in Hdt as [Hvalid _].
      right. apply str_date_shape. exact Hvalid.
Qed.

Lemma agregate_ad_info_date (now : datetime) (ad : AdNode) (info : AdInfo) :
  agregate_ad_info now ad = Ok info ->
  exists raw_date,
    get_date ad = Ok raw_date /\ normalize_date now raw_date = Ok (Date info).
Proof.
  unfold agregate_ad_info.
  destruct (get_title ad); cbn [bind]; [|discriminate].
  destruct (get_link ad); cbn [bind]; [|discriminate].
  destruct (get_price ad); cbn [bind]; [|discriminate].
  destruct (get_date ad) as [raw_date|]; cbn [bind]; [|discriminate].
  destruct (normalize_date now raw_date) as [s|] eqn:Hs; cbn [bind];
    [|discriminate].
  intros [= <-]. exists raw_date. split; [reflexivity|exact Hs].
Qed.

Lemma ads_next_yield (w : World) (args : Search) (st st' : ads_state)
    (ev : list event) (info : AdInfo) :
  ads_next w args st = (ev, (Yield info, st')) ->
  exists ad, agregate_ad_info (clock w) ad = Ok info.
Proof.
  assert (Hyield : forall search_url pages ad rest,
             yield_ad w search_url pages ad rest = (Yield info, st') ->
             exists ad, agregate_ad_info (clock w) ad = Ok info).
  { intros search_url pages ad rest. unfold yield_ad.
    destruct (agregate_ad_info (clock w) ad) as [info'|e] eqn:Had;
      intros [= -> _]. exists ad. exact Had. }
  assert (Hpage : forall search_url pages,
             next_page w search_url (pause args) pages
             = (ev, (Yield info, st')) ->
             exists ad, agregate_ad_info (clock w) ad = Ok info).
  { intros search_url pages. unfold next_page.
    destruct (pages_next w search_url (pause args) pages)
      as [ev0 [[page| |e] ps]]; try discriminate.
    rewrite get_ads_from_page_parse.
    destruct (page_ads w page) as [|ad rest]; [discriminate|].
    intros [= _ H]. eapply Hyield. exact H. }
  destruct st as [|search_url pages [|ad rest]|]; simpl.
  - destruct (generate_search_url _ _ _ _ _); [apply Hpage|discriminate].
  - apply Hpage.
  - intros [= _ H]. eapply Hyield. exact H.
  - discriminate.
Qed.

(** C5. Whatever [normalize_date] returns has the form [YYYY-MM-DD HH:MM]
    or the form [YYYY-MM-DD]; so has the date of every record that
    [agregate_ad_info] builds and of every record that [get_all_ads]
    yields. *)
Theorem date_is_canonical (w : World) (args : Search) (st st' : ads_state)
    (ev : list event) (info : AdInfo) :
  ads_next w args st = (ev, (Yield info, st')) ->
  canonical (Date info)
  /\ (forall now date s, normalize_date now date = Ok s -> canonical s)
  /\ (forall now ad info',
         agregate_ad_info now ad = Ok info' -> canonical (Date info')).
Proof.
  intros Hnext.
  assert (Hrecord : forall now ad info',
             agregate_ad_info now ad = Ok info' -> canonical (Date info')).
  { intros now ad info' H.
    apply agregate_ad_info_date in H as (raw & _ & H).
    eapply normalize_date_canonical. exact H. }
  split; [|split].
  - apply ads_next_yield in Hnext as [ad Had]. eapply Hrecord. exact Had.
  - apply normalize_date_canonical.
  - exact Hrecord.
Qed.

(** C7. A raw date without a relative marker whose second word is not one
    of the twelve month names (or is missing) makes [normalize_date]
    raise, whatever the clock reads; the record of such an ad is never
    built, the exception leaves [get_all_ads] at that ad, and the
    generator is finished: the ads that follow it are not yielded and no
    further request is made.  This holds wherever the ad stands: when it
    is the next ad of the page being delivered, when it is the first ad
    of the page that the step fetches (at the start of the search or
    after the last ad of the page before), and when ads that can be
    aggregated stand before it, which are then delivered and followed by
    the exception. *)
Theorem unknown_month_aborts (w : World) (args : Search) (raw_date : str)
    (ad : AdNode) :
  contains (py "Вчера") raw_date = false ->
  contains (py "Сегодня") raw_date = false ->
  (forall name, split raw_date !! 1%nat = Some name -> months !! name = None) ->
  get_date ad = Ok raw_date ->
  (forall now,
      normalize_date now raw_date
      = match split raw_date !! 1%nat with
        | Some name => Raise (KeyError name)
        | None => Raise IndexError
        end)
  /\ exists e,
      agregate_ad_info (clock w) ad = Raise e
      /\ (forall search_url pages rest,
             yield_ad w search_url pages ad rest = (Throw e, AdsFinished)
             /\ ads_next w args (AdsAt search_url pages (ad :: rest))
                = ([], (Throw e, AdsFinished))
             /\ forall n,
                 ads_run w args (S n) (AdsAt search_url pages (ad :: rest))
                 = ([], Throw e :: List.repeat StopIteration n))
      /\ (forall search_url pages pages' st ev page rest,
             st = AdsAt search_url pages []
             \/ (st = AdsStart /\ pages = PagesStart
                 /\ generate_search_url (query args) (sort_by args)
                      (by_title args) (with_images args) (owner args)
                    = Ok search_url) ->
             pages_next w search_url (pause args) pages
             = (ev, (Yield page, pages')) ->
             page_ads w page = ad :: rest ->
             ads_next w args st
             = (ev ++ [Parse page], (Throw e, AdsFinished))
             /\ forall n,
                 ads_run w args (S n) st
                 = (ev ++ [Parse page],
                    Throw e :: List.repeat StopIteration n))
      /\ (forall search_url pages before infos rest n,
             Forall2 (fun a info => agregate_ad_info (clock w) a = Ok info)
               before infos ->
             ads_run w args (List.length infos + S n)
               (AdsAt search_url pages (before ++ ad :: rest))
             = ([],
                List.map Yield infos
                  ++ Throw e :: List.repeat StopIteration n)).
Proof.
  intros Hy Ht Hname Hdate.
  assert (Hnorm : forall now,
             normalize_date now raw_date
             = match split raw_date !! 1%nat with
               | Some name => Raise (KeyError name)
               | None => Raise IndexError
               end).
  { intros now. unfold normalize_date, replace_month_name_with_number.
    rewrite Hy, Ht. simpl orb. cbv iota.
    destruct (split raw_date !! 1%nat) as [name|] eqn:Hsplit; [|reflexivity].
    rewrite (Hname name eq_refl). reflexivity. }
  split; [exact Hnorm|].
  assert (Hraise : exists e, agregate_ad_info (clock w) ad = Raise e).
  { unfold agregate_ad_info.
    destruct (get_title ad); cbn [bind]; [|eauto].
    destruct (get_link ad); cbn [bind]; [|eauto].
    destruct (get_price ad); cbn [bind]; [|eauto].
    rewrite Hdate. cbn [bind]. rewrite Hnorm.
    destruct (split raw_date !! 1%nat); cbn [bind]; eauto. }
  destruct Hraise as [e He]. exists e. split; [exact He|].
  assert (Hyield : forall search_url pages rest,
             yield_ad w search_url pages ad rest = (Throw e, AdsFinished))
    by (intros; unfold yield_ad; rewrite He; reflexivity).
  assert (Hrun : forall search_url pages rest n,
             ads_run w args (S n) (AdsAt search_url pages (ad :: rest))
             = ([], Throw e :: List.repeat StopIteration n)).
  { intros search_url pages rest n. cbn [ads_run ads_next].
    rewrite Hyield, ads_run_finished. reflexivity. }
  split; [|split].
  - intros search_url pages rest.
    split; [apply Hyield|]. split; [|apply Hrun].
    simpl. rewrite Hyield. reflexivity.
  - intros search_url pages pages' st ev page rest Hst Hpage Hads.
    assert (Hnext : next_page w search_url (pause args) pages
                    = (ev ++ [Parse page], (Throw e, AdsFinished))).
    { unfold next_page. rewrite Hpage, get_ads_from_page_parse, Hads, Hyield.
      reflexivity. }
    assert (Hstep : ads_next w args st
                    = (ev ++ [Parse page], (Throw e, AdsFinished))).
    { destruct Hst as [-> | (-> & -> & Hurl)]; cbn [ads_next].
      - exact Hnext.
      - rewrite Hurl. exact Hnext. }
    split; [exact Hstep|].
    intros n. cbn [ads_run]. rewrite Hstep, ads_run_finished, app_nil_r.
    reflexivity.
  - intros search_url pages before infos rest n Hbefore.
    induction Hbefore as [|a info before infos Ha _ IH].
    + apply Hrun.
    + cbn [List.length Nat.add app ads_run ads_next]. unfold yield_ad.
      rewrite Ha, IH. reflexivity.
Qed.

(** *** The pattern of [strptime] on the dates the module builds *)

Lemma first_hit_cat (r1 r2 : regex) (s : str) (h1 h2 : hit) :
  first_hit r1 s = Some h1 ->
  first_hit r2 (rest h1) = Some h2 ->
  first_hit (Cat r1 r2) s
  = Some (mk_hit (found h1 ++ found h2) (matched h1 ++ matched h2) (rest h2)).
Proof.
  unfold first_hit. cbn [matches].
  destruct (matches r1 s) as [|x l1]; [discriminate|]. intros [= ->].
  cbn [flat_map]. destruct (matches r2 (rest h1)) as [|y l2]; [discriminate|].
  intros [= ->]. reflexivity.
Qed.

Lemma first_hit_matches (r : regex) (s : str) (h : hit) :
  first_hit r s = Some h -> exists l, matches r s = h :: l.
Proof.
  unfold first_hit. destruct (matches r s) as [|x l]; [discriminate|].
  intros [= ->]. exists l. reflexivity.
Qed.

Lemma zrange_forall (P : Z -> Prop) (lo hi : Z) :
  Forall P (zrange lo hi) -> forall z, lo <= z < hi -> P z.
Proof.
  intros Hall z Hz. rewrite List.Forall_forall in Hall. apply Hall.
  unfold zrange. apply List.in_map_iff. exists (Z.to_nat (z - lo)).
  split; [lia|]. apply List.in_seq. lia.
Qed.

(** Case analysis on an integer of a small range: the goal, a property of
    [z] with [lo <= z < hi] in the context, is proved at each value by
    [tac]. *)
Ltac each_of z lo hi tac :=
  let H := fresh in
  assert (H : lo <= z < hi) by lia;
  pattern z;
  lazymatch goal with
  | |- ?P z => refine (zrange_forall P lo hi _ z H)
  end;
  let l := eval vm_compute in (zrange lo hi) in
  change (zrange lo hi) with l;
  repeat (constructor; [tac|]); constructor.

Lemma hit_day (d : Z) (tail : str) :
  1 <= d <= 31 ->
  first_hit (re_of "d") (str_of_int d ++ 32%N :: tail)
  = Some (group_hit "d" (str_of_int d) (32%N :: tail)).
Proof.
  intros Hd. revert tail.
  each_of d 1 32 ltac:(intros tail; vm_compute; reflexivity).
Qed.

Lemma hit_month_padded (m : Z) (tail : str) :
  1 <= m <= 12 ->
  first_hit (re_of "m") (zero_pad 2 m ++ 32%N :: tail)
  = Some (group_hit "m" (zero_pad 2 m) (32%N :: tail)).
Proof.
  intros Hm. revert tail.
  each_of m 1 13 ltac:(intros tail; vm_compute; reflexivity).
Qed.

Lemma hit_month (m : Z) (tail : str) :
  1 <= m <= 12 ->
  first_hit (re_of "m") (str_of_int m ++ 32%N :: tail)
  = Some (group_hit "m" (str_of_int m) (32%N :: tail)).
Proof.
  intros Hm. revert tail.
  each_of m 1 13 ltac:(intros tail; vm_compute; reflexivity).
Qed.

Lemma hit_hour (h : Z) (padded : bool) (tail : str) :
  0 <= h <= 23 ->
  first_hit (re_of "H") (hour_text h padded ++ 58%N :: tail)
  = Some (group_hit "H" (hour_text h padded) (58%N :: tail)).
Proof.
  intros Hh. revert tail. destruct padded;
    each_of h 0 24 ltac:(intros tail; vm_compute; reflexivity).
Qed.

Lemma hit_minute (mi : Z) :
  0 <= mi <= 59 ->
  first_hit (re_of "M") (zero_pad 2 mi)
  = Some (group_hit "M" (zero_pad 2 mi) []).
Proof.
  intros Hmi. each_of mi 0 60 ltac:(vm_compute; reflexivity).
Qed.

Lemma hit_colon (tail : str) :
  first_hit (Chr (chr ":")) (58%N :: tail) = Some (mk_hit [] [58%N] tail).
Proof. reflexivity. Qed.

Lemma hit_spaces (text : str) :
  head_nonspace text = true ->
  first_hit Spaces (32%N :: text) = Some (mk_hit [] [32%N] text).
Proof.
  destruct text as [|c t]; [discriminate|]. simpl. intros Hc.
  apply negb_true_iff in Hc. unfold first_hit. cbn [matches spaces_from].
  change (isspace 32%N) with true. cbv iota. cbn [spaces_from]. rewrite Hc.
  reflexivity.
Qed.

Lemma isdecimal_digit (x : Z) : 0 <= x < 10 -> isdecimal (digit x) = true.
Proof. intros Hx. each_of x 0 10 ltac:(vm_compute; reflexivity). Qed.

Lemma str_of_int_year (y : Z) :
  1000 <= y <= 9999 ->
  str_of_int y
  = [digit (y / 1000); digit (y / 100 mod 10); digit (y / 10 mod 10);
     digit (y mod 10)].
Proof.
  intros Hy.
  assert (H : year_digits y = true)
    by (apply (zrange_check year_digits 1000 10000);
        [vm_compute; reflexivity|lia]).
  unfold year_digits, str_eqb in H. apply bool_decide_eq_true in H. exact H.
Qed.

Lemma hit_dec (x : Z) (tail : str) :
  0 <= x < 10 ->
  first_hit Dec (digit x :: tail) = Some (mk_hit [] [digit x] tail).
Proof.
  intros Hx. unfold first_hit. cbn [matches one_char].
  rewrite isdecimal_digit by exact Hx. reflexivity.
Qed.

Lemma first_hit_grp (name : char) (r : regex) (s : str) (h : hit) :
  first_hit r s = Some h ->
  first_hit (Grp name r) s
  = Some (mk_hit ((name, matched h) :: found h) (matched h) (rest h)).
Proof.
  unfold first_hit. cbn [matches].
  destruct (matches r s) as [|x l]; [discriminate|]. intros [= ->].
  reflexivity.
Qed.

Lemma hit_year (y : Z) (tail : str) :
  1000 <= y <= 9999 ->
  first_hit (re_of "Y") (str_of_int y ++ tail)
  = Some (group_hit "Y" (str_of_int y) tail).
Proof.
  intros Hy. rewrite str_of_int_year by exact Hy.
  change (re_of "Y") with (Grp (chr "Y") (Cat Dec (Cat Dec (Cat Dec Dec)))).
  cbn [app].
  eapply eq_trans.
  - apply first_hit_grp.
    eapply eq_trans; [eapply first_hit_cat|reflexivity].
    + apply hit_dec. Z.div_mod_to_equations; lia.
    + cbn [rest].
      eapply eq_trans; [eapply first_hit_cat|reflexivity].
      * apply hit_dec. Z.div_mod_to_equations; lia.
      * cbn [rest].
        eapply eq_trans; [eapply first_hit_cat|reflexivity].
        -- apply hit_dec. Z.div_mod_to_equations; lia.
        -- cbn [rest]. apply hit_dec. Z.div_mod_to_equations; lia.
  - reflexivity.
Qed.

Lemma chain_first_hit (rs : list regex) (s : str) (gs : groups) :
  chain rs s gs ->
  exists text, first_hit (cat_all rs) s = Some (mk_hit gs text []).
Proof.
  induction 1 as [|r rs s h gs Hr _ [text IH]].
  - exists []. reflexivity.
  - eexists. cbn [cat_all]. erewrite first_hit_cat; [|exact Hr|exact IH].
    reflexivity.
Qed.

Lemma reads_back_int (text : Z -> str) (n : Z) :
  reads_back text n = true -> int (text n) = Ok n.
Proof.
  unfold reads_back. destruct (int (text n)) as [n'|e]; [|discriminate].
  intros H. apply Z.eqb_eq in H. congruence.
Qed.

Lemma int_day (d : Z) : 1 <= d <= 31 -> int (str_of_int d) = Ok d.
Proof.
  intros Hd. apply reads_back_int.
  apply (zrange_check (reads_back str_of_int) 1 32);
    [vm_compute; reflexivity|lia].
Qed.

Lemma int_padded (n : Z) : 0 <= n <= 99 -> int (zero_pad 2 n) = Ok n.
Proof.
  intros Hn. apply (reads_back_int (zero_pad 2)).
  apply (zrange_check (reads_back (zero_pad 2)) 0 100);
    [vm_compute; reflexivity|lia].
Qed.

Lemma int_year (y : Z) : 1000 <= y <= 9999 -> int (str_of_int y) = Ok y.
Proof.
  intros Hy. apply reads_back_int.
  apply (zrange_check (reads_back str_of_int) 1000 10000);
    [vm_compute; reflexivity|lia].
Qed.

Lemma int_hour (h : Z) (padded : bool) :
  0 <= h <= 23 -> int (hour_text h padded) = Ok h.
Proof.
  intros Hh. apply (reads_back_int (fun h => hour_text h padded)).
  apply (zrange_check (reads_back (fun h => hour_text h padded)) 0 24);
    [destruct padded; vm_compute; reflexivity|lia].
Qed.

Lemma head_nonspace_app (t u : str) :
  head_nonspace t = true -> head_nonspace (t ++ u) = true.
Proof. destruct t; [discriminate|]. intros H. exact H. Qed.

Lemma head_nonspace_padded (n : Z) :
  0 <= n <= 99 -> head_nonspace (zero_pad 2 n) = true.
Proof.
  intros Hn.
  apply (zrange_check (fun n => head_nonspace (zero_pad 2 n)) 0 100);
    [vm_compute; reflexivity|lia].
Qed.

Lemma head_nonspace_year (y : Z) :
  1000 <= y <= 9999 -> head_nonspace (str_of_int y) = true.
Proof.
  intros Hy.
  apply (zrange_check (fun n => head_nonspace (str_of_int n)) 1000 10000);
    [vm_compute; reflexivity|lia].
Qed.

Lemma head_nonspace_hour (h : Z) (padded : bool) :
  0 <= h <= 23 -> head_nonspace (hour_text h padded) = true.
Proof.
  intros Hh.
  apply (zrange_check (fun h => head_nonspace (hour_text h padded)) 0 24);
    [destruct padded; vm_compute; reflexivity|lia].
Qed.

Lemma check_date_ok (y m d : Z) :
  1 <= y <= 9999 -> 1 <= m <= 12 -> 1 <= d <= days_in_month y m ->
  check_date y m d = Ok tt.
Proof.
  intros Hy Hm Hd. unfold check_date, between.
  replace ((1 <=? y) && (y <=? 9999)) with true
    by (symmetry; apply andb_true_intro; split; apply Z.leb_le; lia).
  replace ((1 <=? m) && (m <=? 12)) with true
    by (symmetry; apply andb_true_intro; split; apply Z.leb_le; lia).
  replace ((1 <=? d) && (d <=? days_in_month y m)) with true
    by (symmetry; apply andb_true_intro; split; apply Z.leb_le; lia).
  reflexivity.
Qed.

Lemma new_datetime_ok (y m d h mi : Z) :
  1 <= y <= 9999 -> 1 <= m <= 12 -> 1 <= d <= days_in_month y m ->
  0 <= h <= 23 -> 0 <= mi <= 59 ->
  new_datetime y m d h mi 0 = Ok (mk_datetime y m d h mi 0).
Proof.
  intros Hy Hm Hd Hh Hmi. unfold new_datetime.
  rewrite check_date_ok by assumption. cbn [bind].
  unfold check_time, between.
  replace ((0 <=? h) && (h <=? 23)) with true
    by (symmetry; apply andb_true_intro; split; apply Z.leb_le; lia).
  replace ((0 <=? mi) && (mi <=? 59)) with true
    by (symmetry; apply andb_true_intro; split; apply Z.leb_le; lia).
  reflexivity.
Qed.

Lemma days_in_month_le (y m : Z) : days_in_month y m <= 31.
Proof.
  unfold days_in_month.
  repeat match goal with |- context [if ?b then _ else _] => destruct b end;
    lia.
Qed.

Lemma strptime_day_month_year_time (d m y h mi : Z) (padded : bool) :
  1000 <= y <= 9999 -> 1 <= m <= 12 -> 1 <= d <= days_in_month y m ->
  0 <= h <= 23 -> 0 <= mi <= 59 ->
  strptime
    (str_of_int d ++ py " " ++ zero_pad 2 m ++ py " " ++ str_of_int y
       ++ py " " ++ clock_time h mi padded)
    (py "%d %m %Y %H:%M")
  = Ok (mk_datetime y m d h mi 0).
Proof.
  intros Hy Hm Hd Hh Hmi. pose proof (days_in_month_le y m) as Hle.
  assert (Hchain :
    chain [re_of "d"; Spaces; re_of "m"; Spaces; re_of "Y"; Spaces;
           re_of "H"; Chr (chr ":"); re_of "M"]
      (str_of_int d ++ py " " ++ zero_pad 2 m ++ py " " ++ str_of_int y
         ++ py " " ++ clock_time h mi padded)
      [(chr "d", str_of_int d); (chr "m", zero_pad 2 m);
       (chr "Y", str_of_int y); (chr "H", hour_text h padded);
       (chr "M", zero_pad 2 mi)]).
  { unfold clock_time. change (py " ") with [32%N]. change (py ":") with [58%N].
    cbn [app].
    eapply (chain_cons _ _ _ _ _ (hit_day d _ ltac:(lia))).
    eapply (chain_cons _ _ _ _ _
              (hit_spaces _ (head_nonspace_app _ _
                               (head_nonspace_padded m ltac:(lia))))).
    eapply (chain_cons _ _ _ _ _ (hit_month_padded m _ Hm)).
    eapply (chain_cons _ _ _ _ _
              (hit_spaces _ (head_nonspace_app _ _ (head_nonspace_year y Hy)))).
    eapply (chain_cons _ _ _ _ _ (hit_year y _ Hy)).
    eapply (chain_cons _ _ _ _ _
              (hit_spaces _ (head_nonspace_app _ _
                               (head_nonspace_hour h padded Hh)))).
    eapply (chain_cons _ _ _ _ _ (hit_hour h padded _ Hh)).
    eapply (chain_cons _ _ _ _ _ (hit_colon _)).
    eapply (chain_cons _ _ _ _ _ (hit_minute mi Hmi)).
    apply chain_nil. }
  apply chain_first_hit in Hchain as [text Hhit].
  apply first_hit_matches in Hhit as [l Hl].
  unfold strptime.
  replace (pattern false (py "%d %m %Y %H:%M"))
    with (Some [re_of "d"; Spaces; re_of "m"; Spaces; re_of "Y"; Spaces;
                re_of "H"; Chr (chr ":"); re_of "M"])
    by (vm_compute; reflexivity).
  rewrite Hl.
  change (field "m" 1 _) with (int (zero_pad 2 m)).
  change (field "d" 1 _) with (int (str_of_int d)).
  change (field "H" 0 _) with (int (hour_text h padded)).
  change (field "M" 0 _) with (int (zero_pad 2 mi)).
  change (group (chr "Y") _) with (Some (str_of_int y)).
  rewrite !int_padded, int_day, int_hour, int_year by lia. cbn [bind].
  rewrite check_date_ok by lia. cbn [bind].
  apply new_datetime_ok; lia.
Qed.

Lemma marker_is_found (mk : Marker) (padded : bool) (h mi : Z) :
  0 <= h <= 23 -> 0 <= mi <= 59 ->
  let raw := relative_date mk h mi padded in
  contains (py "Вчера") raw = is_yesterday mk
  /\ contains (py "Сегодня") raw = negb (is_yesterday mk)
  /\ replace raw (marker_text mk) [] = py " " ++ clock_time h mi padded.
Proof.
  intros Hh Hmi raw.
  assert (Hall : markers_found h = true)
    by (apply (zrange_check markers_found 0 24);
        [vm_compute; reflexivity|lia]).
  unfold markers_found in Hall.
  pose proof (zrange_check _ 0 60 Hall mi ltac:(lia)) as H. cbv beta in H.
  assert (Hfound : marker_found mk padded h mi = true).
  { apply andb_prop in H as [H H4]. apply andb_prop in H as [H H3].
    apply andb_prop in H as [H1 H2]. destruct mk, padded; assumption. }
  unfold marker_found in Hfound. fold raw in Hfound.
  apply andb_prop in Hfound as [Hfound Hreplace].
  apply andb_prop in Hfound as [Hy Ht].
  apply eqb_prop in Hy, Ht. unfold str_eqb in Hreplace.
  apply bool_decide_eq_true in Hreplace. auto.
Qed.

Lemma drop_last_app (s t : str) : drop_last (List.length t) (s ++ t) = s.
Proof.
  unfold drop_last. rewrite List.length_app.
  replace (List.length s + List.length t - List.length t)%nat
    with (List.length s) by lia.
  rewrite List.firstn_app, Nat.sub_diag, List.firstn_all. simpl.
  apply app_nil_r.
Qed.

Lemma str_datetime_minutes (y m d h mi : Z) :
  drop_last 3 (str_datetime (mk_datetime y m d h mi 0))
  = datetime_text y m d h mi.
Proof.
  transitivity (drop_last (List.length [58; 48; 48]%N)
                  (datetime_text y m d h mi ++ [58; 48; 48]%N));
    [|apply drop_last_app].
  f_equal. unfold str_datetime, datetime_text, str_date, date_text.
  cbn [year month day hour minute second].
  change (py ":" ++ zero_pad 2 0) with [58; 48; 48]%N.
  rewrite <- !app_assoc. reflexivity.
Qed.

Lemma convert_relative_date (now : datetime) (mk : Marker) (h mi : Z)
    (padded : bool) :
  0 <= h <= 23 -> 0 <= mi <= 59 ->
  convert_relative_date_to_absolute now (relative_date mk h mi padded)
  = str_of_int (marker_day now mk) ++ py " " ++ zero_pad 2 (month now)
      ++ py " " ++ str_of_int (year now) ++ py " " ++ clock_time h mi padded.
Proof.
  intros Hh Hmi.
  destruct (marker_is_found mk padded h mi Hh Hmi) as (Hy & Ht & Hreplace).
  unfold convert_relative_date_to_absolute. rewrite Hy.
  assert (Hgen : forall word d,
             replace (relative_date mk h mi padded) word []
             = py " " ++ clock_time h mi padded ->
             replace_relative_day_with_absolute now
               (relative_date mk h mi padded) word d
             = str_of_int d ++ py " " ++ zero_pad 2 (month now)
                 ++ py " " ++ str_of_int (year now) ++ py " "
                 ++ clock_time h mi padded).
  { intros word d Hword. unfold replace_relative_day_with_absolute,
      get_current_month, get_current_year.
    rewrite Hword, <- !app_assoc. reflexivity. }
  destruct mk; simpl is_yesterday; cbv iota; apply Hgen; exact Hreplace.
Qed.

(** C1 (amended). For a raw date made of the marker [Вчера] or [Сегодня],
    a space and a clock time [H:MM] or [HH:MM], and a clock reading that
    is a valid date with a four-digit year, [normalize_date] resolves the
    marker to a day of the month of the clock (yesterday is the day minus
    one, today the day), takes the month and the year of the clock, and
    returns [YYYY-MM-DD HH:MM] with the seconds dropped, provided the
    resolved day is at least 1, that is, except for [Вчера] on the first
    of a month; ["Вчера 15:29"] read on 2019-01-11 gives
    ["2019-01-10 15:29"]. *)
Theorem relative_date_resolved (now : datetime) (mk : Marker) (h mi : Z)
    (padded : bool) :
  valid_datetime now -> 1000 <= year now ->
  0 <= h <= 23 -> 0 <= mi <= 59 ->
  1 <= marker_day now mk ->
  normalize_date now (relative_date mk h mi padded)
  = Ok (datetime_text (year now) (month now) (marker_day now mk) h mi)
  /\ normalize_date (mk_datetime 2019 1 11 12 0 0) (py "Вчера 15:29")
     = Ok (py "2019-01-10 15:29").
Proof.
  intros (Hy & Hm & Hd & _) Hy' Hh Hmi Hday.
  split; [|vm_compute; reflexivity].
  destruct (marker_is_found mk padded h mi Hh Hmi) as (Hyes & Htod & _).
  unfold normalize_date. rewrite Hyes, Htod.
  replace (is_yesterday mk || negb (is_yesterday mk)) with true
    by (destruct mk; reflexivity).
  rewrite convert_relative_date by assumption.
  rewrite strptime_day_month_year_time;
    [|lia|lia|unfold marker_day in *; destruct mk; lia|lia|lia].
  cbn [bind]. rewrite str_datetime_minutes. reflexivity.
Qed.

Lemma relative_date_resolved_witness :
  normalize_date (mk_datetime 2024 3 1 8 30 0) (py "Сегодня 9:05")
  = Ok (py "2024-03-01 09:05").
Proof.
  pose proof (relative_date_resolved (mk_datetime 2024 3 1 8 30 0) Today 9 5
                false) as H.
  destruct H as [H _].
  - repeat split; vm_compute; discriminate.
  - vm_compute. discriminate.
  - lia.
  - lia.
  - vm_compute. discriminate.
  - exact H.
Defined.

(** The claim C1 as stated fails on the first of a month: no date comes
    back for [Вчера]. *)
Lemma relative_date_first_of_month :
  normalize_date (mk_datetime 2019 1 1 12 0 0) (py "Вчера 15:29")
  = Raise (ValueError (py "time data does not match format")).
Proof. vm_compute. reflexivity. Qed.

Lemma day_zero_no_hit (tail : str) :
  matches (re_of "d") (48%N :: 32%N :: tail) = [].
Proof. vm_compute. reflexivity. Qed.

Lemma strptime_day_zero (tail : str) :
  strptime (py "0 " ++ tail) (py "%d %m %Y %H:%M")
  = Raise (ValueError (py "time data does not match format")).
Proof.
  unfold strptime.
  replace (pattern false (py "%d %m %Y %H:%M"))
    with (Some [re_of "d"; Spaces; re_of "m"; Spaces; re_of "Y"; Spaces;
                re_of "H"; Chr (chr ":"); re_of "M"])
    by (vm_compute; reflexivity).
  change (py "0 " ++ tail) with (48%N :: 32%N :: tail).
  cbn [cat_all matches]. fold (matches (re_of "d") (48%N :: 32%N :: tail)).
  change (matches (Grp (chr "d") _) (48%N :: 32%N :: tail))
    with (matches (re_of "d") (48%N :: 32%N :: tail)).
  rewrite day_zero_no_hit. reflexivity.
Qed.

(** C6 (amended). For a raw date with the marker [Вчера] read on the
    first of a month, no month or year is rolled over: the marker is
    resolved to day 0 of the month and year of the clock in the text
    handed to the date parser, which rejects it, so that [normalize_date]
    raises [ValueError] and returns no date. *)
Theorem yesterday_on_first_day (now : datetime) (raw_date : str) :
  contains (py "Вчера") raw_date = true ->
  day now = 1 ->
  convert_relative_date_to_absolute now raw_date
  = py "0 " ++ zero_pad 2 (month now) ++ py " " ++ str_of_int (year now)
      ++ replace raw_date (py "Вчера") []
  /\ normalize_date now raw_date
     = Raise (ValueError (py "time data does not match format")).
Proof.
  intros Hmarker Hday.
  assert (Hconvert :
    convert_relative_date_to_absolute now raw_date
    = py "0 " ++ zero_pad 2 (month now) ++ py " " ++ str_of_int (year now)
        ++ replace raw_date (py "Вчера") []).
  { unfold convert_relative_date_to_absolute,
      replace_relative_day_with_absolute, get_current_day, get_current_month,
      get_current_year.
    rewrite Hmarker, Hday. change (str_of_int (1 - 1)) with (py "0").
    rewrite <- !app_assoc. reflexivity. }
  split; [exact Hconvert|].
  unfold normalize_date. rewrite Hmarker. cbn [orb].
  rewrite Hconvert, strptime_day_zero. reflexivity.
Qed.

Lemma yesterday_on_first_day_witness :
  convert_relative_date_to_absolute (mk_datetime 2020 3 1 7 0 0)
    (py "Вчера 09:05")
  = py "0 03 2020 09:05"
  /\ normalize_date (mk_datetime 2020 3 1 7 0 0) (py "Вчера 09:05")
     = Raise (ValueError (py "time data does not match format")).
Proof.
  apply (yesterday_on_first_day (mk_datetime 2020 3 1 7 0 0)
           (py "Вчера 09:05")); reflexivity.
Defined.

(** The claim C6 as stated fails: on the first of a month no output
    carries a day 0, an exception comes out instead. *)
Lemma yesterday_on_first_no_output :
  normalize_date (mk_datetime 2020 3 1 7 0 0) (py "Вчера 09:05")
  = Raise (ValueError (py "time data does not match format")).
Proof. vm_compute. reflexivity. Qed.

(** *** Absolute dates *)

Lemma split_from_word (w : str) :
  List.forallb (fun c => negb (isspace c)) w = true ->
  forall cur rest, split_from cur (w ++ rest) = split_from (cur ++ w) rest.
Proof.
  induction w as [|c w IH]; intros Hw cur rest.
  - rewrite app_nil_r. reflexivity.
  - simpl in Hw. apply andb_prop in Hw as [Hc Hw].
    apply negb_true_iff in Hc. cbn [app split_from]. rewrite Hc.
    rewrite (IH Hw). rewrite <- app_assoc. reflexivity.
Qed.

Lemma is_word_chars (w : str) :
  is_word w = true ->
  w <> [] /\ List.forallb (fun c => negb (isspace c)) w = true.
Proof.
  destruct w; [discriminate|]. intros H. split; [discriminate|exact H].
Qed.

Lemma split_words (a b c : str) :
  is_word a = true -> is_word b = true -> is_word c = true ->
  split (a ++ py " " ++ b ++ py " " ++ c) = [a; b; c].
Proof.
  intros Ha Hb Hc.
  apply is_word_chars in Ha as [Ha0 Ha], Hb as [Hb0 Hb], Hc as [Hc0 Hc].
  unfold split. change (py " ") with [32%N]. cbn [app].
  rewrite (split_from_word a Ha). cbn [app split_from].
  change (isspace 32%N) with true. cbv iota.
  destruct a as [|x a]; [contradiction|]. cbn [app].
  rewrite (split_from_word b Hb). cbn [app split_from].
  change (isspace 32%N) with true. cbv iota.
  destruct b as [|y b]; [contradiction|].
  rewrite <- (app_nil_r c) at 1. rewrite (split_from_word c Hc).
  cbn [app split_from]. destruct c as [|z c]; [contradiction|]. reflexivity.
Qed.

Lemma contains_lacks (c : char) (sub s : str) :
  lacks c s = true -> contains (c :: sub) s = false.
Proof.
  induction s as [|x s IH]; intros Hs; [reflexivity|].
  simpl in Hs. apply andb_prop in Hs as [Hx Hs].
  apply negb_true_iff in Hx. cbn [contains startswith]. rewrite Hx.
  exact (IH Hs).
Qed.

Lemma lacks_app (c : char) (s t : str) :
  lacks c (s ++ t) = lacks c s && lacks c t.
Proof. apply List.forallb_app. Qed.

Lemma contains_app_r (sub s t : str) :
  contains sub t = true -> contains sub (s ++ t) = true.
Proof.
  intros Ht. induction s as [|x s IH]; [exact Ht|].
  cbn [app contains]. rewrite IH. apply orb_true_r.
Qed.

Lemma replace_month_name (a name c number : str) :
  is_word a = true -> is_word name = true -> is_word c = true ->
  months !! name = Some number ->
  replace_month_name_with_number (a ++ py " " ++ name ++ py " " ++ c)
  = Ok (a ++ py " " ++ number ++ py " " ++ c).
Proof.
  intros Ha Hname Hc Hmonth. unfold replace_month_name_with_number.
  rewrite split_words by assumption. cbn [lookup list_lookup].
  rewrite Hmonth. reflexivity.
Qed.

Lemma plain_word_parts (s : str) :
  plain_word s = true ->
  is_word s = true /\ lacks (chr "В") s = true /\ lacks (chr "С") s = true.
Proof.
  unfold plain_word. intros H. apply andb_prop in H as [H H3].
  apply andb_prop in H as [H1 H2]. auto.
Qed.

Lemma plain_day (d : Z) :
  1 <= d <= 31 ->
  plain_word (str_of_int d) = true /\ lacks (chr ":") (str_of_int d) = true.
Proof.
  intros Hd. split.
  - apply (zrange_check (fun d => plain_word (str_of_int d)) 1 32);
      [vm_compute; reflexivity|lia].
  - apply (zrange_check (fun d => lacks (chr ":") (str_of_int d)) 1 32);
      [vm_compute; reflexivity|lia].
Qed.

Lemma plain_month (m : Z) :
  1 <= m <= 12 ->
  plain_word (month_name m) = true
  /\ months !! month_name m = Some (str_of_int m)
  /\ lacks (chr ":") (str_of_int m) = true
  /\ head_nonspace (str_of_int m) = true.
Proof.
  intros Hm.
  each_of m 1 13 ltac:(repeat split; vm_compute; reflexivity).
Qed.

Lemma plain_year (y : Z) :
  1000 <= y <= 9999 ->
  plain_word (str_of_int y) = true /\ lacks (chr ":") (str_of_int y) = true.
Proof.
  intros Hy. split.
  - apply (zrange_check (fun y => plain_word (str_of_int y)) 1000 10000);
      [vm_compute; reflexivity|lia].
  - apply (zrange_check (fun y => lacks (chr ":") (str_of_int y)) 1000 10000);
      [vm_compute; reflexivity|lia].
Qed.

Lemma plain_clock_time (h mi : Z) (padded : bool) :
  0 <= h <= 23 -> 0 <= mi <= 59 ->
  plain_word (clock_time h mi padded) = true
  /\ contains (py ":") (clock_time h mi padded) = true.
Proof.
  intros Hh Hmi.
  assert (Hall : plain_clock padded h = true)
    by (apply (zrange_check (plain_clock padded) 0 24);
        [destruct padded; vm_compute; reflexivity|lia]).
  unfold plain_clock in Hall.
  pose proof (zrange_check _ 0 60 Hall mi ltac:(lia)) as H. cbv beta in H.
  apply andb_prop in H. exact H.
Qed.

Lemma strptime_day_month_time (d m h mi : Z) (padded : bool) :
  1 <= d <= 31 -> 1 <= m <= 12 -> 0 <= h <= 23 -> 0 <= mi <= 59 ->
  strptime (str_of_int d ++ py " " ++ str_of_int m ++ py " "
              ++ clock_time h mi padded)
    (py "%d %m %H:%M")
  = (let* _ := check_date (if (m =? 2) && (d =? 29) then 1904 else 1900) m d in
     new_datetime 1900 m d h mi 0).
Proof.
  intros Hd Hm Hh Hmi.
  destruct (plain_month m Hm) as (_ & _ & _ & Hhead).
  assert (Hchain :
    chain [re_of "d"; Spaces; re_of "m"; Spaces; re_of "H"; Chr (chr ":");
           re_of "M"]
      (str_of_int d ++ py " " ++ str_of_int m ++ py " "
         ++ clock_time h mi padded)
      [(chr "d", str_of_int d); (chr "m", str_of_int m);
       (chr "H", hour_text h padded); (chr "M", zero_pad 2 mi)]).
  { unfold clock_time. change (py " ") with [32%N]. change (py ":") with [58%N].
    cbn [app].
    eapply (chain_cons _ _ _ _ _ (hit_day d _ Hd)).
    eapply (chain_cons _ _ _ _ _
              (hit_spaces _ (head_nonspace_app _ _ Hhead))).
    eapply (chain_cons _ _ _ _ _ (hit_month m _ Hm)).
    eapply (chain_cons _ _ _ _ _
              (hit_spaces _ (head_nonspace_app _ _
                               (head_nonspace_hour h padded Hh)))).
    eapply (chain_cons _ _ _ _ _ (hit_hour h padded _ Hh)).
    eapply (chain_cons _ _ _ _ _ (hit_colon _)).
    eapply (chain_cons _ _ _ _ _ (hit_minute mi Hmi)).
    apply chain_nil. }
  apply chain_first_hit in Hchain as [text Hhit].
  apply first_hit_matches in Hhit as [l Hl].
  unfold strptime.
  replace (pattern false (py "%d %m %H:%M"))
    with (Some [re_of "d"; Spaces; re_of "m"; Spaces; re_of "H";
                Chr (chr ":"); re_of "M"])
    by (vm_compute; reflexivity).
  rewrite Hl.
  change (field "m" 1 _) with (int (str_of_int m)).
  change (field "d" 1 _) with (int (str_of_int d)).
  change (field "H" 0 _) with (int (hour_text h padded)).
  change (field "M" 0 _) with (int (zero_pad 2 mi)).
  change (group (chr "Y") _) with (@None str).
  rewrite !int_day, int_padded, int_hour by lia. reflexivity.
Qed.

Lemma strptime_day_month_year (d m y : Z) :
  1000 <= y <= 9999 -> 1 <= m <= 12 -> 1 <= d <= days_in_month y m ->
  strptime (str_of_int d ++ py " " ++ str_of_int m ++ py " " ++ str_of_int y)
    (py "%d %m %Y")
  = Ok (mk_datetime y m d 0 0 0).
Proof.
  intros Hy Hm Hd. pose proof (days_in_month_le y m) as Hle.
  destruct (plain_month m Hm) as (_ & _ & _ & Hhead).
  assert (Hchain :
    chain [re_of "d"; Spaces; re_of "m"; Spaces; re_of "Y"]
      (str_of_int d ++ py " " ++ str_of_int m ++ py " " ++ str_of_int y ++ [])
      [(chr "d", str_of_int d); (chr "m", str_of_int m);
       (chr "Y", str_of_int y)]).
  { change (py " ") with [32%N]. cbn [app].
    eapply (chain_cons _ _ _ _ _ (hit_day d _ ltac:(lia))).
    eapply (chain_cons _ _ _ _ _
              (hit_spaces _ (head_nonspace_app _ _ Hhead))).
    eapply (chain_cons _ _ _ _ _ (hit_month m _ Hm)).
    eapply (chain_cons _ _ _ _ _
              (hit_spaces _ (head_nonspace_app _ _ (head_nonspace_year y Hy)))).
    eapply (chain_cons _ _ _ _ _ (hit_year y _ Hy)).
    apply chain_nil. }
  rewrite app_nil_r in Hchain.
  apply chain_first_hit in Hchain as [text Hhit].
  apply first_hit_matches in Hhit as [l Hl].
  unfold strptime.
  replace (pattern false (py "%d %m %Y"))
    with (Some [re_of "d"; Spaces; re_of "m"; Spaces; re_of "Y"])
    by (vm_compute; reflexivity).
  rewrite Hl.
  change (field "m" 1 _) with (int (str_of_int m)).
  change (field "d" 1 _) with (int (str_of_int d)).
  change (field "H" 0 _) with (@Ok Z 0).
  change (field "M" 0 _) with (@Ok Z 0).
  change (group (chr "Y") _) with (Some (str_of_int y)).
  rewrite !int_day, int_year by lia. cbn [bind].
  rewrite check_date_ok by lia. cbn [bind].
  apply new_datetime_ok; lia.
Qed.

Lemma no_marker (a b c : str) :
  plain_word a = true -> plain_word b = true -> plain_word c = true ->
  contains (py "Вчера") (a ++ py " " ++ b ++ py " " ++ c) = false
  /\ contains (py "Сегодня") (a ++ py " " ++ b ++ py " " ++ c) = false.
Proof.
  intros Ha Hb Hc.
  apply plain_word_parts in Ha as (_ & Ha1 & Ha2).
  apply plain_word_parts in Hb as (_ & Hb1 & Hb2).
  apply plain_word_parts in Hc as (_ & Hc1 & Hc2).
  split.
  - change (py "Вчера") with (chr "В" :: py "чера"). apply contains_lacks.
    rewrite !lacks_app, Ha1, Hb1, Hc1. reflexivity.
  - change (py "Сегодня") with (chr "С" :: py "егодня"). apply contains_lacks.
    rewrite !lacks_app, Ha2, Hb2, Hc2. reflexivity.
Qed.

Lemma days_in_month_1900 (y m : Z) : days_in_month 1900 m <= days_in_month y m.
Proof.
  unfold days_in_month. change (is_leap 1900) with false.
  repeat match goal with |- context [if ?b then _ else _] => destruct b end;
    lia.
Qed.

Lemma normalize_day_month_time (now : datetime) (d m h mi : Z)
    (padded : bool) :
  1 <= d <= 31 -> 1 <= m <= 12 -> 0 <= h <= 23 -> 0 <= mi <= 59 ->
  normalize_date now (day_month_time d m h mi padded)
  = (let* dt :=
       (let* _ :=
          check_date (if (m =? 2) && (d =? 29) then 1904 else 1900) m d in
        new_datetime 1900 m d h mi 0) in
     let* dt := replace_year dt (year now) in
     Ok (drop_last 3 (str_datetime dt))).
Proof.
  intros Hd Hm Hh Hmi.
  destruct (plain_day d Hd) as [Hday _].
  destruct (plain_month m Hm) as (Hname & Hmonth & Hnum & _).
  destruct (plain_clock_time h mi padded Hh Hmi) as [Hclock Hcolon].
  destruct (no_marker _ _ _ Hday Hname Hclock) as [Hy Ht].
  unfold normalize_date, day_month_time. rewrite Hy, Ht. cbn [orb].
  rewrite (replace_month_name _ _ _ (str_of_int m));
    [|apply plain_word_parts in Hday; tauto
     |apply plain_word_parts in Hname; tauto
     |apply plain_word_parts in Hclock; tauto
     |exact Hmonth].
  cbn [bind].
  rewrite (app_assoc (str_of_int d)), (app_assoc _ (str_of_int m)),
    (app_assoc _ (py " ") (clock_time _ _ _)).
  rewrite contains_app_r by exact Hcolon.
  rewrite <- !app_assoc.
  rewrite strptime_day_month_time by assumption. reflexivity.
Qed.

Lemma normalize_day_month_year (now : datetime) (d m y : Z) :
  1000 <= y <= 9999 -> 1 <= m <= 12 -> 1 <= d <= days_in_month y m ->
  normalize_date now (day_month_year d m y) = Ok (date_text y m d).
Proof.
  intros Hy Hm Hd. pose proof (days_in_month_le y m) as Hle.
  destruct (plain_day d ltac:(lia)) as [Hday Hday'].
  destruct (plain_month m Hm) as (Hname & Hmonth & Hnum & _).
  destruct (plain_year y Hy) as [Hyear Hyear'].
  destruct (no_marker _ _ _ Hday Hname Hyear) as [Hyes Htod].
  unfold normalize_date, day_month_year. rewrite Hyes, Htod. cbn [orb].
  rewrite (replace_month_name _ _ _ (str_of_int m));
    [|apply plain_word_parts in Hday; tauto
     |apply plain_word_parts in Hname; tauto
     |apply plain_word_parts in Hyear; tauto
     |exact Hmonth].
  cbn [bind].
  replace (contains (py ":") _) with false.
  - rewrite strptime_day_month_year by assumption. reflexivity.
  - symmetry. change (py ":") with (chr ":" :: []). apply contains_lacks.
    rewrite !lacks_app, Hday', Hnum, Hyear'. reflexivity.
Qed.

(** A raw date made of a day, a month name of the vocabulary and a
    clock time is normalised to [YYYY-MM-DD HH:MM] with the year of the
    clock, and one made of a day, a month name and a year to
    [YYYY-MM-DD]; but the 29th of February with a clock time is rejected
    whatever the clock reads, in a leap year too, because the date is
    first built in the year 1900. *)
Theorem absolute_date_normalized (now : datetime) (d m y h mi : Z)
    (padded : bool) :
  1 <= year now <= 9999 -> 1 <= m <= 12 ->
  0 <= h <= 23 -> 0 <= mi <= 59 -> 1000 <= y <= 9999 ->
  (1 <= d <= days_in_month 1900 m ->
   normalize_date now (day_month_time d m h mi padded)
   = Ok (datetime_text (year now) m d h mi))
  /\ (1 <= d <= days_in_month y m ->
      normalize_date now (day_month_year d m y) = Ok (date_text y m d))
  /\ normalize_date now (day_month_time 29 2 h mi padded)
     = Raise (ValueError (py "day is out of range for month")).
Proof.
  intros Hnow Hm Hh Hmi Hy. split; [|split].
  - intros Hd. pose proof (days_in_month_le 1900 m) as Hle.
    pose proof (days_in_month_1900 (year now) m) as Hle'.
    rewrite normalize_day_month_time by lia.
    replace ((m =? 2) && (d =? 29)) with false.
    + rewrite check_date_ok by lia. cbn [bind].
      rewrite new_datetime_ok by lia. cbn [bind]. unfold replace_year.
      cbn [year month day hour minute second].
      rewrite new_datetime_ok by lia. cbn [bind].
      rewrite str_datetime_minutes. reflexivity.
    + symmetry. apply andb_false_iff.
      destruct (m =? 2) eqn:Hm2; [right|left; reflexivity].
      apply Z.eqb_eq in Hm2. subst m. apply Z.eqb_neq.
      change (days_in_month 1900 2) with 28 in Hd. lia.
  - intros Hd. apply normalize_day_month_year; assumption.
  - rewrite normalize_day_month_time by lia.
    unfold new_datetime.
    change (check_date (if (2 =? 2) && (29 =? 29) then 1904 else 1900) 2 29)
      with (@Ok unit tt).
    change (check_date 1900 2 29)
      with (@Raise unit (ValueError (py "day is out of range for month"))).
    reflexivity.
Qed.

(** C4. The claim fails on the code for the 29th of February with a
    clock time: read in the leap year 2020, ["29 февраля 15:29"] is not
    normalised to ["2020-02-29 15:29"]; [strptime] builds the date in the
    year 1900 before the year of the clock is stamped on it, and
    [ValueError] comes out. *)
Theorem leap_day_with_time_rejected :
  normalize_date (mk_datetime 2020 2 29 18 0 0) (py "29 февраля 15:29")
  = Raise (ValueError (py "day is out of range for month")).
Proof.
  exact (proj2 (proj2 (absolute_date_normalized (mk_datetime 2020 2 29 18 0 0)
                         29 2 2020 15 29 true
                         ltac:(vm_compute; split; discriminate)
                         ltac:(lia) ltac:(lia) ltac:(lia) ltac:(lia)))).
Qed.

Lemma absolute_date_normalized_witness :
  normalize_date (mk_datetime 2019 3 5 12 0 0) (py "5 марта 09:41")
  = Ok (py "2019-03-05 09:41")
  /\ normalize_date (mk_datetime 2019 3 5 12 0 0) (py "10 января 2019")
     = Ok (py "2019-01-10").
Proof.
  split.
  - refine (proj1 (absolute_date_normalized (mk_datetime 2019 3 5 12 0 0)
                     5 3 2019 9 41 true _ _ _ _ _) _);
      repeat split; vm_compute; discriminate.
  - refine (proj1 (proj2 (absolute_date_normalized
                            (mk_datetime 2019 3 5 12 0 0)
                            10 1 2019 9 41 true _ _ _ _ _)) _);
      repeat split; vm_compute; discriminate.
Defined.

(** ** The properties at sample inputs *)

Lemma pagination_stops_at_marker_witness :
  snd (pages_run (sample_world []) sample_url None 3 PagesStart)
  = [Yield (py "1"); StopIteration; StopIteration].
Proof.
  destruct (proj2 (proj2 (proj2
              (pagination_stops_at_marker (sample_world []) sample_url None)))
              1%nat 1%nat) as (evs & Hrun & _).
  - exact I.
  - intros n Hn. assert (n = 1 \/ n = 2)%nat as [-> | ->] by lia;
      eexists; split; vm_compute; reflexivity.
  - intros n Hn. assert (n = 1)%nat as -> by lia. vm_compute. reflexivity.
  - vm_compute. reflexivity.
  - change (2 + 1)%nat with 3%nat in Hrun. rewrite Hrun. reflexivity.
Defined.

Lemma blocked_fetch_raises_witness :
  pages_next blocked_world sample_url None PagesStart
  = ([Get (sample_page_url 1)], (Throw rate_limited, PagesFinished))
  /\ ads_next blocked_world sample_args AdsStart
     = ([Get (sample_page_url 1)], (Throw rate_limited, AdsFinished)).
Proof.
  pose proof (blocked_fetch_raises blocked_world) as (_ & Hpages & Hads & _).
  assert (Hb : blocked blocked_world (sample_page_url 1) = true)
    by reflexivity.
  split.
  - destruct (pages_next blocked_world sample_url None PagesStart)
      as [ev [out st']] eqn:Hnext.
    assert (Hin : In (Get (sample_page_url 1)) ev).
    { vm_compute in Hnext. injection Hnext as <- _ _. left. reflexivity. }
    specialize (Hpages sample_url None PagesStart ev out st'
                  (sample_page_url 1) Hnext Hin).
    rewrite Hb in Hpages. destruct Hpages as (-> & -> & _).
    vm_compute in Hnext. injection Hnext as <-. reflexivity.
  - destruct (ads_next blocked_world sample_args AdsStart)
      as [ev [out st']] eqn:Hnext.
    assert (Hin : In (Get (sample_page_url 1)) ev).
    { vm_compute in Hnext. injection Hnext as <- _ _. left. reflexivity. }
    destruct (Hads sample_args AdsStart ev out st' (sample_page_url 1)
                Hnext Hin eq_refl) as (-> & -> & slept & _ & _).
    vm_compute in Hnext. injection Hnext as <-. reflexivity.
Defined.

Lemma date_is_canonical_witness : canonical (Date sample_info).
Proof.
  refine (proj1 (date_is_canonical
                   (sample_world [sample_ad (py "Вчера 15:29")]) sample_args
                   AdsStart
                   (AdsAt sample_url (PagesAt 1) [])
                   [Get (sample_page_url 1); Parse (py "1"); Parse (py "1")]
                   sample_info _)).
  vm_compute. reflexivity.
Defined.

Lemma unknown_month_aborts_witness :
  normalize_date (mk_datetime 2019 1 11 12 0 0) (py "10 январь 2019")
  = Raise (KeyError (py "январь"))
  /\ ads_run
       (sample_world
          [sample_ad (py "10 январь 2019"); sample_ad (py "Вчера 15:29")])
       sample_args 3 AdsStart
     = ([Get (sample_page_url 1); Parse (py "1"); Parse (py "1")],
        [Throw (KeyError (py "январь")); StopIteration; StopIteration]).
Proof.
  destruct (unknown_month_aborts
              (sample_world
                 [sample_ad (py "10 январь 2019");
                  sample_ad (py "Вчера 15:29")])
              sample_args
              (py "10 январь 2019") (sample_ad (py "10 январь 2019")))
    as (Hnorm & e & He & _ & Hfirst & _).
  - reflexivity.
  - reflexivity.
  - intros name Hname. vm_compute in Hname. injection Hname as <-.
    reflexivity.
  - reflexivity.
  - split; [rewrite Hnorm; reflexivity|].
    destruct (Hfirst sample_url PagesStart (PagesAt 1) AdsStart
                [Get (sample_page_url 1); Parse (py "1")] (py "1")
                [sample_ad (py "Вчера 15:29")])
      as [_ Hrun].
    + right. repeat split; reflexivity.
    + reflexivity.
    + reflexivity.
    + rewrite (Hrun 2%nat). vm_compute in He. injection He as <-.
      reflexivity.
Defined.


Lemma no_ads_ends_iteration_witness :
  ads_run (sample_world []) sample_args 3 AdsStart
  = ([Get (sample_page_url 1); Parse (py "1"); Parse (py "1")],
     [StopIteration; StopIteration; StopIteration]).
Proof.
  destruct (no_ads_ends_iteration (sample_world []) sample_args sample_url
              PagesStart (PagesAt 1) AdsStart
              [Get (sample_page_url 1); Parse (py "1")] (py "1"))
    as (_ & Hrun & _).
  - right. repeat split; reflexivity.
  - reflexivity.
  - reflexivity.
  - rewrite (Hrun 2%nat). reflexivity.
Defined.

(** * Further properties of the module *)

(** ** Field extraction *)

Lemma lstrip_split (s : str) :
  exists pre, s = pre ++ lstrip s /\ blank pre.
Proof.
  induction s as [|c s (pre & Hs & Hpre)].
  - exists []. split; [reflexivity|constructor].
  - simpl. destruct (isspace c) eqn:Hc.
    + exists (c :: pre). split; [simpl; congruence|].
      constructor; assumption.
    + exists []. split; [reflexivity|constructor].
Qed.

Lemma lstrip_head (s : str) :
  lstrip s = [] \/ head_nonspace (lstrip s) = true.
Proof.
  induction s as [|c s IH]; [left; reflexivity|].
  simpl. destruct (isspace c) eqn:Hc; [exact IH|].
  right. simpl. rewrite Hc. reflexivity.
Qed.

Lemma lstrip_snoc (l : str) (c : char) :
  isspace c = false -> lstrip (l ++ [c]) = lstrip l ++ [c].
Proof.
  intros Hc. induction l as [|x l IH]; simpl.
  - rewrite Hc. reflexivity.
  - destruct (isspace x); [exact IH|reflexivity].
Qed.

Lemma lstrip_blank (s : str) : blank s -> lstrip s = [].
Proof.
  induction 1 as [|c s Hc _ IH]; [reflexivity|]. simpl. rewrite Hc. exact IH.
Qed.

Lemma strip_split (s : str) :
  exists pre post, s = pre ++ strip s ++ post /\ blank pre /\ blank post.
Proof.
  destruct (lstrip_split s) as (pre & Hs & Hpre).
  destruct (lstrip_split (List.rev (lstrip s))) as (tsop & Hr & Htsop).
  exists pre, (List.rev tsop). split; [|split].
  - unfold strip, rstrip. rewrite <- List.rev_app_distr, <- Hr.
    rewrite List.rev_involutive. exact Hs.
  - exact Hpre.
  - apply Forall_rev. exact Htsop.
Qed.

Lemma strip_trimmed (s : str) : trimmed (strip s).
Proof.
  unfold strip, rstrip, trimmed.
  destruct (lstrip_head (List.rev (lstrip s))) as [Hnil | Hlast].
  { left. rewrite Hnil. reflexivity. }
  right. rewrite List.rev_involutive. split; [|exact Hlast].
  destruct (lstrip_head s) as [Hnil | Hhead].
  { rewrite Hnil in Hlast. discriminate. }
  destruct (lstrip s) as [|c t]; [discriminate|].
  simpl in Hhead. apply negb_true_iff in Hhead.
  simpl List.rev. rewrite lstrip_snoc by exact Hhead.
  rewrite List.rev_app_distr. simpl. rewrite Hhead. reflexivity.
Qed.

Lemma strip_blank (s : str) : blank s -> strip s = [].
Proof.
  intros Hs. unfold strip, rstrip. rewrite (lstrip_blank s Hs). reflexivity.
Qed.

(** X1. [get_title] raises [AttributeError] when the ad has no anchor and
    [IndexError] when the anchor has no child; a title it returns is the
    text of the first child of the anchor less the whitespace around it:
    it neither begins nor ends with whitespace, and only whitespace was
    dropped. *)
Theorem get_title_trimmed (ad : AdNode) :
  (find_url_anchor ad = None -> get_title ad = Raise AttributeError)
  /\ (forall a, find_url_anchor ad = Some a -> contents a = [] ->
                get_title ad = Raise IndexError)
  /\ (forall title, get_title ad = Ok title ->
        trimmed title
        /\ exists a text siblings pre post,
            find_url_anchor ad = Some a
            /\ contents a = NavigableString text :: siblings
            /\ text = pre ++ title ++ post /\ blank pre /\ blank post).
Proof.
  unfold get_title, first_content. split; [|split].
  - intros ->. reflexivity.
  - intros a -> ->. reflexivity.
  - intros title. destruct (find_url_anchor ad) as [a|]; [|discriminate].
    destruct (contents a) as [|[text|] siblings] eqn:Hc; simpl;
      try discriminate.
    intros [= <-]. split; [apply strip_trimmed|].
    destruct (strip_split text) as (pre & post & Htext & Hpre & Hpost).
    exists a, text, siblings, pre, post. auto.
Qed.

Lemma startswith_nil (s : str) : startswith s [] = true.
Proof. destruct s; reflexivity. Qed.

Lemma replace_char (s : str) (c : char) (new : str) :
  replace s [c] new
  = List.flat_map (fun x => if char_eqb c x then new else [x]) s.
Proof.
  unfold replace. induction s as [|x s IH]; [reflexivity|].
  cbn [replace_from startswith List.length Nat.pred flat_map].
  rewrite startswith_nil, andb_true_r, IH.
  destruct (char_eqb c x); reflexivity.
Qed.

Lemma replace_nbsp_clean (t : str) :
  trimmed t ->
  let d := replace t [nbsp] (py " ") in
  lacks nbsp d = true /\ trimmed d.
Proof.
  intros Ht d. subst d. rewrite replace_char.
  assert (Hf : forall x, isspace x = false -> char_eqb nbsp x = false).
  { intros x Hx. destruct (char_eqb nbsp x) eqn:E; [|reflexivity].
    apply N.eqb_eq in E. subst x. discriminate. }
  split.
  - clear Ht. unfold lacks. induction t as [|x t IH]; [reflexivity|].
    cbn [flat_map]. rewrite List.forallb_app, IH, andb_true_r.
    destruct (char_eqb nbsp x) eqn:E; [reflexivity|].
    cbn [forallb]. rewrite E. reflexivity.
  - destruct Ht as [-> | [Hhead Hlast]]; [left; reflexivity|]. right.
    split.
    + destruct t as [|x t]; [discriminate|]. simpl in Hhead.
      apply negb_true_iff in Hhead. cbn [flat_map]. rewrite (Hf x Hhead).
      cbn [app head_nonspace]. rewrite Hhead. reflexivity.
    + destruct (List.rev t) as [|l r] eqn:Hrev; [discriminate|].
      simpl in Hlast. apply negb_true_iff in Hlast.
      assert (Ht : t = List.rev r ++ [l]).
      { rewrite <- (List.rev_involutive t), Hrev. reflexivity. }
      rewrite Ht, List.flat_map_app. cbn [flat_map].
      rewrite (Hf l Hlast), app_nil_r, List.rev_app_distr.
      cbn [List.rev app head_nonspace]. rewrite Hlast. reflexivity.
Qed.

(** X2. [get_date] raises [KeyError] when the date node has no
    [data-tooltip] attribute, whatever text the node holds, and
    [IndexError] when the tooltip is blank and the node has no child; a
    tooltip that is not blank is preferred to the text of the node; and
    the date it returns holds no no-break space and neither begins nor
    ends with whitespace. *)
Theorem get_date_clean (ad : AdNode) :
  (forall node,
      find_snippet_date_info ad = Some node ->
      attrs node !! py "data-tooltip" = None ->
      get_date ad = Raise (KeyError (py "data-tooltip")))
  /\ (forall node tooltip,
         find_snippet_date_info ad = Some node ->
         attrs node !! py "data-tooltip" = Some tooltip ->
         (blank tooltip -> contents node = [] ->
          get_date ad = Raise IndexError)
         /\ (strip tooltip <> [] ->
             get_date ad = Ok (replace (strip tooltip) [nbsp] (py " "))))
  /\ (forall date, get_date ad = Ok date ->
                   lacks nbsp date = true /\ trimmed date).
Proof.
  unfold get_date, attribute, first_content. split; [|split].
  - intros node -> ->. reflexivity.
  - intros node tooltip -> ->. cbn [bind]. split.
    + intros Hblank ->. rewrite (strip_blank tooltip Hblank). reflexivity.
    + intros Hstrip. destruct (strip tooltip) eqn:E; [contradiction|].
      cbn [bind]. rewrite E. reflexivity.
  - intros date. destruct (find_snippet_date_info ad) as [node|];
      [|discriminate].
    destruct (attrs node !! py "data-tooltip") as [tooltip|]; cbn [bind];
      [|discriminate].
    assert (Hclean : forall text,
               Ok (replace (strip text) [160%N] (py " ")) = Ok date ->
               lacks nbsp date = true /\ trimmed date).
    { intros text [= <-]. apply (replace_nbsp_clean (strip text)).
      apply strip_trimmed. }
    destruct (strip tooltip) eqn:Hstrip; cbn [bind].
    + destruct (contents node !! 0%nat) as [[text|]|]; cbn [bind];
        try discriminate. apply Hclean.
    + apply Hclean.
Qed.

(** X3. [get_price] never lets a [ValueError] out: whatever the ad, it
    returns [None], or a price that is not negative, or raises
    [AttributeError] (no price node), [IndexError] (a price node without
    children) or [TypeError] (a first child that is not text). *)
Theorem get_price_outcomes (ad : AdNode) :
  match get_price ad with
  | Ok (Some price) => 0 <= price
  | Ok None => True
  | Raise e =>
      (e = AttributeError /\ find_snippet_price ad = None)
      \/ (e = IndexError
          /\ exists span, find_snippet_price ad = Some span
                          /\ contents span = [])
      \/ (e = TypeError
          /\ exists span siblings,
              find_snippet_price ad = Some span
              /\ contents span = ChildTag :: siblings)
  end.
Proof.
  unfold get_price, first_content.
  destruct (find_snippet_price ad) as [span|]; [|left; auto].
  destruct (contents span) as [|[price_str|] siblings] eqn:Hc; cbn.
  - right. left. eauto.
  - rewrite price_of_text.
    destruct (remove_non_digits price_str) as [|c ds]; [exact I|].
    cbv zeta. destruct (int_max_str_digits <? _); [exact I|].
    apply decimal_number_nonneg.
  - right. right. eauto.
Qed.

Lemma agregate_ad_info_fields (now : datetime) (ad : AdNode) (info : AdInfo) :
  agregate_ad_info now ad = Ok info ->
  get_title ad = Ok (Title info) /\ get_link ad = Ok (Link info)
  /\ get_price ad = Ok (Price info)
  /\ exists raw_date,
      get_date ad = Ok raw_date
      /\ normalize_date now raw_date = Ok (Date info).
Proof.
  unfold agregate_ad_info.
  destruct (get_title ad); cbn [bind]; [|discriminate].
  destruct (get_link ad); cbn [bind]; [|discriminate].
  destruct (get_price ad); cbn [bind]; [|discriminate].
  destruct (get_date ad) as [raw_date|]; cbn [bind]; [|discriminate].
  destruct (normalize_date now raw_date) as [s|] eqn:Hs; cbn [bind];
    [|discriminate].
  intros [= <-]. repeat split. exists raw_date. split; [reflexivity|exact Hs].
Qed.

Lemma startswith_app (p s : str) : startswith (p ++ s) p = true.
Proof.
  induction p as [|c p IH]; [apply startswith_nil|].
  cbn [app startswith]. rewrite IH. unfold char_eqb. rewrite N.eqb_refl.
  reflexivity.
Qed.

(** The date-time [strptime] returns, written out. *)
Lemma strptime_fields (data_string format : str) (dt : datetime) :
  strptime data_string format = Ok dt ->
  valid_datetime dt
  /\ dt = mk_datetime (year dt) (month dt) (day dt) (hour dt) (minute dt) 0.
Proof.
  intros H. apply strptime_valid in H as [Hvalid Hsec]. split; [exact Hvalid|].
  destruct dt. simpl in Hsec. subst. reflexivity.
Qed.

(** X4. A date that [normalize_date] returns is a real calendar date:
    the text [YYYY-MM-DD] or [YYYY-MM-DD HH:MM] of a year from 1 to 9999,
    a month from 1 to 12, a day that the month has in that year, an hour
    below 24 and a minute below 60.  When the raw date has no relative
    marker and a time comes back, the year is the year of the clock. *)
Theorem normalize_date_calendar (now : datetime) (raw_date s : str) :
  normalize_date now raw_date = Ok s ->
  exists y m d,
    (1 <= y <= 9999 /\ 1 <= m <= 12 /\ 1 <= d <= days_in_month y m)
    /\ (s = date_text y m d
        \/ exists h mi,
            0 <= h <= 23 /\ 0 <= mi <= 59
            /\ s = datetime_text y m d h mi
            /\ (contains (py "Вчера") raw_date = false ->
                contains (py "Сегодня") raw_date = false ->
                y = year now)).
Proof.
  unfold normalize_date.
  destruct (contains (py "Вчера") raw_date) eqn:Hyes;
    [|destruct (contains (py "Сегодня") raw_date) eqn:Htod]; cbn [orb].
  1, 2: destruct (strptime _ _) as [dt|e] eqn:Hdt; cbn [bind];
    [|discriminate]; intros [= <-];
    apply strptime_fields in Hdt as [(Hy & Hm & Hd & Hh & Hmi & _) ->];
    rewrite str_datetime_minutes;
    exists (year dt), (month dt), (day dt); split; [auto|]; right;
    exists (hour dt), (minute dt); repeat split; try tauto;
    intros; discriminate.
  destruct (replace_month_name_with_number raw_date) as [date|e];
    cbn [bind]; [|discriminate].
  destruct (contains (py ":") date).
  - destruct (strptime _ _) as [dt|e] eqn:Hdt; cbn [bind]; [|discriminate].
    apply strptime_fields in Hdt as [_ Hdt].
    destruct (replace_year dt (get_current_year now)) as [dt'|e] eqn:Hdt';
      cbn [bind]; [|discriminate].
    intros [= <-]. unfold replace_year in Hdt'. rewrite Hdt in Hdt'.
    cbn [year month day hour minute second] in Hdt'.
    apply new_datetime_valid in Hdt' as [-> (Hy & Hm & Hd & Hh & Hmi & _)].
    cbn [year month day hour minute second] in *.
    rewrite str_datetime_minutes.
    exists (get_current_year now), (month dt), (day dt). split; [auto|].
    right. exists (hour dt), (minute dt). repeat split; tauto.
  - destruct (strptime _ _) as [dt|e] eqn:Hdt; cbn [bind]; [|discriminate].
    intros [= <-].
    apply strptime_fields in Hdt as [(Hy & Hm & Hd & _) _].
    exists (year dt), (month dt), (day dt). split; [auto|]. left. reflexivity.
Qed.

Lemma get_title_strip (ad : AdNode) (title : str) :
  get_title ad = Ok title -> exists text, title = strip text.
Proof.
  unfold get_title, first_content.
  destruct (find_url_anchor ad) as [a|]; [|discriminate].
  destruct (contents a) as [|[text|] siblings]; simpl; try discriminate.
  intros [= <-]. exists text. reflexivity.
Qed.

Lemma get_price_nonneg (ad : AdNode) (price : Z) :
  get_price ad = Ok (Some price) -> 0 <= price.
Proof.
  unfold get_price, first_content.
  destruct (find_snippet_price ad) as [span|]; [|discriminate].
  destruct (contents span) as [|[price_str|] siblings]; cbn;
    try discriminate.
  rewrite price_of_text.
  destruct (remove_non_digits price_str) as [|c ds]; [discriminate|].
  cbv zeta. destruct (int_max_str_digits <? _); [discriminate|].
  intros [= <-]. apply decimal_number_nonneg.
Qed.

Lemma ads_next_yield_next (w : World) (args : Search) (st st' : ads_state)
    (ev : list event) (info : AdInfo) :
  ads_next w args st = (ev, (Yield info, st')) ->
  exists ad,
    next_ad w args st = Some ad /\ agregate_ad_info (clock w) ad = Ok info.
Proof.
  assert (Hyield : forall search_url pages ad rest,
             yield_ad w search_url pages ad rest = (Yield info, st') ->
             agregate_ad_info (clock w) ad = Ok info).
  { intros search_url pages ad rest. unfold yield_ad.
    destruct (agregate_ad_info (clock w) ad) as [info'|e];
      intros [= -> _]. reflexivity. }
  assert (Hpage : forall search_url pages,
             next_page w search_url (pause args) pages
             = (ev, (Yield info, st')) ->
             exists ad,
               match pages_next w search_url (pause args) pages with
               | (_, (Yield page, _)) => List.head (page_ads w page)
               | _ => None
               end = Some ad
               /\ agregate_ad_info (clock w) ad = Ok info).
  { intros search_url pages. unfold next_page.
    destruct (pages_next w search_url (pause args) pages)
      as [ev0 [[page| |e] ps]]; try discriminate.
    rewrite get_ads_from_page_parse.
    destruct (page_ads w page) as [|ad rest]; [discriminate|].
    intros [= _ H]. exists ad. split; [reflexivity|].
    eapply Hyield. exact H. }
  destruct st as [|search_url pages [|ad rest]|]; cbn [ads_next next_ad].
  - destruct (generate_search_url _ _ _ _ _); [apply Hpage|discriminate].
  - apply Hpage.
  - intros [= _ H]. exists ad. split; [reflexivity|].
    eapply Hyield. exact H.
  - discriminate.
Qed.

(** X5. Every record that [get_all_ads] yields is the record of the ad
    that is due next: its title is the text of the first child of that
    ad's anchor less the whitespace around it, and neither begins nor
    ends with whitespace; its link is the base URL of the site followed
    by the [href] of that anchor; its price is the one [get_price] reads
    from that ad, [None] or not negative; and its date is what
    [normalize_date] makes of the raw date of that ad, in one of the two
    canonical forms. *)
Theorem yielded_record_fields (w : World) (args : Search)
    (st st' : ads_state) (ev : list event) (info : AdInfo) :
  ads_next w args st = (ev, (Yield info, st')) ->
  exists ad a text siblings href raw_date,
    next_ad w args st = Some ad
    /\ find_url_anchor ad = Some a
    /\ (contents a = NavigableString text :: siblings
        /\ Title info = strip text /\ trimmed (Title info))
    /\ (attrs a !! py "href" = Some href
        /\ Link info = base_url ++ href
        /\ startswith (Link info) base_url = true)
    /\ (get_price ad = Ok (Price info)
        /\ forall price, Price info = Some price -> 0 <= price)
    /\ (get_date ad = Ok raw_date
        /\ normalize_date (clock w) raw_date = Ok (Date info)
        /\ canonical (Date info)).
Proof.
  intros Hnext. apply ads_next_yield_next in Hnext as (ad & Hdue & Had).
  apply agregate_ad_info_fields in Had
    as (Htitle & Hlink & Hprice & raw_date & Hraw & Hdate).
  unfold get_title, first_content in Htitle.
  unfold get_link, attribute in Hlink.
  destruct (find_url_anchor ad) as [a|] eqn:Ha; [|discriminate].
  destruct (contents a) as [|[text|] siblings] eqn:Hc; simpl in Htitle;
    try discriminate.
  destruct (attrs a !! py "href") as [href|] eqn:Hhref; [|discriminate].
  cbn [bind] in Hlink.
  assert (Ht : Title info = strip text)
    by (injection Htitle as Htitle; symmetry; exact Htitle).
  assert (Hl : Link info = base_url ++ href) by (unfold base_url; congruence).
  exists ad, a, text, siblings, href, raw_date.
  split; [exact Hdue|]. split; [exact Ha|]. split; [|split; [|split]].
  - split; [exact Hc|]. split; [exact Ht|].
    rewrite Ht. apply strip_trimmed.
  - split; [exact Hhref|]. split; [exact Hl|].
    rewrite Hl. apply startswith_app.
  - split; [exact Hprice|]. intros price Hsome. rewrite Hsome in Hprice.
    eapply get_price_nonneg. exact Hprice.
  - split; [exact Hraw|]. split; [exact Hdate|].
    eapply normalize_date_canonical. exact Hdate.
Qed.

(** ** Raw dates *)

Lemma blank_lacks (c : char) (s : str) :
  isspace c = false -> blank s -> lacks c s = true.
Proof.
  intros Hc. induction 1 as [|x s Hx _ IH]; [reflexivity|].
  cbn [lacks forallb]. fold (lacks c s). rewrite IH, andb_true_r.
  destruct (char_eqb c x) eqn:E; [|reflexivity].
  apply N.eqb_eq in E. congruence.
Qed.

Lemma split_blank (s : str) : blank s -> split s = [].
Proof.
  unfold split. induction 1 as [|x s Hx _ IH]; [reflexivity|].
  cbn [split_from]. rewrite Hx. exact IH.
Qed.

Lemma normalize_blank (now : datetime) (raw_date : str) :
  blank raw_date -> normalize_date now raw_date = Raise IndexError.
Proof.
  intros Hblank. unfold normalize_date, replace_month_name_with_number.
  change (py "Вчера") with (chr "В" :: py "чера").
  change (py "Сегодня") with (chr "С" :: py "егодня").
  rewrite !contains_lacks by (apply blank_lacks; [reflexivity|exact Hblank]).
  rewrite (split_blank raw_date Hblank). reflexivity.
Qed.

(** X6. An empty or blank raw date makes [normalize_date] raise
    [IndexError], whatever the clock reads; so an ad whose date node has
    a blank tooltip and a blank text makes [agregate_ad_info] raise
    [IndexError] once its title, link and price have been read. *)
Theorem blank_date_raises (now : datetime) :
  (forall raw_date,
      blank raw_date -> normalize_date now raw_date = Raise IndexError)
  /\ (forall ad node tooltip text siblings title link price,
         find_snippet_date_info ad = Some node ->
         attrs node !! py "data-tooltip" = Some tooltip ->
         contents node = NavigableString text :: siblings ->
         blank tooltip -> blank text ->
         get_title ad = Ok title -> get_link ad = Ok link ->
         get_price ad = Ok price ->
         agregate_ad_info now ad = Raise IndexError).
Proof.
  split; [apply normalize_blank|].
  intros ad node tooltip text siblings title link price Hnode Htooltip
    Hcontents Hblank Htext Htitle Hlink Hprice.
  unfold agregate_ad_info. rewrite Htitle, Hlink, Hprice. cbn [bind].
  unfold get_date, attribute, first_content.
  rewrite Hnode, Htooltip, Hcontents. cbn [bind].
  rewrite (strip_blank tooltip Hblank). cbn [lookup list_lookup bind].
  rewrite (strip_blank text Htext). cbn [bind].
  change (replace [] [160%N] (py " ")) with (@nil char).
  rewrite normalize_blank by constructor. reflexivity.
Qed.

Lemma split_from_words (s cur : str) :
  List.forallb (fun c => negb (isspace c)) cur = true ->
  Forall (fun w => is_word w = true) (split_from cur s).
Proof.
  revert cur. induction s as [|c s IH]; intros cur Hcur.
  - simpl. destruct cur; repeat constructor. exact Hcur.
  - cbn [split_from]. destruct (isspace c) eqn:Hc.
    + destruct cur as [|x cur]; [apply IH; reflexivity|].
      constructor; [exact Hcur|apply IH; reflexivity].
    + apply IH. rewrite List.forallb_app, Hcur. simpl. rewrite Hc.
      reflexivity.
Qed.

Lemma split_words_are_words (s : str) :
  Forall (fun w => is_word w = true) (split s).
Proof. apply split_from_words. reflexivity. Qed.

Lemma split_join (ws : list str) :
  Forall (fun w => is_word w = true) ws -> split (join (py " ") ws) = ws.
Proof.
  unfold split. induction 1 as [|w ws Hw Hws IH]; [reflexivity|].
  apply is_word_chars in Hw as [Hne Hw].
  destruct ws as [|v ws].
  - cbn [join]. rewrite <- (app_nil_r w) at 1.
    rewrite (split_from_word w Hw). cbn [app split_from].
    destruct w; [contradiction|reflexivity].
  - change (join (py " ") (w :: v :: ws))
      with (w ++ 32%N :: join (py " ") (v :: ws)).
    rewrite (split_from_word w Hw). cbn [app split_from].
    change (isspace 32%N) with true. cbv iota.
    destruct w; [contradiction|]. rewrite IH. reflexivity.
Qed.

Lemma months_numbers (name number : str) :
  months !! name = Some number ->
  is_word number = true /\ months !! number = None.
Proof.
  intros H. unfold months in H. simpl in H.
  repeat (apply lookup_insert_Some in H as [[_ <-] | [_ H]];
          [split; vm_compute; reflexivity|]).
  rewrite lookup_empty in H. discriminate.
Qed.

(** X7. When [replace_month_name_with_number] succeeds, the words of its
    result are the words of the raw date with the second one replaced by
    the number of the month (runs of whitespace become single spaces);
    and it cannot be applied twice: on its own result it raises
    [KeyError] with that number. *)
Theorem replace_month_name_words (date out : str) :
  replace_month_name_with_number date = Ok out ->
  exists name number,
    split date !! 1%nat = Some name
    /\ months !! name = Some number
    /\ split out = <[1%nat := number]> (split date)
    /\ out = join (py " ") (split out)
    /\ replace_month_name_with_number out = Raise (KeyError number).
Proof.
  unfold replace_month_name_with_number at 1.
  destruct (split date !! 1%nat) as [name|] eqn:Hname; [|discriminate].
  destruct (months !! name) as [number|] eqn:Hmonth; [|discriminate].
  intros [= <-]. exists name, number.
  destruct (months_numbers name number Hmonth) as [Hword Hnone].
  assert (Hsplit : split (join (py " ") (<[1%nat := number]> (split date)))
                   = <[1%nat := number]> (split date)).
  { apply split_join. apply Forall_insert; [|exact Hword].
    apply split_words_are_words. }
  repeat split; try assumption.
  - rewrite Hsplit. reflexivity.
  - unfold replace_month_name_with_number. rewrite Hsplit.
    rewrite list_lookup_insert_eq by (eapply lookup_lt_Some; exact Hname).
    rewrite Hnone. reflexivity.
Qed.

(** ** The order of requests *)

Lemma gets_quiet (slept trace : list event) :
  quiet slept ->
  List.filter is_get (slept ++ trace) = List.filter is_get trace.
Proof.
  induction 1 as [|e slept [He _] _ IH]; simpl; [reflexivity|].
  rewrite He. exact IH.
Qed.

Lemma pages_next_gets (w : World) (search_url : str) (pause : option Q)
    (k : nat) :
  let '(ev, (out, st')) := pages_next w search_url pause (pages_after k) in
  (List.filter is_get ev = []
   /\ st' = PagesFinished /\ forall page, out <> Yield page)
  \/ (exists u,
         str_format w search_url (Z.of_nat (S k)) = Ok u
         /\ List.filter is_get ev = [Get u]
         /\ ((st' = PagesFinished /\ forall page, out <> Yield page)
             \/ st' = pages_after (S k))).
Proof.
  assert (Hfetch : forall slept,
             quiet slept ->
             let '(ev, r) := fetch_and_test w search_url (Z.of_nat (S k)) in
             (List.filter is_get (slept ++ ev) = []
              /\ exists e, r = Raise e)
             \/ (exists u,
                    str_format w search_url (Z.of_nat (S k)) = Ok u
                    /\ List.filter is_get (slept ++ ev) = [Get u])).
  { intros slept Hq.
    destruct (fetch_and_test_cases w search_url (Z.of_nat (S k)))
      as [(e & _ & ->) | [(u & Hu & _ & ->) | (u & Hu & _ & ->)]];
      rewrite gets_quiet by exact Hq.
    - left. eauto.
    - right. eauto.
    - right. eauto. }
  destruct k as [|k].
  - cbn [pages_after pages_next]. specialize (Hfetch [] ltac:(constructor)).
    change (Z.of_nat 1) with 1 in Hfetch.
    destruct (fetch_and_test w search_url 1) as [ev [[page|]|e]];
      cbn [app] in Hfetch;
      destruct Hfetch as [[Hev [e' He]] | (u & Hu & Hev)];
      try discriminate He;
      first
        [ left; split; [exact Hev|]; split; [reflexivity|discriminate]
        | right; exists u; split; [exact Hu|]; split; [exact Hev|];
          first [ left; split; [reflexivity|discriminate]
                | right; reflexivity ] ].
  - cbn [pages_after pages_next].
    replace (Z.of_nat (S k) + 1) with (Z.of_nat (S (S k))) by lia.
    pose proof (quiet_sleep w pause) as Hq. cbv zeta in Hq. unfold ebind.
    destruct (match pause with Some s => time_sleep w s | None => ret tt end)
      as [slept [[]|e]]; simpl in Hq.
    + specialize (Hfetch slept Hq).
      destruct (fetch_and_test w search_url (Z.of_nat (S (S k))))
        as [ev [[page|]|e]];
        destruct Hfetch as [[Hev [e' He]] | (u & Hu & Hev)];
        try discriminate He;
        first
          [ left; split; [exact Hev|]; split; [reflexivity|discriminate]
          | right; exists u; split; [exact Hu|]; split; [exact Hev|];
            first [ left; split; [reflexivity|discriminate]
                  | right; reflexivity ] ].
    + left. split; [|split; [reflexivity|discriminate]].
      rewrite <- (app_nil_r slept). apply gets_quiet. exact Hq.
Qed.

(** X8. Whatever the site answers, [get_pages] asks for the pages in
    order, starting at page 1 and skipping none, and makes at most one
    request each time it is asked for the next page. *)
Theorem pages_requested_in_order (w : World) (search_url : str)
    (pause : option Q) (n : nat) :
  exists urls,
    List.filter is_get (fst (pages_run w search_url pause n PagesStart))
    = List.map Get urls
    /\ (List.length urls <= n)%nat
    /\ forall i u,
        urls !! i = Some u ->
        str_format w search_url (Z.of_nat (S i)) = Ok u.
Proof.
  enough (Hgen : forall k,
            exists urls,
              List.filter is_get
                (fst (pages_run w search_url pause n (pages_after k)))
              = List.map Get urls
              /\ (List.length urls <= n)%nat
              /\ forall i u,
                  urls !! i = Some u ->
                  str_format w search_url (Z.of_nat (S (k + i))) = Ok u)
    by exact (Hgen 0%nat).
  induction n as [|n IH]; intros k.
  - exists []. repeat split; [reflexivity|]. intros i u Hi. discriminate.
  - cbn [pages_run]. pose proof (pages_next_gets w search_url pause k) as Hstep.
    destruct (pages_next w search_url pause (pages_after k))
      as [ev [out st']].
    destruct (pages_run w search_url pause n st') as [evs outs] eqn:Hrun.
    cbn [fst]. rewrite List.filter_app.
    destruct Hstep as [(Hev & -> & _) | (u & Hu & Hev & Hst)]; rewrite Hev.
    + rewrite pages_run_finished in Hrun. injection Hrun as <- <-.
      exists []. repeat split; [simpl; lia|]. intros i v Hi. discriminate.
    + destruct Hst as [[-> _] | ->].
      * rewrite pages_run_finished in Hrun. injection Hrun as <- <-.
        exists [u]. repeat split; [simpl; lia|].
        intros [|i] v Hi; [|discriminate]. injection Hi as <-.
        rewrite Nat.add_0_r. exact Hu.
      * destruct (IH (S k)) as (urls & Hgets & Hlen & Hurls).
        rewrite Hrun in Hgets. cbn [fst] in Hgets.
        exists (u :: urls). repeat split.
        -- rewrite Hgets. reflexivity.
        -- simpl. lia.
        -- intros [|i] v Hi.
           ++ injection Hi as <-. rewrite Nat.add_0_r. exact Hu.
           ++ replace (k + S i)%nat with (S k + i)%nat by lia.
              apply Hurls. exact Hi.
Qed.

(** ** The pause *)

Lemma pages_next_events (w : World) (search_url : str) (pause : option Q)
    (n : nat) :
  pause_ok w pause -> served w search_url (S n) ->
  let page := page_text w search_url (S n) in
  pages_next w search_url pause (pages_after n)
  = (page_events w search_url pause (S n),
     if nothing_found w page then (StopIteration, PagesFinished)
     else (Yield page, pages_after (S n))).
Proof.
  intros Hpause (u & Hu & Hb) page. subst page.
  unfold page_events, page_url, page_text. rewrite Hu.
  assert (Hfetch : fetch_and_test w search_url (Z.of_nat (S n))
                   = ([Get u; Parse (text (requests_get w u))],
                      Ok (if nothing_found w (text (requests_get w u))
                          then None else Some (text (requests_get w u))))).
  { destruct (fetch_and_test_cases w search_url (Z.of_nat (S n)))
      as [(e & He & _) | [(u' & Hu' & Hb' & _) | (u' & Hu' & _ & H)]].
    - congruence.
    - congruence.
    - assert (u' = u) as -> by congruence. exact H. }
  destruct n as [|n].
  - change (Z.of_nat 1) with 1 in Hfetch. cbn [pages_after pages_next].
    rewrite Hfetch. destruct (nothing_found w _); reflexivity.
  - cbn [pages_after pages_next].
    replace (Z.of_nat (S n) + 1) with (Z.of_nat (S (S n))) by lia.
    rewrite Hfetch, (sleep_ok w pause Hpause). unfold ebind.
    destruct (nothing_found w _); reflexivity.
Qed.

(** X9. On a site that serves [k] result pages and then a page with the
    marker, and with no pause or a pause that [time.sleep] accepts,
    [get_pages] performs exactly these events, in this order: the request
    for page 1 and the parse of the answer, and then for each further
    page up to page [k + 1] the pause (if one is set), the request and
    the parse.  It never sleeps before the first request nor after the
    last one, and going on asking adds no event. *)
Theorem pages_trace (w : World) (search_url : str) (pause : option Q)
    (k m : nat) :
  pause_ok w pause ->
  (forall n, (1 <= n <= S k)%nat -> served w search_url n) ->
  (forall n, (1 <= n <= k)%nat ->
             nothing_found w (page_text w search_url n) = false) ->
  nothing_found w (page_text w search_url (S k)) = true ->
  fst (pages_run w search_url pause (S k + m) PagesStart)
  = List.concat
      (List.map (page_events w search_url pause) (List.seq 1 (S k))).
Proof.
  intros Hpause Hserved Hpages Hmarker.
  enough (Hgen : forall d j, (j + d = k)%nat ->
            fst (pages_run w search_url pause (S d + m) (pages_after j))
            = List.concat
                (List.map (page_events w search_url pause)
                   (List.seq (S j) (S d))))
    by (apply (Hgen k 0%nat); lia).
  induction d as [|d IH]; intros j Hj.
  - cbn [Nat.add pages_run].
    rewrite (pages_next_events w search_url pause j Hpause)
      by (apply Hserved; lia).
    replace (S j) with (S k) by lia. rewrite Hmarker.
    rewrite pages_run_finished. reflexivity.
  - change (S (S d) + m)%nat with (S (S d + m)). cbn [pages_run].
    rewrite (pages_next_events w search_url pause j Hpause)
      by (apply Hserved; lia).
    rewrite Hpages by lia.
    specialize (IH (S j) ltac:(lia)).
    destruct (pages_run w search_url pause (S d + m) (pages_after (S j)))
      as [evs outs].
    cbn [fst] in *. rewrite IH. reflexivity.
Qed.

Lemma sleep_refused_negative (w : World) (seconds : Q) :
  Qle_bool (inject_Z (-9223372036)) seconds = true ->
  Qle_bool 0 seconds = false ->
  time_sleep w seconds
  = ([], Raise (ValueError (py "sleep length must be non-negative"))).
Proof.
  intros Hlow Hneg.
  unfold Qle_bool in Hlow, Hneg. cbn [Qnum Qden inject_Z] in Hlow, Hneg.
  apply Z.leb_le in Hlow. apply Z.leb_gt in Hneg.
  pose proof (nanoseconds_bounds seconds) as [Hdown Hup]. cbv zeta in *.
  pose proof (Pos2Z.is_pos (Qden seconds)) as Hd.
  assert (H0 : nanoseconds_floor seconds < 0) by nia.
  assert (H1 : -9223372036000000000 <= nanoseconds_floor seconds) by nia.
  assert (H2 : nanoseconds seconds <= 0) by nia.
  unfold time_sleep. cbv zeta.
  assert (Hrange : (- timestamp_limit - 1024 <=? nanoseconds_floor seconds)
                   && (nanoseconds seconds <=? timestamp_limit + 1024)
                   = true).
  { change timestamp_limit with 9223372036854775808.
    apply andb_true_intro. split; apply Z.leb_le; lia. }
  assert (Hsign : (nanoseconds_floor seconds <? 0) = true)
    by (apply Z.ltb_lt; lia).
  rewrite Hrange, Hsign. reflexivity.
Qed.

Lemma sleep_refused_overflow (w : World) (seconds : Q) :
  Qle_bool seconds (inject_Z (-9223372037)) = true
  \/ Qle_bool (inject_Z 9223372037) seconds = true ->
  time_sleep w seconds
  = ([], Raise (OverflowError
                  (py "timestamp too large to convert to C _PyTime_t"))).
Proof.
  intros Hout.
  unfold Qle_bool in Hout. cbn [Qnum Qden inject_Z] in Hout.
  pose proof (nanoseconds_bounds seconds) as [Hdown Hup]. cbv zeta in *.
  pose proof (Pos2Z.is_pos (Qden seconds)) as Hd.
  assert (Hns : nanoseconds_floor seconds <= -9223372037000000000
                \/ 9223372037000000000 <= nanoseconds seconds).
  { destruct Hout as [Hout | Hout]; apply Z.leb_le in Hout;
      [left|right]; nia. }
  unfold time_sleep. cbv zeta.
  assert (Hrange : (- timestamp_limit - 1024 <=? nanoseconds_floor seconds)
                   && (nanoseconds seconds <=? timestamp_limit + 1024)
                   = false).
  { change timestamp_limit with 9223372036854775808.
    apply andb_false_iff.
    destruct Hns; [left|right]; apply Z.leb_gt; lia. }
  rewrite Hrange. reflexivity.
Qed.

(** X10. The pause is not checked before the first request.  With a
    pause that [time.sleep] refuses the first step of [get_pages] goes as
    with any other; if it yields a page, the next step lets the exception
    of [time.sleep] out without a request, and the generator is finished.
    The exception is the [ValueError] of a negative sleep length for a
    pause from -9223372036 seconds up to (not including) zero, and the
    [OverflowError] of the timestamp conversion for a pause of
    9223372037 seconds or more in either direction. *)
Theorem refused_pause_raises (w : World) (search_url : str) (seconds : Q)
    (n : nat) :
  let refused (e : exn) :=
    let '(ev, (out, _)) := pages_next w search_url None PagesStart in
    pages_run w search_url (Some seconds) (S (S n)) PagesStart
    = (ev,
       out
         :: match out with
            | Yield _ => Throw e
            | _ => StopIteration
            end
         :: List.repeat StopIteration n) in
  pages_next w search_url (Some seconds) PagesStart
  = pages_next w search_url None PagesStart
  /\ (forall e, time_sleep w seconds = ([], Raise e) -> refused e)
  /\ (Qle_bool (inject_Z (-9223372036)) seconds = true ->
      Qle_bool 0 seconds = false ->
      refused (ValueError (py "sleep length must be non-negative")))
  /\ (Qle_bool seconds (inject_Z (-9223372037)) = true
      \/ Qle_bool (inject_Z 9223372037) seconds = true ->
      refused
        (OverflowError (py "timestamp too large to convert to C _PyTime_t"))).
Proof.
  intros refused.
  assert (Hgen : forall e, time_sleep w seconds = ([], Raise e) -> refused e).
  { intros e Hsleep. subst refused.
    pose proof (pages_next_step w search_url None PagesStart) as Hstep.
    cbn [pages_run].
    change (pages_next w search_url (Some seconds) PagesStart)
      with (pages_next w search_url None PagesStart).
    destruct (pages_next w search_url None PagesStart) as [ev [out st']].
    inversion Hstep; subst; cbn [pages_next].
    - rewrite pages_run_finished, !app_nil_r. reflexivity.
    - rewrite pages_run_finished, !app_nil_r. reflexivity.
    - rewrite pages_run_finished, !app_nil_r. reflexivity.
    - rewrite pages_run_finished, !app_nil_r. reflexivity.
    - rewrite Hsleep. unfold ebind.
      rewrite pages_run_finished, !app_nil_r. reflexivity. }
  split; [reflexivity|]. split; [exact Hgen|]. split.
  - intros Hlow Hneg. apply Hgen.
    apply sleep_refused_negative; assumption.
  - intros Hout. apply Hgen. apply sleep_refused_overflow. exact Hout.
Qed.

(** ** The pages yielded *)

Lemma pages_next_cases (w : World) (search_url : str) (pause : option Q)
    (k : nat) :
  let '(ev, (out, st')) := pages_next w search_url pause (pages_after k) in
  (st' = PagesFinished /\ forall page, out <> Yield page)
  \/ (served w search_url (S k)
      /\ nothing_found w (page_text w search_url (S k)) = false
      /\ out = Yield (page_text w search_url (S k))
      /\ st' = pages_after (S k)).
Proof.
  assert (Hfetch :
             let '(ev, r) := fetch_and_test w search_url (Z.of_nat (S k)) in
             match r with
             | Ok (Some page) =>
                 served w search_url (S k)
                 /\ nothing_found w (page_text w search_url (S k)) = false
                 /\ page = page_text w search_url (S k)
             | _ => True
             end).
  { destruct (fetch_and_test_cases w search_url (Z.of_nat (S k)))
      as [(e & _ & ->) | [(u & _ & _ & ->) | (u & Hu & Hb & ->)]];
      [exact I|exact I|].
    cbv zeta. unfold page_text, served. rewrite Hu.
    destruct (nothing_found w (text (requests_get w u))) eqn:Hnf; [exact I|].
    repeat split; eauto. }
  destruct k as [|k].
  - cbn [pages_after pages_next]. change (Z.of_nat 1) with 1 in Hfetch.
    destruct (fetch_and_test w search_url 1) as [ev [[page|]|e]].
    + right. destruct Hfetch as (Hs & Hnf & ->). auto.
    + left. split; [reflexivity|discriminate].
    + left. split; [reflexivity|discriminate].
  - cbn [pages_after pages_next].
    replace (Z.of_nat (S k) + 1) with (Z.of_nat (S (S k))) by lia.
    unfold ebind.
    destruct (match pause with Some s => time_sleep w s | None => ret tt end)
      as [slept [[]|e]].
    + destruct (fetch_and_test w search_url (Z.of_nat (S (S k))))
        as [ev [[page|]|e]].
      * right. destruct Hfetch as (Hs & Hnf & ->). auto.
      * left. split; [reflexivity|discriminate].
      * left. split; [reflexivity|discriminate].
    + left. split; [reflexivity|discriminate].
Qed.

(** X11. Whatever the site answers and however often the caller asks,
    [get_pages] yields the texts of the pages 1, 2, ..., [j] in this order
    and without a gap, each of them served and free of the marker; once a
    step does not yield a page, no later step does. *)
Theorem pages_yielded_in_order (w : World) (search_url : str)
    (pause : option Q) (n : nat) :
  exists j tail,
    snd (pages_run w search_url pause n PagesStart)
    = List.map (fun i => Yield (page_text w search_url i)) (List.seq 1 j)
        ++ tail
    /\ Forall (fun out => forall page, out <> Yield page) tail
    /\ forall i, (1 <= i <= j)%nat ->
         served w search_url i
         /\ nothing_found w (page_text w search_url i) = false.
Proof.
  enough (Hgen : forall k,
            exists j tail,
              snd (pages_run w search_url pause n (pages_after k))
              = List.map (fun i => Yield (page_text w search_url i))
                  (List.seq (S k) j)
                  ++ tail
              /\ Forall (fun out => forall page, out <> Yield page) tail
              /\ forall i, (S k <= i <= k + j)%nat ->
                   served w search_url i
                   /\ nothing_found w (page_text w search_url i) = false).
  { destruct (Hgen 0%nat) as (j & tail & Hrun & Htail & Hpages).
    exists j, tail. auto. }
  induction n as [|n IH]; intros k.
  - exists 0%nat, []. repeat split; try constructor; lia.
  - cbn [pages_run].
    pose proof (pages_next_cases w search_url pause k) as Hstep.
    destruct (pages_next w search_url pause (pages_after k))
      as [ev [out st']].
    destruct Hstep as [[-> Hout] | (Hs & Hnf & -> & ->)].
    + rewrite pages_run_finished. cbn [snd].
      exists 0%nat, (out :: List.repeat StopIteration n).
      split; [reflexivity|]. split; [|lia].
      constructor; [exact Hout|].
      apply List.Forall_forall. intros x Hx. apply List.repeat_spec in Hx.
      subst x. discriminate.
    + destruct (IH (S k)) as (j & tail & Hrun & Htail & Hpages).
      destruct (pages_run w search_url pause n (pages_after (S k)))
        as [evs outs].
      cbn [snd] in *. exists (S j), tail. split; [|split].
      * rewrite Hrun. reflexivity.
      * exact Htail.
      * intros i Hi. destruct (Nat.eq_dec i (S k)) as [-> | Hne].
        -- auto.
        -- apply Hpages. lia.
Qed.

(** ** A whole search *)

Lemma ads_run_rest (w : World) (args : Search) (search_url : str)
    (pages : pages_state) (rest : list AdNode) (infos : list AdInfo)
    (n : nat) :
  Forall2 (fun ad info => agregate_ad_info (clock w) ad = Ok info)
    rest infos ->
  ads_run w args (List.length infos + n) (AdsAt search_url pages rest)
  = (fst (ads_run w args n (AdsAt search_url pages [])),
     List.map Yield infos
       ++ snd (ads_run w args n (AdsAt search_url pages []))).
Proof.
  induction 1 as [|ad info rest infos Had _ IH].
  - cbn [List.length Nat.add List.map app].
    destruct (ads_run w args n (AdsAt search_url pages [])); reflexivity.
  - cbn [List.length Nat.add ads_run ads_next]. unfold yield_ad.
    rewrite Had, IH. reflexivity.
Qed.

Lemma next_page_listing (w : World) (search_url : str) (pause : option Q)
    (j : nat) (ad : AdNode) (rest : list AdNode) :
  pause_ok w pause -> served w search_url (S j) ->
  nothing_found w (page_text w search_url (S j)) = false ->
  page_ads w (page_text w search_url (S j)) = ad :: rest ->
  next_page w search_url pause (pages_after j)
  = (listing_events w search_url pause (S j),
     yield_ad w search_url (pages_after (S j)) ad rest).
Proof.
  intros Hpause Hserved Hnf Hads. unfold next_page, listing_events.
  rewrite (pages_next_events w search_url pause j Hpause Hserved).
  cbv zeta. rewrite Hnf, get_ads_from_page_parse, Hads. reflexivity.
Qed.

Lemma next_page_marker (w : World) (search_url : str) (pause : option Q)
    (j : nat) :
  pause_ok w pause -> served w search_url (S j) ->
  nothing_found w (page_text w search_url (S j)) = true ->
  next_page w search_url pause (pages_after j)
  = (page_events w search_url pause (S j), (StopIteration, AdsFinished)).
Proof.
  intros Hpause Hserved Hnf. unfold next_page.
  rewrite (pages_next_events w search_url pause j Hpause Hserved).
  cbv zeta. rewrite Hnf. reflexivity.
Qed.

Lemma listing_run (w : World) (args : Search) (search_url : str)
    (k m : nat) :
  pause_ok w (pause args) ->
  (forall n, (1 <= n <= S k)%nat -> served w search_url n) ->
  (forall n, (1 <= n <= k)%nat ->
             nothing_found w (page_text w search_url n) = false) ->
  nothing_found w (page_text w search_url (S k)) = true ->
  (forall n, (1 <= n <= k)%nat ->
             page_ads w (page_text w search_url n) <> []) ->
  forall d j infos,
    (j + d = k)%nat ->
    Forall2 (fun ad info => agregate_ad_info (clock w) ad = Ok info)
      (List.concat
         (List.map (fun n => page_ads w (page_text w search_url n))
            (List.seq (S j) d)))
      infos ->
    ads_run w args (List.length infos + S m)
      (AdsAt search_url (pages_after j) [])
    = (List.concat
         (List.map (listing_events w search_url (pause args))
            (List.seq (S j) d))
         ++ page_events w search_url (pause args) (S k),
       List.map Yield infos ++ List.repeat StopIteration (S m)).
Proof.
  intros Hpause Hserved Hpages Hmarker Hads.
  induction d as [|d IH]; intros j infos Hj Hinfos.
  - cbn [List.seq List.map List.concat] in Hinfos.
    apply Forall2_nil_inv_l in Hinfos. subst infos.
    cbn [List.length Nat.add ads_run ads_next].
    rewrite next_page_marker;
      [|exact Hpause|apply Hserved; lia|replace (S j) with (S k) by lia;
                                        exact Hmarker].
    rewrite ads_run_finished. replace (S j) with (S k) by lia.
    rewrite app_nil_r. reflexivity.
  - cbn [List.seq List.map List.concat] in Hinfos.
    apply Forall2_app_inv_l in Hinfos
      as (infos1 & infos2 & Hinfos1 & Hinfos2 & ->).
    destruct (page_ads w (page_text w search_url (S j)))
      as [|ad rest] eqn:Hpage; [exfalso; apply (Hads (S j)); [lia|exact Hpage]|].
    apply Forall2_cons_inv_l in Hinfos1
      as (info & infos1' & Hinfo & Hrest & ->).
    replace (List.length ((info :: infos1') ++ infos2) + S m)%nat
      with (S (List.length infos1' + (List.length infos2 + S m)))
      by (cbn [app List.length]; rewrite List.length_app; lia).
    cbn [ads_run ads_next].
    rewrite (next_page_listing w search_url (pause args) j ad rest);
      [|exact Hpause|apply Hserved; lia|apply Hpages; lia|exact Hpage].
    unfold yield_ad. rewrite Hinfo.
    rewrite (ads_run_rest w args search_url (pages_after (S j)) rest infos1'
               (List.length infos2 + S m) Hrest).
    rewrite (IH (S j) infos2 ltac:(lia) Hinfos2).
    cbn [fst snd List.seq List.map List.concat app].
    rewrite List.map_app, <- !app_assoc. reflexivity.
Qed.

(** X12. A whole search.  On a site that serves [k] result pages, each
    listing at least one ad, and then a page with the marker, and with no
    pause or a pause that [time.sleep] accepts, [get_all_ads] yields one
    record for every ad of the pages 1 to [k], in page order and in the
    order of the page, and then ends, provided every ad can be
    aggregated.  It requests each of the [k + 1] pages
    once, pauses between two requests only, parses every listing page
    twice and the last page once, and going on asking changes nothing. *)
Theorem all_ads_listed (w : World) (args : Search) (search_url : str)
    (k m : nat) (infos : list AdInfo) :
  generate_search_url (query args) (sort_by args) (by_title args)
    (with_images args) (owner args) = Ok search_url ->
  pause_ok w (pause args) ->
  (forall n, (1 <= n <= S k)%nat -> served w search_url n) ->
  (forall n, (1 <= n <= k)%nat ->
             nothing_found w (page_text w search_url n) = false) ->
  nothing_found w (page_text w search_url (S k)) = true ->
  (forall n, (1 <= n <= k)%nat ->
             page_ads w (page_text w search_url n) <> []) ->
  Forall2 (fun ad info => agregate_ad_info (clock w) ad = Ok info)
    (listed_ads w search_url k) infos ->
  ads_run w args (List.length infos + S m) AdsStart
  = (List.concat
       (List.map (listing_events w search_url (pause args)) (List.seq 1 k))
       ++ page_events w search_url (pause args) (S k),
     List.map Yield infos ++ List.repeat StopIteration (S m)).
Proof.
  intros Hurl Hpause Hserved Hpages Hmarker Hads Hinfos.
  rewrite <- (listing_run w args search_url k m Hpause Hserved Hpages Hmarker
                Hads k 0%nat infos eq_refl Hinfos).
  rewrite Nat.add_succ_r. cbn [ads_run ads_next pages_after].
  rewrite Hurl. reflexivity.
Qed.

Lemma next_page_gets (w : World) (search_url : str) (pause : option Q)
    (k : nat) :
  let '(ev, (out, st')) := next_page w search_url pause (pages_after k) in
  (List.filter is_get ev = [] /\ st' = AdsFinished)
  \/ (exists u,
         str_format w search_url (Z.of_nat (S k)) = Ok u
         /\ List.filter is_get ev = [Get u]
         /\ (st' = AdsFinished
             \/ exists rest,
                 st' = AdsAt search_url (pages_after (S k)) rest)).
Proof.
  unfold next_page.
  pose proof (pages_next_gets w search_url pause k) as Hstep.
  destruct (pages_next w search_url pause (pages_after k))
    as [ev [[page| |e] pages]].
  - rewrite get_ads_from_page_parse.
    assert (Hparse : List.filter is_get (ev ++ [Parse page])
                     = List.filter is_get ev)
      by (rewrite List.filter_app, app_nil_r; reflexivity).
    destruct Hstep as [(_ & _ & Hout) | (u & Hu & Hev & Hst)];
      [exfalso; exact (Hout page eq_refl)|].
    destruct Hst as [[_ Hout] | ->]; [exfalso; exact (Hout page eq_refl)|].
    destruct (page_ads w page) as [|ad rest].
    + right. exists u. rewrite Hparse. auto.
    + unfold yield_ad.
      destruct (agregate_ad_info (clock w) ad);
        right; exists u; rewrite Hparse; eauto.
  - cbv beta iota.
    destruct Hstep as [(Hev & _ & _) | (u & Hu & Hev & _)].
    + left. auto.
    + right. exists u. auto.
  - cbv beta iota.
    destruct Hstep as [(Hev & _ & _) | (u & Hu & Hev & _)].
    + left. auto.
    + right. exists u. auto.
Qed.

Lemma ads_requests_from (w : World) (args : Search) (search_url : str)
    (n : nat) :
  forall k rest,
  exists urls,
    List.filter is_get
      (fst (ads_run w args n (AdsAt search_url (pages_after k) rest)))
    = List.map Get urls
    /\ (List.length urls <= n)%nat
    /\ forall i u,
        urls !! i = Some u ->
        str_format w search_url (Z.of_nat (S (k + i))) = Ok u.
Proof.
  assert (Hnone : forall n' : nat,
             exists urls : list str,
               List.filter is_get (fst (ads_run w args n' AdsFinished))
               = List.map Get urls
               /\ (List.length urls <= S n')%nat
               /\ forall (i : nat) (u : str),
                   urls !! i = Some u ->
                   False).
  { intros n'. exists []. rewrite ads_run_finished.
    repeat split; [simpl; lia|]. intros i u Hi. discriminate. }
  induction n as [|n IH]; intros k rest.
  - exists []. repeat split; [reflexivity|]. intros i u Hi. discriminate.
  - cbn [ads_run ads_next]. destruct rest as [|ad rest].
    + pose proof (next_page_gets w search_url (pause args) k) as Hstep.
      destruct (next_page w search_url (pause args) (pages_after k))
        as [ev [out st']].
      destruct (ads_run w args n st') as [evs outs] eqn:Hrun.
      cbn [fst]. rewrite List.filter_app.
      destruct Hstep as [[Hev ->] | (u & Hu & Hev & Hst)]; rewrite Hev.
      * rewrite ads_run_finished in Hrun. injection Hrun as <- <-.
        exists []. repeat split; [simpl; lia|]. intros i v Hi. discriminate.
      * destruct Hst as [-> | [rest' ->]].
        -- rewrite ads_run_finished in Hrun. injection Hrun as <- <-.
           exists [u]. repeat split; [simpl; lia|].
           intros [|i] v Hi; [|discriminate]. injection Hi as <-.
           rewrite Nat.add_0_r. exact Hu.
        -- destruct (IH (S k) rest') as (urls & Hgets & Hlen & Hurls).
           rewrite Hrun in Hgets. cbn [fst] in Hgets.
           exists (u :: urls). repeat split.
           ++ rewrite Hgets. reflexivity.
           ++ simpl. lia.
           ++ intros [|i] v Hi.
              ** injection Hi as <-. rewrite Nat.add_0_r. exact Hu.
              ** replace (k + S i)%nat with (S k + i)%nat by lia.
                 apply Hurls. exact Hi.
    + unfold yield_ad. destruct (agregate_ad_info (clock w) ad) as [info|e].
      * destruct (IH k rest) as (urls & Hgets & Hlen & Hurls).
        destruct (ads_run w args n (AdsAt search_url (pages_after k) rest))
          as [evs outs].
        cbn [fst app] in *. exists urls. repeat split; auto.
      * destruct (Hnone n) as (urls & Hgets & Hlen & Hurls).
        destruct (ads_run w args n AdsFinished) as [evs outs].
        cbn [fst app] in *. exists urls. repeat split; auto.
        intros i u Hi. destruct (Hurls i u Hi).
Qed.

(** X13. Whatever the site answers, [get_all_ads] requests nothing when
    the search parameters are rejected, and otherwise asks for the pages
    of the URL template of [generate_search_url] in order, starting at
    page 1 and skipping none, with at most one request for each record or
    end it delivers. *)
Theorem ads_requested_in_order (w : World) (args : Search) (n : nat) :
  exists urls,
    List.filter is_get (fst (ads_run w args n AdsStart)) = List.map Get urls
    /\ (List.length urls <= n)%nat
    /\ forall i u,
        urls !! i = Some u ->
        exists search_url,
          generate_search_url (query args) (sort_by args) (by_title args)
            (with_images args) (owner args) = Ok search_url
          /\ str_format w search_url (Z.of_nat (S i)) = Ok u.
Proof.
  destruct n as [|n].
  - exists []. repeat split; [reflexivity|]. intros i u Hi. discriminate.
  - destruct (generate_search_url (query args) (sort_by args) (by_title args)
                (with_images args) (owner args)) as [search_url|e] eqn:Hurl.
    + destruct (ads_requests_from w args search_url (S n) 0%nat [])
        as (urls & Hgets & Hlen & Hurls).
      exists urls. split; [|split; [exact Hlen|]].
      * rewrite <- Hgets. cbn [ads_run ads_next pages_after].
        rewrite Hurl. reflexivity.
      * intros i u Hi. exists search_url. split; [reflexivity|].
        apply (Hurls i u Hi).
    + exists []. cbn [ads_run ads_next]. rewrite Hurl, ads_run_finished.
      repeat split; [simpl; lia|]. intros i u Hi. discriminate.
Qed.

(** X14. [get_all_ads] fetches lazily.  When the first page is served,
    carries no marker and lists ads that can all be aggregated, asking
    for as many records as the page has ads yields them in the order of
    the page after a single request: the second page is not asked for
    before the caller wants more. *)
Theorem first_page_lazy (w : World) (args : Search) (search_url : str)
    (infos : list AdInfo) :
  generate_search_url (query args) (sort_by args) (by_title args)
    (with_images args) (owner args) = Ok search_url ->
  served w search_url 1 ->
  nothing_found w (page_text w search_url 1) = false ->
  infos <> [] ->
  Forall2 (fun ad info => agregate_ad_info (clock w) ad = Ok info)
    (page_ads w (page_text w search_url 1)) infos ->
  ads_run w args (List.length infos) AdsStart
  = ([Get (page_url w search_url 1); Parse (page_text w search_url 1);
      Parse (page_text w search_url 1)],
     List.map Yield infos).
Proof.
  intros Hurl Hserved Hnf Hsome Hinfos.
  destruct (page_ads w (page_text w search_url 1)) as [|ad rest] eqn:Hads.
  - apply Forall2_nil_inv_l in Hinfos. contradiction.
  - apply Forall2_cons_inv_l in Hinfos as (info & infos' & Hinfo & Hrest & ->).
    cbn [List.length ads_run ads_next]. rewrite Hurl.
    change (next_page w search_url (pause args) PagesStart)
      with (next_page w search_url None (pages_after 0)).
    rewrite (next_page_listing w search_url None 0 ad rest I Hserved Hnf Hads).
    unfold yield_ad. rewrite Hinfo.
    rewrite <- (Nat.add_0_r (List.length infos')).
    rewrite (ads_run_rest w args search_url (pages_after 1) rest infos' 0
               Hrest).
    cbn [ads_run fst snd]. rewrite !app_nil_r. reflexivity.
Qed.

(** ** The characters of the search URL *)

Lemma utf8_encode_bytes (c : char) (bs : list N) :
  utf8_encode c = Some bs -> Forall (fun b => (b < 256)%N) bs.
Proof.
  intros Hbs.
  assert (Hc' : (c < 0xD800 \/ 0xDFFF < c < 0x110000)%N).
  { unfold utf8_encode in Hbs.
    destruct (c <? 0x80)%N eqn:H1;
      [apply N.ltb_lt in H1; lia|apply N.ltb_ge in H1].
    destruct (c <? 0x800)%N eqn:H2;
      [apply N.ltb_lt in H2; lia|apply N.ltb_ge in H2].
    destruct (c <? 0x10000)%N eqn:H3;
      [apply N.ltb_lt in H3|apply N.ltb_ge in H3].
    { destruct ((0xD800 <=? c) && (c <=? 0xDFFF))%N eqn:H4; [discriminate|].
      apply andb_false_iff in H4 as [H4 | H4]; apply N.leb_gt in H4; lia. }
    destruct (c <? 0x110000)%N eqn:H4; [|discriminate].
    apply N.ltb_lt in H4. lia. }
  assert (Hc : is_scalar c = true).
  { unfold is_scalar. apply orb_true_iff.
    destruct Hc' as [Hc' | Hc']; [left; apply N.ltb_lt; exact Hc'|right].
    apply andb_true_iff. split; apply N.ltb_lt; lia. }
  destruct (utf8_encode_scalar c Hc) as (bs' & Hbs' & Hall).
  congruence.
Qed.

Lemma quote_byte_quoted (b : N) :
  (b < 256)%N -> Forall (fun c => quoted_char c = true) (quote_byte b).
Proof.
  intros Hb.
  assert (Hall : List.forallb
                   (fun n => List.forallb quoted_char (quote_byte (N.of_nat n)))
                   (List.seq 0 256) = true) by (vm_compute; reflexivity).
  rewrite List.forallb_forall in Hall.
  specialize (Hall (N.to_nat b)). rewrite N2Nat.id in Hall.
  apply List.Forall_forall. apply List.forallb_forall. apply Hall.
  apply List.in_seq. lia.
Qed.

Lemma quote_quoted (s q : str) :
  quote s = Ok q -> Forall (fun c => quoted_char c = true) q.
Proof.
  revert q. induction s as [|c s IH]; intros q; simpl.
  - intros [= <-]. constructor.
  - destruct (utf8_encode c) as [bs|] eqn:Hbs; [|discriminate].
    destruct (quote s) as [q'|]; [|discriminate]. simpl. intros [= <-].
    apply Forall_app. split; [|apply IH; reflexivity].
    apply utf8_encode_bytes in Hbs.
    induction Hbs as [|b bs Hb _ IHbs]; simpl; [constructor|].
    apply Forall_app. split; [apply quote_byte_quoted; exact Hb|exact IHbs].
Qed.

Lemma quoted_plain (c : char) : quoted_char c = true -> plain_char c = true.
Proof.
  intros Hc.
  assert (Hlt : (c < 128)%N).
  { unfold quoted_char, always_safe, char_eqb in Hc.
    repeat match type of Hc with
           | (_ || _) = true => apply orb_prop in Hc as [Hc | Hc]
           end;
      try (apply andb_prop in Hc as [_ Hc]; apply N.leb_le in Hc; lia);
      apply N.eqb_eq in Hc; subst c; reflexivity. }
  assert (Hall : List.forallb
                   (fun n => implb (quoted_char (N.of_nat n))
                               (plain_char (N.of_nat n)))
                   (List.seq 0 128) = true) by (vm_compute; reflexivity).
  rewrite List.forallb_forall in Hall.
  specialize (Hall (N.to_nat c)). rewrite N2Nat.id, Hc in Hall.
  apply Hall. apply List.in_seq. lia.
Qed.

Lemma count_char_app (c : char) (a b : str) :
  count_char c (a ++ b) = (count_char c a + count_char c b)%nat.
Proof.
  unfold count_char. rewrite List.filter_app, List.length_app. reflexivity.
Qed.

Lemma count_char_quoted (c : char) (q : str) :
  quoted_char c = false ->
  Forall (fun c => quoted_char c = true) q ->
  count_char c q = 0%nat.
Proof.
  intros Hc. unfold count_char.
  induction 1 as [|x q Hx _ IH]; simpl; [reflexivity|].
  destruct (char_eqb c x) eqn:Heq; [|exact IH].
  apply N.eqb_eq in Heq. congruence.
Qed.

Lemma plain_check (s : str) :
  List.forallb plain_char s = true -> Forall (fun c => plain_char c = true) s.
Proof.
  rewrite List.forallb_forall. apply List.Forall_forall.
Qed.

(** X15. A URL template that [generate_search_url] returns is plain
    ASCII without whitespace, and the query cannot add to its structure:
    whatever the query, the template has one [?], the five [&] that
    separate its six parameters, their six [=] and no [#]. *)
Theorem search_url_structure (query : str) (sort_by : option str)
    (by_title with_images : bool) (owner : option str) (search_url : str) :
  generate_search_url query sort_by by_title with_images owner
  = Ok search_url ->
  Forall (fun c => (c < 128)%N /\ isspace c = false) search_url
  /\ count_char (chr "?") search_url = 1%nat
  /\ count_char (chr "&") search_url = 5%nat
  /\ count_char (chr "=") search_url = 6%nat
  /\ count_char (chr "#") search_url = 0%nat.
Proof.
  unfold generate_search_url.
  pose proof (sort_values_domain sort_by) as Hsort.
  pose proof (owners_domain owner) as Howner.
  destruct (sort_values !! sort_by) as [sv|] eqn:Hsv; [|discriminate].
  destruct (owners !! owner) as [ov|] eqn:Hov; [|discriminate].
  destruct (quote query) as [q|] eqn:Hq; [|discriminate].
  cbn [bind]. intros Hurl.
  apply (f_equal (fun r => match r with Ok u => u | Raise _ => [] end))
    in Hurl.
  cbv beta iota in Hurl. subst search_url.
  apply quote_quoted in Hq.
  destruct (proj1 Hsort ltac:(eexists; reflexivity)) as [s Hs].
  destruct (proj1 Howner ltac:(eexists; reflexivity)) as [o Ho].
  rewrite Hs in Hsv. rewrite Ho in Hov.
  assert (Hplain : Forall (fun c => plain_char c = true) q)
    by (eapply List.Forall_impl; [|exact Hq]; apply quoted_plain).
  split; [|split; [|split; [|split]]].
  - apply (List.Forall_impl (P := fun c => plain_char c = true)).
    { intros c Hc. unfold plain_char in Hc.
      apply andb_prop in Hc as [Hlt Hsp]. apply N.ltb_lt in Hlt.
      apply negb_true_iff in Hsp. split; [exact Hlt|exact Hsp]. }
    repeat (apply Forall_app; split); try exact Hplain;
      apply plain_check;
      destruct s, o, by_title, with_images;
      vm_compute in Hsv, Hov;
      injection Hsv as <-; injection Hov as <-;
      vm_compute; reflexivity.
  - rewrite !count_char_app, (count_char_quoted (chr "?") q eq_refl Hq).
    destruct s, o, by_title, with_images;
      vm_compute in Hsv, Hov;
      injection Hsv as <-; injection Hov as <-;
      vm_compute; reflexivity.
  - rewrite !count_char_app, (count_char_quoted (chr "&") q eq_refl Hq).
    destruct s, o, by_title, with_images;
      vm_compute in Hsv, Hov;
      injection Hsv as <-; injection Hov as <-;
      vm_compute; reflexivity.
  - rewrite !count_char_app, (count_char_quoted (chr "=") q eq_refl Hq).
    destruct s, o, by_title, with_images;
      vm_compute in Hsv, Hov;
      injection Hsv as <-; injection Hov as <-;
      vm_compute; reflexivity.
  - rewrite !count_char_app, (count_char_quoted (chr "#") q eq_refl Hq).
    destruct s, o, by_title, with_images;
      vm_compute in Hsv, Hov;
      injection Hsv as <-; injection Hov as <-;
      vm_compute; reflexivity.
Qed.

(** ** The exceptions of [normalize_date] *)

Lemma int_raises (s : str) (e : exn) :
  int s = Raise e -> is_value_error e = true.
Proof.
  unfold int.
  assert (Hu : forall t e',
             match scan_digits 0 false t with
             | Some count =>
                 if int_max_str_digits <? count then Raise digits_exceeded
                 else
                   match int_digits 0 false t with
                   | Some n => Ok n
                   | None => Raise invalid_literal
                   end
             | None => Raise invalid_literal
             end = Raise e' ->
             is_value_error e' = true).
  { intros t e'. destruct (scan_digits 0 false t) as [count|];
      [|intros [= <-]; reflexivity].
    destruct (int_max_str_digits <? count); [intros [= <-]; reflexivity|].
    destruct (int_digits 0 false t); [discriminate|].
    intros [= <-]. reflexivity. }
  destruct (strip s) as [|c t]; [apply Hu|].
  destruct (char_eqb c (chr "+")); [apply Hu|].
  destruct (char_eqb c (chr "-")); [|apply Hu].
  pose proof (Hu t) as Ht.
  destruct (match scan_digits 0 false t with
            | Some count => _
            | None => _
            end) as [n|e'].
  - discriminate.
  - cbn [bind]. intros [= <-]. apply Ht. reflexivity.
Qed.

Lemma field_raises (name : string) (default : Z) (found : groups) (e : exn) :
  field name default found = Raise e -> is_value_error e = true.
Proof.
  unfold field. destruct (group (chr name) found); [apply int_raises|].
  discriminate.
Qed.

Lemma check_date_raises (y m d : Z) (e : exn) :
  check_date y m d = Raise e -> is_value_error e = true.
Proof.
  unfold check_date.
  repeat match goal with
         | |- context [if ?b then _ else _] => destruct b
         end; try discriminate; intros [= <-]; reflexivity.
Qed.

Lemma new_datetime_raises (y m d h mi s : Z) (e : exn) :
  new_datetime y m d h mi s = Raise e -> is_value_error e = true.
Proof.
  unfold new_datetime.
  destruct (check_date y m d) eqn:Hd; cbn [bind];
    [|intros [= <-]; eapply check_date_raises; exact Hd].
  unfold check_time.
  repeat match goal with
         | |- context [if ?b then _ else _] => destruct b
         end; cbn [bind]; try discriminate; intros [= <-]; reflexivity.
Qed.

Lemma strptime_raises (data_string format : str) (e : exn) :
  strptime data_string format = Raise e -> is_value_error e = true.
Proof.
  unfold strptime.
  destruct (pattern false format) as [rs|]; [|intros [= <-]; reflexivity].
  destruct (matches (cat_all rs) data_string) as [|[found matched rest] hits];
    [intros [= <-]; reflexivity|].
  destruct rest; [|intros [= <-]; reflexivity].
  destruct (field "m" 1 found) as [m|] eqn:Hm; cbn [bind];
    [|intros [= <-]; eapply field_raises; exact Hm].
  destruct (field "d" 1 found) as [d|] eqn:Hd; cbn [bind];
    [|intros [= <-]; eapply field_raises; exact Hd].
  destruct (field "H" 0 found) as [h|] eqn:Hh; cbn [bind];
    [|intros [= <-]; eapply field_raises; exact Hh].
  destruct (field "M" 0 found) as [mi|] eqn:Hmi; cbn [bind];
    [|intros [= <-]; eapply field_raises; exact Hmi].
  destruct (group (chr "Y") found) as [text|].
  - destruct (int text) as [y|] eqn:Hy; cbn [bind];
      [|intros [= <-]; eapply int_raises; exact Hy].
    destruct (check_date y m d) eqn:Hc; cbn [bind];
      [|intros [= <-]; eapply check_date_raises; exact Hc].
    apply new_datetime_raises.
  - cbv zeta.
    destruct (check_date _ m d) eqn:Hc; cbn [bind];
      [|intros [= <-]; eapply check_date_raises; exact Hc].
    apply new_datetime_raises.
Qed.

(** X16. [normalize_date] lets out three kinds of exception only.  An
    [IndexError] means a raw date without a relative marker and with
    fewer than two words, a [KeyError] one without a marker whose second
    word is not a month name, the word being the key; every other failure
    is a [ValueError] of the date parser or of the date itself. *)
Theorem normalize_date_exceptions (now : datetime) (raw_date : str)
    (e : exn) :
  normalize_date now raw_date = Raise e ->
  is_value_error e = true
  \/ (contains (py "Вчера") raw_date = false
      /\ contains (py "Сегодня") raw_date = false
      /\ ((e = IndexError /\ split raw_date !! 1%nat = None)
          \/ exists name,
              e = KeyError name
              /\ split raw_date !! 1%nat = Some name
              /\ months !! name = None)).
Proof.
  unfold normalize_date.
  destruct (contains (py "Вчера") raw_date) eqn:Hyes;
    [|destruct (contains (py "Сегодня") raw_date) eqn:Htod]; cbn [orb].
  1, 2: destruct (strptime _ _) as [dt|e'] eqn:Hdt; cbn [bind];
    [discriminate|]; intros [= <-]; left; eapply strptime_raises; exact Hdt.
  unfold replace_month_name_with_number. cbv zeta.
  destruct (split raw_date !! 1%nat) as [name|] eqn:Hname;
    [|cbn [bind]; intros [= <-]; right; auto].
  destruct (months !! name) as [number|] eqn:Hmonth;
    [|cbn [bind]; intros [= <-]; right; repeat split; right; eauto].
  cbn [bind]. destruct (contains (py ":") _).
  - destruct (strptime _ _) as [dt|e'] eqn:Hdt; cbn [bind];
      [|intros [= <-]; left; eapply strptime_raises; exact Hdt].
    unfold replace_year.
    destruct (new_datetime _ _ _ _ _ _) as [dt'|e'] eqn:Hdt'; cbn [bind];
      [discriminate|].
    intros [= <-]. left. eapply new_datetime_raises. exact Hdt'.
  - destruct (strptime _ _) as [dt|e'] eqn:Hdt; cbn [bind];
      [discriminate|].
    intros [= <-]. left. eapply strptime_raises. exact Hdt.
Qed.

(** ** The characters of a raw date *)

Lemma one_char_sound (p : char -> bool) (s : str) (h : hit) :
  In h (one_char p s) ->
  s = matched h ++ rest h /\ Forall (fun c => p c = true) (matched h).
Proof.
  unfold one_char. destruct s as [|c t]; [intros []|].
  destruct (p c) eqn:Hp; [|intros []].
  intros [<- | []]. split; [reflexivity|]. repeat constructor. exact Hp.
Qed.

Lemma spaces_from_sound (s run : str) (h : hit) :
  In h (spaces_from run s) ->
  exists run',
    matched h = run ++ run' /\ s = run' ++ rest h
    /\ Forall (fun c => isspace c = true) run'.
Proof.
  revert run. induction s as [|c t IH]; intros run; simpl; [intros []|].
  destruct (isspace c) eqn:Hc; [|intros []].
  intros Hin. apply List.in_app_or in Hin as [Hin | [<- | []]].
  - destruct (IH _ Hin) as (run' & Hm & Ht & Hsp).
    exists (c :: run'). rewrite Hm, <- app_assoc, Ht.
    repeat split. constructor; assumption.
  - exists [c]. repeat split. repeat constructor. exact Hc.
Qed.

Lemma matches_sound (r : regex) :
  forall s h,
    In h (matches r s) ->
    s = matched h ++ rest h
    /\ Forall (fun c => accepts r c = true) (matched h).
Proof.
  induction r as [|k|lo hi| | |r1 IH1 r2 IH2|r1 IH1 r2 IH2|name r IH];
    intros s h; cbn [matches accepts].
  - intros [<- | []]. split; [reflexivity|constructor].
  - apply one_char_sound.
  - apply (one_char_sound (fun c => (lo <=? c) && (c <=? hi))%N).
  - apply one_char_sound.
  - intros Hin. apply spaces_from_sound in Hin as (run & -> & -> & Hsp).
    split; [reflexivity|exact Hsp].
  - intros Hin. apply List.in_flat_map in Hin as (h1 & Hh1 & Hin).
    apply List.in_map_iff in Hin as (h2 & <- & Hh2).
    destruct (IH1 _ _ Hh1) as [Hs1 Ha1]. destruct (IH2 _ _ Hh2) as [Hs2 Ha2].
    cbn [matched rest]. split; [rewrite <- app_assoc; congruence|].
    apply Forall_app. split.
    + eapply List.Forall_impl; [|exact Ha1].
      intros c Hc. cbv beta in Hc. rewrite Hc. reflexivity.
    + eapply List.Forall_impl; [|exact Ha2].
      intros c Hc. cbv beta in Hc. rewrite Hc. apply orb_true_r.
  - intros Hin. apply List.in_app_or in Hin as [Hin | Hin].
    + destruct (IH1 _ _ Hin) as [Hs1 Ha1]. split; [exact Hs1|].
      eapply List.Forall_impl; [|exact Ha1].
      intros c Hc. cbv beta in Hc. rewrite Hc. reflexivity.
    + destruct (IH2 _ _ Hin) as [Hs2 Ha2]. split; [exact Hs2|].
      eapply List.Forall_impl; [|exact Ha2].
      intros c Hc. cbv beta in Hc. rewrite Hc. apply orb_true_r.
  - intros Hin. apply List.in_map_iff in Hin as (h' & <- & Hh').
    cbn [matched rest]. apply IH. exact Hh'.
Qed.

Lemma ascii_digit_decimal (c : char) :
  (48 <= c <= 57)%N -> isdecimal c = true.
Proof.
  intros Hc.
  assert (Hall : List.forallb (fun n => isdecimal (N.of_nat n))
                   (List.seq 48 10) = true) by (vm_compute; reflexivity).
  rewrite List.forallb_forall in Hall.
  specialize (Hall (N.to_nat c)). rewrite N2Nat.id in Hall.
  apply Hall. apply List.in_seq. lia.
Qed.

Lemma date_regex_accepts (r : regex) (c : char) :
  date_regex r = true -> accepts r c = true -> date_char c = true.
Proof.
  unfold date_char.
  induction r as [|k|lo hi| | |r1 IH1 r2 IH2|r1 IH1 r2 IH2|name r IH];
    cbn [date_regex accepts].
  - discriminate.
  - intros Hk Hc. apply N.eqb_eq in Hc. subst c. exact Hk.
  - intros Hr Hc. apply andb_prop in Hr as [Hlo Hhi].
    apply andb_prop in Hc as [Hc1 Hc2].
    apply N.leb_le in Hlo, Hhi, Hc1, Hc2.
    rewrite ascii_digit_decimal by lia. reflexivity.
  - intros _ ->. reflexivity.
  - intros _ ->. rewrite orb_true_r. reflexivity.
  - intros Hr Hc. apply andb_prop in Hr as [Hr1 Hr2].
    apply orb_prop in Hc as [Hc | Hc]; auto.
  - intros Hr Hc. apply andb_prop in Hr as [Hr1 Hr2].
    apply orb_prop in Hc as [Hc | Hc]; auto.
  - exact IH.
Qed.

Lemma strptime_date_chars (data_string format : str) (rs : list regex)
    (dt : datetime) :
  pattern false format = Some rs ->
  date_regex (cat_all rs) = true ->
  strptime data_string format = Ok dt ->
  Forall (fun c => date_char c = true) data_string.
Proof.
  intros Hrs Hre. unfold strptime. rewrite Hrs.
  destruct (matches (cat_all rs) data_string)
    as [|[groups text left] hits] eqn:Hm; [discriminate|].
  destruct left; [|discriminate]. intros _.
  destruct (matches_sound (cat_all rs) data_string (mk_hit groups text []))
    as [Hs Ha]; [rewrite Hm; left; reflexivity|].
  cbn [matched rest] in Hs, Ha.
  rewrite app_nil_r in Hs. subst text.
  eapply List.Forall_impl; [|exact Ha].
  intros c. apply date_regex_accepts. exact Hre.
Qed.

Lemma join_forall (P : char -> Prop) (sep : str) (parts : list str) :
  Forall P (join sep parts) -> Forall (Forall P) parts.
Proof.
  induction parts as [|p parts IH]; [constructor|].
  destruct parts as [|p' parts].
  - simpl. intros Hp. repeat constructor. exact Hp.
  - change (join sep (p :: p' :: parts))
      with (p ++ sep ++ join sep (p' :: parts)).
    intros H. apply Forall_app in H as [Hp H].
    apply Forall_app in H as [_ H]. constructor; [exact Hp|apply IH; exact H].
Qed.

Lemma relative_date_chars (now : datetime) (raw_date s : str)
    (mk : Marker) :
  marker_of raw_date = Some mk ->
  normalize_date now raw_date = Ok s ->
  Forall (fun c => date_char c = true)
    (replace raw_date (marker_text mk) []).
Proof.
  unfold normalize_date, marker_of, convert_relative_date_to_absolute,
    replace_relative_day_with_absolute.
  cbv zeta.
  destruct (contains (py "Вчера") raw_date) eqn:Hyes;
    [|destruct (contains (py "Сегодня") raw_date) eqn:Htod];
    cbn [orb]; [| |discriminate].
  all: intros [= <-]; destruct (strptime _ _) as [dt|e] eqn:Hdt;
    cbn [bind]; [|discriminate]; intros _;
    (eapply strptime_date_chars in Hdt;
     [|vm_compute; reflexivity|vm_compute; reflexivity]);
    apply Forall_app in Hdt as [_ Hdt]; exact Hdt.
Qed.

(** X17. A raw date that [normalize_date] accepts holds nothing but the
    marker or the month name, decimal digits, whitespace and colons: with
    a relative marker ([Вчера] before [Сегодня]), what is left when the
    marker is removed consists of such characters, and without one every
    word other than the second does. *)
Theorem normalize_date_alphabet (now : datetime) (raw_date s : str) :
  normalize_date now raw_date = Ok s ->
  match marker_of raw_date with
  | Some mk =>
      Forall (fun c => date_char c = true)
        (replace raw_date (marker_text mk) [])
  | None =>
      forall i word,
        split raw_date !! i = Some word -> i <> 1%nat ->
        Forall (fun c => date_char c = true) word
  end.
Proof.
  intros Hnorm.
  destruct (marker_of raw_date) as [mk|] eqn:Hmk;
    [exact (relative_date_chars now raw_date s mk Hmk Hnorm)|].
  revert Hnorm. unfold normalize_date. unfold marker_of in Hmk.
  destruct (contains (py "Вчера") raw_date); [discriminate|].
  destruct (contains (py "Сегодня") raw_date); [discriminate|].
  cbn [orb]. unfold replace_month_name_with_number. cbv zeta.
  destruct (split raw_date !! 1%nat) as [name|]; [|discriminate].
  destruct (months !! name) as [number|]; [|discriminate].
  cbn [bind].
  assert (Hwords : Forall (fun c => date_char c = true)
                     (join (py " ") (<[1%nat := number]> (split raw_date))) ->
                   forall i word,
                     split raw_date !! i = Some word -> i <> 1%nat ->
                     Forall (fun c => date_char c = true) word).
  { intros Hall i word Hi Hne. apply join_forall in Hall.
    rewrite Forall_lookup in Hall. apply (Hall i).
    rewrite list_lookup_insert_ne by congruence. exact Hi. }
  destruct (contains (py ":") _).
  - destruct (strptime _ _) as [dt|e] eqn:Hdt; cbn [bind]; [|discriminate].
    intros _. apply Hwords.
    eapply strptime_date_chars in Hdt;
      [exact Hdt|vm_compute; reflexivity|vm_compute; reflexivity].
  - destruct (strptime _ _) as [dt|e] eqn:Hdt; cbn [bind]; [|discriminate].
    intros _. apply Hwords.
    eapply strptime_date_chars in Hdt;
      [exact Hdt|vm_compute; reflexivity|vm_compute; reflexivity].
Qed.

Lemma replace_from_keeps (old new : str) (c : char) :
  old <> [] -> ~ In c old ->
  forall s skip,
    (skip <= List.length old)%nat ->
    startswith s (drop (List.length old - skip) old) = true ->
    In c s -> In c (replace_from old new skip s).
Proof.
  intros Hne Hc. induction s as [|x s' IH]; intros skip Hskip Hrem;
    [intros []|].
  cbn [replace_from]. destruct skip as [|k].
  - destruct (startswith (x :: s') old) eqn:Hocc.
    + destruct old as [|o old']; [contradiction|].
      cbn [startswith] in Hocc. apply andb_prop in Hocc as [Hx Hocc].
      apply N.eqb_eq in Hx. subst x.
      intros [<- | Hin]; [exfalso; apply Hc; left; reflexivity|].
      apply List.in_or_app. right. cbn [List.length Nat.pred].
      apply IH; [simpl; lia| |exact Hin].
      replace (List.length (o :: old') - List.length old')%nat with 1%nat
        by (simpl; lia).
      exact Hocc.
    + intros [<- | Hin]; [left; reflexivity|]. right.
      apply IH; [lia| |exact Hin].
      rewrite Nat.sub_0_r, drop_all. apply startswith_nil.
  - destruct (lookup_lt_is_Some_2 old (List.length old - S k)%nat
                ltac:(lia)) as [r Hr].
    rewrite (drop_S _ _ _ Hr) in Hrem.
    cbn [startswith] in Hrem. apply andb_prop in Hrem as [Hx Hrem].
    apply N.eqb_eq in Hx. subst x.
    intros [<- | Hin].
    + exfalso. apply Hc. apply list_elem_of_In.
      eapply list_elem_of_lookup_2. exact Hr.
    + apply IH; [lia| |exact Hin].
      replace (List.length old - k)%nat
        with (S (List.length old - S k)) by lia.
      exact Hrem.
Qed.

Lemma replace_keeps (s old new : str) (c : char) :
  old <> [] -> ~ In c old -> In c s -> In c (replace s old new).
Proof.
  intros Hne Hc Hin. unfold replace.
  destruct old as [|o old'] eqn:Hold; [contradiction|]. rewrite <- Hold in *.
  apply replace_from_keeps; try assumption; [lia|].
  rewrite Nat.sub_0_r, drop_all. apply startswith_nil.
Qed.

Lemma contains_head (o : char) (old s : str) :
  contains (o :: old) s = true -> In o s.
Proof.
  induction s as [|x s IH]; [discriminate|].
  cbn [contains startswith]. intros H.
  apply orb_prop in H as [H | H].
  - apply andb_prop in H as [H _]. apply N.eqb_eq in H. left. congruence.
  - right. apply IH. exact H.
Qed.

(** X18. A raw date with a relative marker and any other character that
    is not a decimal digit, whitespace or a colon is never normalised:
    [normalize_date] raises a [ValueError], whatever the clock reads.  In
    particular a raw date with both markers is rejected. *)
Theorem stray_character_rejected (now : datetime) (raw_date : str) :
  (forall mk c,
      marker_of raw_date = Some mk ->
      In c raw_date -> ~ In c (marker_text mk) -> date_char c = false ->
      exists e,
        normalize_date now raw_date = Raise e /\ is_value_error e = true)
  /\ (contains (py "Вчера") raw_date = true ->
      contains (py "Сегодня") raw_date = true ->
      exists e,
        normalize_date now raw_date = Raise e /\ is_value_error e = true).
Proof.
  assert (Hstray : forall mk c,
             marker_of raw_date = Some mk ->
             In c raw_date -> ~ In c (marker_text mk) ->
             date_char c = false ->
             exists e,
               normalize_date now raw_date = Raise e
               /\ is_value_error e = true).
  { intros mk c Hmk Hin Hout Hc.
    destruct (normalize_date now raw_date) as [s|e] eqn:Hnorm.
    - exfalso. apply (relative_date_chars _ _ _ mk Hmk) in Hnorm.
      rewrite List.Forall_forall in Hnorm.
      assert (Hkept : In c (replace raw_date (marker_text mk) []))
        by (apply replace_keeps;
            [destruct mk; discriminate|exact Hout|exact Hin]).
      apply Hnorm in Hkept. congruence.
    - exists e. split; [reflexivity|].
      unfold normalize_date in Hnorm. unfold marker_of in Hmk.
      destruct (contains (py "Вчера") raw_date);
        [|destruct (contains (py "Сегодня") raw_date); [|discriminate]];
        cbn [orb] in Hnorm.
      all: destruct (strptime _ _) as [dt|e'] eqn:Hdt; cbn [bind] in Hnorm;
        [discriminate|]; injection Hnorm as <-;
        eapply strptime_raises; exact Hdt. }
  split; [exact Hstray|].
  intros Hyes Htod. apply (Hstray Yesterday (chr "С")).
  - unfold marker_of. rewrite Hyes. reflexivity.
  - apply (contains_head _ _ _ Htod).
  - vm_compute. intros H. repeat destruct H as [H | H]; try discriminate H.
    exact H.
  - reflexivity.
Qed.

(** ** The further properties at sample inputs *)

Lemma yielded_record_fields_witness :
  exists ad,
    next_ad (sample_world [sample_ad (py "Вчера 15:29")]) sample_args AdsStart
    = Some ad
    /\ get_price ad = Ok (Price sample_info)
    /\ trimmed (Title sample_info)
    /\ startswith (Link sample_info) base_url = true
    /\ canonical (Date sample_info).
Proof.
  destruct (yielded_record_fields
              (sample_world [sample_ad (py "Вчера 15:29")]) sample_args
              AdsStart (AdsAt sample_url (PagesAt 1) [])
              [Get (sample_page_url 1); Parse (py "1"); Parse (py "1")]
              sample_info)
    as (ad & a & text & siblings & href & raw_date & Hdue & _
        & (_ & _ & Htitle) & (_ & _ & Hlink) & (Hprice & _)
        & (_ & _ & Hdate)).
  - vm_compute. reflexivity.
  - exists ad. repeat split; assumption.
Defined.

Lemma normalize_date_calendar_witness :
  exists y m d,
    (1 <= y <= 9999 /\ 1 <= m <= 12 /\ 1 <= d <= days_in_month y m)
    /\ (py "2019-03-05 09:41" = date_text y m d
        \/ exists h mi,
            0 <= h <= 23 /\ 0 <= mi <= 59
            /\ py "2019-03-05 09:41" = datetime_text y m d h mi
            /\ (contains (py "Вчера") (py "5 марта 09:41") = false ->
                contains (py "Сегодня") (py "5 марта 09:41") = false ->
                y = year (mk_datetime 2019 3 5 12 0 0))).
Proof.
  apply (normalize_date_calendar (mk_datetime 2019 3 5 12 0 0)
           (py "5 марта 09:41") (py "2019-03-05 09:41")).
  vm_compute. reflexivity.
Defined.

Lemma replace_month_name_words_witness :
  replace_month_name_with_number (py "10 1 2019") = Raise (KeyError (py "1")).
Proof.
  destruct (replace_month_name_words (py "10   января 2019") (py "10 1 2019"))
    as (name & number & Hname & Hnumber & _ & _ & Hraise).
  - vm_compute. reflexivity.
  - vm_compute in Hname. injection Hname as <-.
    vm_compute in Hnumber. injection Hnumber as <-.
    exact Hraise.
Defined.

Lemma pages_trace_witness :
  fst (pages_run (sample_world []) sample_url (Some (1 # 2)%Q) 3 PagesStart)
  = [Get (sample_page_url 1); Parse (py "1"); Sleep (1 # 2)%Q;
     Get (sample_page_url 2); Parse (py "2")].
Proof.
  refine (eq_trans
            (pages_trace (sample_world []) sample_url (Some (1 # 2)%Q) 1 1
               _ _ _ _) _).
  - split; reflexivity.
  - intros n Hn. assert (n = 1 \/ n = 2)%nat as [-> | ->] by lia;
      eexists; split; vm_compute; reflexivity.
  - intros n Hn. assert (n = 1)%nat as -> by lia. vm_compute. reflexivity.
  - vm_compute. reflexivity.
  - vm_compute. reflexivity.
Defined.

Lemma refused_pause_raises_witness :
  pages_run (sample_world []) sample_url (Some (-1 # 1)%Q) 3 PagesStart
  = ([Get (sample_page_url 1); Parse (py "1")],
     [Yield (py "1");
      Throw (ValueError (py "sleep length must be non-negative"));
      StopIteration])
  /\ pages_run (sample_world []) sample_url (Some (inject_Z (10 ^ 30))) 3
       PagesStart
     = ([Get (sample_page_url 1); Parse (py "1")],
        [Yield (py "1");
         Throw (OverflowError
                  (py "timestamp too large to convert to C _PyTime_t"));
         StopIteration]).
Proof.
  split.
  - destruct (refused_pause_raises (sample_world []) sample_url (-1 # 1)%Q 1)
      as (_ & _ & Hrun & _).
    apply Hrun; reflexivity.
  - destruct (refused_pause_raises (sample_world []) sample_url
                (inject_Z (10 ^ 30)) 1)
      as (_ & _ & _ & Hrun).
    apply Hrun. right. reflexivity.
Defined.

Lemma all_ads_listed_witness :
  ads_run (sample_world sample_ads) paused_args 3 AdsStart
  = ([Get (sample_page_url 1); Parse (py "1"); Parse (py "1");
      Sleep (1 # 2)%Q; Get (sample_page_url 2); Parse (py "2")],
     List.map Yield sample_infos ++ [StopIteration]).
Proof.
  refine (eq_trans
            (all_ads_listed (sample_world sample_ads) paused_args sample_url
               1 0 sample_infos _ _ _ _ _ _ _) _).
  - vm_compute. reflexivity.
  - split; reflexivity.
  - intros n Hn. assert (n = 1 \/ n = 2)%nat as [-> | ->] by lia;
      eexists; split; vm_compute; reflexivity.
  - intros n Hn. assert (n = 1)%nat as -> by lia. vm_compute. reflexivity.
  - vm_compute. reflexivity.
  - intros n Hn. assert (n = 1)%nat as -> by lia. vm_compute. discriminate.
  - repeat constructor.
  - vm_compute. reflexivity.
Defined.

Lemma first_page_lazy_witness :
  ads_run (sample_world sample_ads) sample_args 2 AdsStart
  = ([Get (sample_page_url 1); Parse (py "1"); Parse (py "1")],
     List.map Yield sample_infos).
Proof.
  refine (eq_trans
            (first_page_lazy (sample_world sample_ads) sample_args sample_url
               sample_infos _ _ _ _ _) _).
  - vm_compute. reflexivity.
  - eexists. split; vm_compute; reflexivity.
  - vm_compute. reflexivity.
  - discriminate.
  - repeat constructor.
  - vm_compute. reflexivity.
Defined.

Lemma search_url_structure_witness :
  Forall (fun c => (c < 128)%N /\ isspace c = false) escaped_url
  /\ count_char (chr "&") escaped_url = 5%nat.
Proof.
  destruct (search_url_structure (py "a&b=? c") (Some (py "date")) true false
              (Some (py "company")) escaped_url)
    as (Hplain & _ & Hamp & _).
  - vm_compute. reflexivity.
  - split; assumption.
Defined.

Lemma normalize_date_exceptions_witness :
  is_value_error (ValueError (py "day is out of range for month")) = true
  \/ (contains (py "Вчера") (py "31 апреля 2019") = false
      /\ contains (py "Сегодня") (py "31 апреля 2019") = false
      /\ ((ValueError (py "day is out of range for month") = IndexError
           /\ split (py "31 апреля 2019") !! 1%nat = None)
          \/ exists name,
              ValueError (py "day is out of range for month") = KeyError name
              /\ split (py "31 апреля 2019") !! 1%nat = Some name
              /\ months !! name = None)).
Proof.
  apply (normalize_date_exceptions (mk_datetime 2019 1 11 12 0 0)).
  vm_compute. reflexivity.
Defined.

Lemma normalize_date_alphabet_witness :
  Forall (fun c => date_char c = true)
    (replace (py "Вчера 15:29") (py "Вчера") []).
Proof.
  apply (normalize_date_alphabet (mk_datetime 2019 1 11 12 0 0)
           (py "Вчера 15:29") (py "2019-01-10 15:29")).
  vm_compute. reflexivity.
Defined.

Lemma stray_character_rejected_witness :
  exists e,
    normalize_date (mk_datetime 2019 1 11 12 0 0) (py "Вчера в 15:29")
    = Raise e
    /\ is_value_error e = true.
Proof.
  apply (proj1 (stray_character_rejected (mk_datetime 2019 1 11 12 0 0)
                  (py "Вчера в 15:29"))
           Yesterday (chr "в")).
  - reflexivity.
  - vm_compute. tauto.
  - vm_compute. intros H. repeat destruct H as [H | H]; try discriminate H.
    exact H.
  - reflexivity.
Defined.
